(** * Contract risk assessment: scoring, rule engine, pattern model, adapters

    A shallow embedding of the scoring and detection code of the
    repository, with the properties its specification states.

    - [PyStr]: the Python string operations the code relies on.
    - [RiskScorer]: [src/contract_analysis/imp_risk_scorer.py].
    - [Re], [ReMatch]: the fragment of the module [re] the code uses.
    - [Loophole]: [scripts/loophole_detection.py], the custom rules and
      the model-based detection.
    - [Train]: [scripts/train_model.py].
    - [Json]: the decoder behind [json.loads].
    - [Tools]: [src/contract_analysis/imp_tools_integration.py], the
      Mythril adapter and the severity table of the Oyente adapter.
    - [MultiTool]: [MultiToolAnalyzer] of the same file.
    - [ScorerHelpers]: [_find_closing_brace] of the risk scorer.
    - [ScoreMore], [ToolsMore], [RulesMore], [TrainMore]: vocabulary of
      further statements about the scorer, the adapter, the custom rules
      and the severity table of the training pass.

    Python [str] values are Rocq [string]s, read as sequences of code
    points below 256; Python [int]s are [Z]; dictionaries keyed by strings
    are [gmap string _] where the insertion order is not observed.
    Where a function of the code would leave these strings, or where
    its answer depends on the interpreter's recursion limit, its model
    raises [outside_fragment]: no statement is made there. *)

From Stdlib Require Import ZArith Ascii String List Sorted Lia.
From stdpp Require Import base option list gmap strings fin_maps.

Open Scope string_scope.
Open Scope Z_scope.

(** ** Python string operations *)

Module PyStr.

Definition code (c : ascii) : N := N_of_ascii c.

Definition in_range (lo hi : N) (c : ascii) : bool :=
  (lo <=? code c)%N && (code c <=? hi)%N.

(** [str.isspace] on one character; also the class [\s] of [re]. *)
Definition isspace (c : ascii) : bool :=
  in_range 9 13 c || in_range 28 32 c || in_range 133 133 c
  || in_range 160 160 c.

(** [str.isdigit] on the decimal digits; the class [\d] of [re]. *)
Definition isdigit (c : ascii) : bool := in_range 48 57 c.

(** The class [\w] of [re] on [str] patterns: alphanumerics and [_]. *)
Definition isword (c : ascii) : bool :=
  in_range 48 57 c || in_range 65 90 c || in_range 95 95 c
  || in_range 97 122 c || in_range 170 170 c || in_range 178 179 c
  || in_range 181 181 c || in_range 185 186 c || in_range 188 190 c
  || in_range 192 214 c || in_range 216 246 c || in_range 248 255 c.

Definition is_ascii_letter (c : ascii) : bool :=
  in_range 65 90 c || in_range 97 122 c.

Definition is_upper (c : ascii) : bool :=
  in_range 65 90 c || in_range 192 214 c || in_range 216 222 c.

Definition is_lower_cased (c : ascii) : bool :=
  in_range 97 122 c || in_range 224 246 c || in_range 248 254 c.

Definition lower_char (c : ascii) : ascii :=
  if is_upper c then ascii_of_N (code c + 32) else c.

(** Upper case of a character whose upper case is again one character
    below 256. *)
Definition upper_char (c : ascii) : ascii :=
  if is_lower_cased c then ascii_of_N (code c - 32) else c.

(** The three characters whose upper case is not a character below 256. *)
Definition upper_leaves_range (c : ascii) : bool :=
  in_range 181 181 c || in_range 223 223 c || in_range 255 255 c.

(** The sharp s, whose title case is the two characters [Ss]. *)
Definition is_sharp_s (c : ascii) : bool := in_range 223 223 c.

Fixpoint map_chars (f : ascii -> ascii) (s : string) : string :=
  match s with
  | EmptyString => EmptyString
  | String c r => String (f c) (map_chars f r)
  end.

(** [s.lower()] *)
Definition lower (s : string) : string := map_chars lower_char s.

(** [s.capitalize()]: the first character in title case, the rest in
    lower case.  The title case of a character below 256 is its upper
    case, but for the sharp s, which gives [Ss].  The result is [None]
    when it has a character that is not below 256: the title case of
    the micro sign is U+039C and that of the y with diaeresis U+0178. *)
Definition capitalize (s : string) : option string :=
  match s with
  | EmptyString => Some EmptyString
  | String c r =>
      if is_sharp_s c then Some (String "S" (String "s" (lower r)))
      else if upper_leaves_range c then None
      else Some (String (upper_char c) (lower r))
  end.

Fixpoint lstrip (s : string) : string :=
  match s with
  | String c r => if isspace c then lstrip r else s
  | EmptyString => EmptyString
  end.

(** Drops trailing white space: a character is kept when something that
    is kept follows it, or when it is not white space itself. *)
Fixpoint rstrip (s : string) : string :=
  match s with
  | EmptyString => EmptyString
  | String c r =>
      match rstrip r with
      | EmptyString => if isspace c then EmptyString else String c EmptyString
      | r' => String c r'
      end
  end.

(** [s.strip()] *)
Definition strip (s : string) : string := rstrip (lstrip s).

(** [len(s)] *)
Definition len (s : string) : Z := Z.of_nat (String.length s).

(** [s[:n]] for a non-negative [n]. *)
Fixpoint take (n : nat) (s : string) : string :=
  match n, s with
  | S n', String c r => String c (take n' r)
  | _, _ => EmptyString
  end.

(** Line boundaries of [str.splitlines]. *)
Definition is_linebreak (c : ascii) : bool :=
  in_range 10 13 c || in_range 28 30 c || in_range 133 133 c.

(** [s.splitlines()]: the text is cut at every line boundary, a carriage
    return followed by a line feed counting as one boundary; no empty
    last line is produced for a text that ends in a boundary.  [cur]
    holds the characters of the current line, last one first. *)
Fixpoint splitlines_aux (cur : list ascii) (s : string) : list string :=
  match s with
  | EmptyString =>
      match cur with
      | [] => []
      | _ => [string_of_list_ascii (rev cur)]
      end
  | String c r =>
      if is_linebreak c then
        string_of_list_ascii (rev cur) ::
          match r with
          | String c2 r2 =>
              if (code c =? 13)%N && (code c2 =? 10)%N
              then splitlines_aux [] r2
              else splitlines_aux [] r
          | EmptyString => []
          end
      else splitlines_aux (c :: cur) r
  end.

Definition splitlines (s : string) : list string := splitlines_aux [] s.

(** [sub in s] on strings *)
Fixpoint contains (sub s : string) : bool :=
  String.prefix sub s
  || match s with
     | EmptyString => false
     | String _ r => contains sub r
     end.

(** [d.get(key, default)] on a dictionary given by its items. *)
Fixpoint dict_get {V} (d : list (string * V)) (key : string) (default : V) : V :=
  match d with
  | [] => default
  | (k, v) :: r => if String.eqb k key then v else dict_get r key default
  end.

(** [enumerate(xs, start)] *)
Fixpoint enumerate {A} (start : Z) (xs : list A) : list (Z * A) :=
  match xs with
  | [] => []
  | x :: r => (start, x) :: enumerate (start + 1) r
  end.

End PyStr.

(** ** Risk scoring: [src/contract_analysis/imp_risk_scorer.py] *)

Module RiskScorer.

(** [class RiskLevel(Enum)] *)
Inductive RiskLevel := NONE | LOW | MEDIUM | HIGH | CRITICAL.

#[global] Instance RiskLevel_eq_dec : EqDecision RiskLevel.
Proof. solve_decision. Defined.

(** The [.value] of a member. *)
Definition value (l : RiskLevel) : Z :=
  match l with
  | NONE => 0 | LOW => 1 | MEDIUM => 2 | HIGH => 3 | CRITICAL => 4
  end.

(** [RiskLevel.to_string].  The argument [None] stands for an object that
    is not a member of the enumeration, for which the dictionary lookup
    falls back to its default. *)
Definition to_string (level : option RiskLevel) : string :=
  match level with
  | Some NONE => "None"
  | Some LOW => "Low"
  | Some MEDIUM => "Medium"
  | Some HIGH => "High"
  | Some CRITICAL => "Critical"
  | None => "Unknown"
  end.

Definition level_map : list (string * RiskLevel) :=
  [("none", NONE); ("low", LOW); ("medium", MEDIUM); ("high", HIGH);
   ("critical", CRITICAL)].

(** [RiskLevel.from_string]: [level_map.get(level_str.lower(), cls.LOW)]. *)
Definition from_string (level_str : string) : RiskLevel :=
  PyStr.dict_get level_map (PyStr.lower level_str) LOW.

(** One entry of [RiskScore.vulnerabilities]. *)
Record vuln := {
  v_name : string;
  v_description : string;
  v_risk_level : RiskLevel;
  v_risk_level_str : string;
  v_category : string;
  v_location : option string;
  v_remediation : option string
}.

(** One value of [RiskScore.risk_categories]. *)
Record cat_stats := {
  count : Z;
  max_level : RiskLevel;
  score : Z
}.

(** [class RiskScore] *)
Record RiskScore := {
  vulnerabilities : list vuln;
  total_score : Z;
  max_risk_level : RiskLevel;
  risk_categories : gmap string cat_stats
}.

(** [RiskScore.__init__] *)
Definition init : RiskScore :=
  {| vulnerabilities := [];
     total_score := 0;
     max_risk_level := NONE;
     risk_categories := ∅ |}.

(** [RiskScore._get_risk_weight] *)
Definition _get_risk_weight (level : RiskLevel) : Z :=
  match level with
  | NONE => 0 | LOW => 1 | MEDIUM => 3 | HIGH => 7 | CRITICAL => 15
  end.

(** The arguments of one call of [add_vulnerability]. *)
Record finding := {
  f_name : string;
  f_description : string;
  f_risk_level : RiskLevel;
  f_category : string;
  f_location : option string;
  f_remediation : option string
}.

(** [RiskScore.add_vulnerability] *)
Definition add_vulnerability (self : RiskScore) (f : finding) : RiskScore :=
  let risk_level := f_risk_level f in
  let category := f_category f in
  let v := {| v_name := f_name f;
              v_description := f_description f;
              v_risk_level := risk_level;
              v_risk_level_str := to_string (Some risk_level);
              v_category := category;
              v_location := f_location f;
              v_remediation := f_remediation f |} in
  let vulns := (vulnerabilities self ++ [v])%list in
  let max_rl :=
    if value (max_risk_level self) <? value risk_level
    then risk_level else max_risk_level self in
  let cats0 :=
    match risk_categories self !! category with
    | None => <[category := {| count := 0; max_level := NONE; score := 0 |}]>
                (risk_categories self)
    | Some _ => risk_categories self
    end in
  let st0 := default {| count := 0; max_level := NONE; score := 0 |}
                     (cats0 !! category) in
  let st1 := {| count := count st0 + 1;
                max_level := max_level st0; score := score st0 |} in
  let st2 :=
    if value (max_level st1) <? value risk_level
    then {| count := count st1; max_level := risk_level; score := score st1 |}
    else st1 in
  let weight := _get_risk_weight risk_level in
  let st3 := {| count := count st2; max_level := max_level st2;
                score := score st2 + weight |} in
  {| vulnerabilities := vulns;
     total_score := total_score self + weight;
     max_risk_level := max_rl;
     risk_categories := <[category := st3]> cats0 |}.

(** [RiskScore.get_overall_risk_level] *)
Definition get_overall_risk_level (self : RiskScore) : RiskLevel :=
  if total_score self =? 0 then NONE
  else if total_score self <? 3 then LOW
  else if total_score self <? 8 then MEDIUM
  else if total_score self <? 18 then HIGH
  else CRITICAL.

(** The dictionary [level_counts] of [get_summary], a counter per member
    of the enumeration, and its update [level_counts[l] += 1]. *)
Definition level_counts_t := RiskLevel -> Z.

Definition bump (counts : level_counts_t) (l : RiskLevel) : level_counts_t :=
  fun l' => if decide (l' = l) then counts l' + 1 else counts l'.

Definition level_counts (vs : list vuln) : level_counts_t :=
  fold_left (fun counts v => bump counts (v_risk_level v)) vs (fun _ => 0).

Record risk_distribution_t := {
  d_none : Z; d_low : Z; d_medium : Z; d_high : Z; d_critical : Z
}.

Record cat_summary := {
  cs_count : Z;
  cs_max_level : string;
  cs_score : Z
}.

Record summary := {
  s_total_score : Z;
  s_overall_risk_level : RiskLevel;
  s_overall_risk_str : string;
  s_vulnerability_count : Z;
  s_risk_distribution : risk_distribution_t;
  s_categories : gmap string cat_summary
}.

(** [RiskScore.get_summary] *)
Definition get_summary (self : RiskScore) : summary :=
  let vulnerability_count := Z.of_nat (length (vulnerabilities self)) in
  let counts := level_counts (vulnerabilities self) in
  let overall_level := get_overall_risk_level self in
  {| s_total_score := total_score self;
     s_overall_risk_level := overall_level;
     s_overall_risk_str := to_string (Some overall_level);
     s_vulnerability_count := vulnerability_count;
     s_risk_distribution :=
       {| d_none := counts NONE; d_low := counts LOW;
          d_medium := counts MEDIUM; d_high := counts HIGH;
          d_critical := counts CRITICAL |};
     s_categories :=
       (fun stats => {| cs_count := count stats;
                        cs_max_level := to_string (Some (max_level stats));
                        cs_score := score stats |})
         <$> risk_categories self |}.

(** The histogram bucket of a level in a summary. *)
Definition bucket (d : risk_distribution_t) (l : RiskLevel) : Z :=
  match l with
  | NONE => d_none d | LOW => d_low d | MEDIUM => d_medium d
  | HIGH => d_high d | CRITICAL => d_critical d
  end.

(** Aggregation of a list of findings: a fresh [RiskScore] and one call
    of [add_vulnerability] per finding, in order. *)
Definition aggregate (fs : list finding) : RiskScore :=
  fold_left add_vulnerability fs init.

(** The scorers.  Their pattern checks update the score held by the
    scorer; they are taken as given state transformers here. *)
Section Scorers.

Variables _check_missing_clauses _check_ambiguous_terms
          _check_unbalanced_rights : string -> RiskScore -> RiskScore.
Variables _check_vulnerability_patterns _analyze_gas_usage
          _check_best_practices : string -> RiskScore -> RiskScore.

(** [LegalContractRiskScorer.analyze_contract], on the scorer's
    [risk_score]. *)
Definition analyze_contract (contract_text : string) (risk_score : RiskScore)
  : RiskScore :=
  if String.eqb contract_text "" then
    add_vulnerability risk_score
      {| f_name := "Empty contract";
         f_description := "The contract text is empty or could not be extracted";
         f_risk_level := CRITICAL;
         f_category := "Completeness";
         f_location := None;
         f_remediation :=
           Some "Provide a valid contract document with proper text content." |}
  else
    _check_unbalanced_rights contract_text
      (_check_ambiguous_terms contract_text
         (_check_missing_clauses contract_text risk_score)).

(** [SmartContractRiskScorer.analyze_contract_code] *)
Definition analyze_contract_code (contract_code : string) (risk_score : RiskScore)
  : RiskScore :=
  if String.eqb contract_code "" then
    add_vulnerability risk_score
      {| f_name := "Empty contract code";
         f_description := "The contract code is empty";
         f_risk_level := CRITICAL;
         f_category := "Completeness";
         f_location := None;
         f_remediation := Some "Provide valid contract code." |}
  else
    _check_best_practices contract_code
      (_analyze_gas_usage contract_code
         (_check_vulnerability_patterns contract_code risk_score)).

End Scorers.

(** *** Vocabulary of the statements about the score *)

Definition zero_stats : cat_stats :=
  {| count := 0; max_level := NONE; score := 0 |}.

(** The entry a category has after one more vulnerability of level
    [lvl], from the entry [o] it had. *)
Definition next_stats (o : option cat_stats) (lvl : RiskLevel) : cat_stats :=
  let st := default zero_stats o in
  {| count := count st + 1;
     max_level := if value (max_level st) <? value lvl then lvl else max_level st;
     score := score st + _get_risk_weight lvl |}.

Definition mk_vuln (f : finding) : vuln :=
  {| v_name := f_name f; v_description := f_description f;
     v_risk_level := f_risk_level f;
     v_risk_level_str := to_string (Some (f_risk_level f));
     v_category := f_category f; v_location := f_location f;
     v_remediation := f_remediation f |}.

Definition sum_weights (vs : list vuln) : Z :=
  foldr (fun v acc => _get_risk_weight (v_risk_level v) + acc) 0 vs.

Definition sum_scores (m : gmap string cat_stats) : Z :=
  map_fold (fun _ st acc => score st + acc) 0 m.

Definition count_in (c : string) (vs : list vuln) : Z :=
  foldr (fun v acc => if decide (v_category v = c) then 1 + acc else acc) 0 vs.

Definition count_level (l : RiskLevel) (vs : list vuln) : Z :=
  foldr (fun v acc => if decide (v_risk_level v = l) then 1 + acc else acc) 0 vs.

Definition count_of (o : option cat_stats) : Z :=
  match o with
  | Some st => count st
  | None => 0
  end.

(** The strings [from_string] recognises, up to case. *)
Definition recognized (level_str : string) : Prop :=
  In (PyStr.lower level_str) (List.map fst level_map).

Definition finding_of (lvl : RiskLevel) : finding :=
  {| f_name := "n"; f_description := "d"; f_risk_level := lvl;
     f_category := "Security"; f_location := None; f_remediation := None |}.

Definition empty_contract : finding :=
  {| f_name := "Empty contract";
     f_description := "The contract text is empty or could not be extracted";
     f_risk_level := CRITICAL;
     f_category := "Completeness";
     f_location := None;
     f_remediation :=
       Some "Provide a valid contract document with proper text content." |}.

Definition empty_contract_code : finding :=
  {| f_name := "Empty contract code";
     f_description := "The contract code is empty";
     f_risk_level := CRITICAL;
     f_category := "Completeness";
     f_location := None;
     f_remediation := Some "Provide valid contract code." |}.

End RiskScorer.

(** ** The outcome of a Python call: a value, or a raised exception *)

Inductive exn :=
| re_error (msg : string)
| JSONDecodeError
| AttributeError
| TypeError
| KeyError
| ValueError
| IndexError
| outside_fragment.   (* not an exception: the call leaves the modelled fragment *)

Inductive outcome (A : Type) :=
| Return (a : A)
| Raise (e : exn).
Arguments Return {A} a.
Arguments Raise {A} e.

#[global] Instance outcome_fmap : FMap outcome := fun A B f x =>
  match x with
  | Return a => Return (f a)
  | Raise e => Raise e
  end.
#[global] Instance outcome_ret : MRet outcome := fun A a => Return a.
#[global] Instance outcome_bind : MBind outcome := fun A B f x =>
  match x with
  | Return a => f a
  | Raise e => Raise e
  end.

(** ** Regular expressions: the fragment of Python's [re] the code uses *)

Module Re.

Inductive cls := Word | Space | Digit.

(** One member of a bracketed character set. *)
Inductive item :=
| IChar (c : ascii)
| IRange (lo hi : ascii)
| IClass (k : cls) (neg : bool).

Inductive regex :=
| Eps
| Lit (c : ascii)
| Dot                                   (* [.] without DOTALL *)
| Cls (k : cls) (neg : bool)            (* [\w \W \s \S \d \D] *)
| CSet (neg : bool) (items : list item) (* [[...]] and [[^...]] *)
| Bol                                   (* [^] and [\A], no MULTILINE *)
| Eol                                   (* [$], no MULTILINE *)
| EndZ                                  (* [\Z] *)
| Seq (r1 r2 : regex)
| Alt (r1 r2 : regex)
| Rep (greedy : bool) (lo : nat) (hi : option nat) (r : regex)
| Grp (n : nat) (r : regex)             (* capturing group number [n] *)
| Look (neg : bool) (r : regex).        (* [(?=...)] and [(?!...)] *)

(** *** Parsing a pattern *)

Definition chr (n : N) : ascii := ascii_of_N n.

(** The class or character an escape [\c] denotes, inside or outside a
    set; [None] when the escape is not one of these. *)
Definition escape_class (c : ascii) : option (cls * bool) :=
  if Ascii.eqb c "w" then Some (Word, false)
  else if Ascii.eqb c "W" then Some (Word, true)
  else if Ascii.eqb c "s" then Some (Space, false)
  else if Ascii.eqb c "S" then Some (Space, true)
  else if Ascii.eqb c "d" then Some (Digit, false)
  else if Ascii.eqb c "D" then Some (Digit, true)
  else None.

Definition escape_char (c : ascii) : option ascii :=
  if Ascii.eqb c "a" then Some (chr 7)
  else if Ascii.eqb c "f" then Some (chr 12)
  else if Ascii.eqb c "n" then Some (chr 10)
  else if Ascii.eqb c "r" then Some (chr 13)
  else if Ascii.eqb c "t" then Some (chr 9)
  else if Ascii.eqb c "v" then Some (chr 11)
  else if Ascii.eqb c "\" then Some "\"%char
  else None.

Definition bad_escape (c : ascii) : exn :=
  re_error ("bad escape \" ++ String c "").

(** An escape outside a set. *)
Definition parse_escape (c : ascii) : outcome regex :=
  match escape_class c with
  | Some (k, neg) => Return (Cls k neg)
  | None =>
      match escape_char c with
      | Some x => Return (Lit x)
      | None =>
          if Ascii.eqb c "Z" then Return EndZ
          else if Ascii.eqb c "A" then Return Bol
          else if Ascii.eqb c "b" || Ascii.eqb c "B" || Ascii.eqb c "x"
                  || Ascii.eqb c "u" || Ascii.eqb c "U" || Ascii.eqb c "N"
                  || PyStr.isdigit c
          then Raise outside_fragment
          else if PyStr.is_ascii_letter c then Raise (bad_escape c)
          else Return (Lit c)
      end
  end.

(** One member of a set, without the range it may start. *)
Definition parse_set_atom (s : list ascii) : outcome (item * list ascii) :=
  match s with
  | [] => Raise (re_error "unterminated character set")
  | "\"%char :: [] => Raise (re_error "bad escape (end of pattern)")
  | "\"%char :: c :: r =>
      match escape_class c with
      | Some (k, neg) => Return (IClass k neg, r)
      | None =>
          match escape_char c with
          | Some x => Return (IChar x, r)
          | None =>
              if Ascii.eqb c "b" then Return (IChar (chr 8), r)
              else if Ascii.eqb c "x" || Ascii.eqb c "u" || Ascii.eqb c "U"
                      || Ascii.eqb c "N" || PyStr.isdigit c
              then Raise outside_fragment
              else if PyStr.is_ascii_letter c then Raise (bad_escape c)
              else Return (IChar c, r)
          end
      end
  | c :: r => Return (IChar c, r)
  end.

(** The members of a set up to its closing bracket.  [first] says that no
    member was read yet: a closing bracket is then an ordinary member. *)
Fixpoint parse_set_items (fuel : nat) (first : bool) (s : list ascii)
    (acc : list item) : outcome (list item * list ascii) :=
  match fuel with
  | O => Raise outside_fragment
  | S fuel' =>
      match s with
      | [] => Raise (re_error "unterminated character set")
      | c :: r =>
          if Ascii.eqb c "]" && negb first then Return (rev acc, r)
          else
            '(it, r1) ← parse_set_atom s;
            match r1 with
            | "-"%char :: c2 :: r2 =>
                if Ascii.eqb c2 "]" then
                  parse_set_items fuel' false r1 (it :: acc)
                else
                  '(it2, r3) ← parse_set_atom (c2 :: r2);
                  match it, it2 with
                  | IChar lo, IChar hi =>
                      if (PyStr.code hi <? PyStr.code lo)%N
                      then Raise (re_error "bad character range")
                      else parse_set_items fuel' false r3 (IRange lo hi :: acc)
                  | _, _ => Raise (re_error "bad character range")
                  end
            | _ => parse_set_items fuel' false r1 (it :: acc)
            end
      end
  end.

Definition is_quantifier (c : ascii) : bool :=
  Ascii.eqb c "*" || Ascii.eqb c "+" || Ascii.eqb c "?".

Definition repeatable (r : regex) : bool :=
  match r with
  | Bol | Eol | EndZ | Look _ _ | Eps => false
  | _ => true
  end.

(** The quantifier that may follow an atom. *)
Definition parse_quant (a : regex) (s : list ascii) : outcome (regex * list ascii) :=
  match s with
  | q :: r =>
      if is_quantifier q then
        if negb (repeatable a) then Raise outside_fragment else
        let '(lo, hi) :=
          if Ascii.eqb q "*" then (0%nat, None)
          else if Ascii.eqb q "+" then (1%nat, None)
          else (0%nat, Some 1%nat) in
        match r with
        | "?"%char :: r' =>
            match r' with
            | q2 :: _ =>
                if is_quantifier q2 then Raise (re_error "multiple repeat")
                else if Ascii.eqb q2 "{" then Raise outside_fragment
                else Return (Rep false lo hi a, r')
            | [] => Return (Rep false lo hi a, r')
            end
        | "+"%char :: _ => Raise outside_fragment
        | "*"%char :: _ => Raise (re_error "multiple repeat")
        | "{"%char :: _ => Raise outside_fragment
        | _ => Return (Rep true lo hi a, r)
        end
      else if Ascii.eqb q "{" then Raise outside_fragment
      else Return (a, s)
  | [] => Return (a, s)
  end.

(** Alternations, sequences and atoms; [g] is the number of capturing
    groups opened so far. *)
Fixpoint parse_alt (fuel : nat) (s : list ascii) (g : nat)
    : outcome (regex * list ascii * nat) :=
  match fuel with
  | O => Raise outside_fragment
  | S fuel' =>
      '(r1, s1, g1) ← parse_seq fuel' s g;
      match s1 with
      | "|"%char :: s2 =>
          '(r2, s3, g2) ← parse_alt fuel' s2 g1;
          Return (Alt r1 r2, s3, g2)
      | _ => Return (r1, s1, g1)
      end
  end
with parse_seq (fuel : nat) (s : list ascii) (g : nat)
    : outcome (regex * list ascii * nat) :=
  match fuel with
  | O => Raise outside_fragment
  | S fuel' =>
      match s with
      | [] => Return (Eps, s, g)
      | c :: _ =>
          if Ascii.eqb c "|" || Ascii.eqb c ")" then Return (Eps, s, g)
          else
            '(a, s1, g1) ← parse_atom fuel' s g;
            '(q, s2) ← parse_quant a s1;
            '(r, s3, g3) ← parse_seq fuel' s2 g1;
            Return (match r with Eps => q | _ => Seq q r end, s3, g3)
      end
  end
with parse_atom (fuel : nat) (s : list ascii) (g : nat)
    : outcome (regex * list ascii * nat) :=
  match fuel with
  | O => Raise outside_fragment
  | S fuel' =>
      match s with
      | [] => Raise outside_fragment
      | "("%char :: "?"%char :: k :: r =>
          if Ascii.eqb k ":" || Ascii.eqb k "=" || Ascii.eqb k "!" then
            '(body, s1, g1) ← parse_alt fuel' r g;
            match s1 with
            | ")"%char :: s2 =>
                Return (if Ascii.eqb k ":" then body
                        else Look (Ascii.eqb k "!") body, s2, g1)
            | _ => Raise (re_error "missing ), unterminated subpattern")
            end
          else Raise outside_fragment
      | "("%char :: r =>
          '(body, s1, g1) ← parse_alt fuel' r (S g);
          match s1 with
          | ")"%char :: s2 => Return (Grp (S g) body, s2, g1)
          | _ => Raise (re_error "missing ), unterminated subpattern")
          end
      | "["%char :: "^"%char :: r =>
          '(items, s1) ← parse_set_items (S (length r)) true r [];
          Return (CSet true items, s1, g)
      | "["%char :: r =>
          '(items, s1) ← parse_set_items (S (length r)) true r [];
          Return (CSet false items, s1, g)
      | "\"%char :: [] => Raise (re_error "bad escape (end of pattern)")
      | "\"%char :: c :: r => a ← parse_escape c; Return (a, r, g)
      | c :: r =>
          if Ascii.eqb c "." then Return (Dot, r, g)
          else if Ascii.eqb c "^" then Return (Bol, r, g)
          else if Ascii.eqb c "$" then Return (Eol, r, g)
          else if is_quantifier c then Raise (re_error "nothing to repeat")
          else if Ascii.eqb c "{" then Raise outside_fragment
          else Return (Lit c, r, g)
      end
  end.

(** [re.compile(pattern)]: the expression and its number of groups. *)
Definition compile (pattern : string) : outcome (regex * nat) :=
  let s := list_ascii_of_string pattern in
  '(r, rest, g) ← parse_alt (4 * length s + 4) s 0%nat;
  match rest with
  | [] => Return (r, g)
  | _ => Raise (re_error "unbalanced parenthesis")
  end.

End Re.

Module ReMatch.
Import Re.

(** Group number to the span (start, end) it matched last. *)
Definition captures := list (nat * (nat * nat)).

Definition in_cls (k : cls) (c : ascii) : bool :=
  match k with
  | Word => PyStr.isword c
  | Space => PyStr.isspace c
  | Digit => PyStr.isdigit c
  end.

Section Matcher.

(** The flag [re.IGNORECASE]. *)
Variable icase : bool.

(** A literal of the pattern against a character of the text.  Under
    [re.IGNORECASE] two characters below 256 match when their lower
    cases are equal.  The characters of 256 or more that the flag also
    equates with a letter (U+0130 and U+0131 with [i], U+017F with [s],
    U+212A with [k]) are not among the characters of this development:
    what is stated of a text holds for a text of characters below
    256. *)
Definition lit_matches (p c : ascii) : bool :=
  if icase then Ascii.eqb (PyStr.lower_char p) (PyStr.lower_char c)
  else Ascii.eqb p c.

Definition item_matches1 (it : item) (c : ascii) : bool :=
  match it with
  | IChar p => Ascii.eqb p c
  | IRange lo hi => (PyStr.code lo <=? PyStr.code c)%N
                    && (PyStr.code c <=? PyStr.code hi)%N
  | IClass k neg => xorb neg (in_cls k c)
  end.

Definition item_matches (it : item) (c : ascii) : bool :=
  item_matches1 it c
  || (icase && (item_matches1 it (PyStr.lower_char c)
                || item_matches1 it (PyStr.upper_char c))).

Definition under (cnt : nat) (hi : option nat) : bool :=
  match hi with
  | None => true
  | Some h => (cnt <? h)%nat
  end.

(** The backtracking matcher.  [m r pos rest caps k] matches [r] at
    position [pos], where [rest] is the text from [pos] on, and hands
    every way of matching, in the order of preference of [re], to the
    continuation [k] until [k] accepts one.  A repetition stops after
    an iteration that consumed nothing. *)
Fixpoint m (r : regex) (pos : nat) (rest : list ascii) (caps : captures)
    (k : nat -> list ascii -> captures -> option (nat * captures))
    {struct r} : option (nat * captures) :=
  match r with
  | Eps => k pos rest caps
  | Lit p =>
      match rest with
      | c :: rest' => if lit_matches p c then k (S pos) rest' caps else None
      | [] => None
      end
  | Dot =>
      match rest with
      | c :: rest' =>
          if (PyStr.code c =? 10)%N then None else k (S pos) rest' caps
      | [] => None
      end
  | Cls cl neg =>
      match rest with
      | c :: rest' =>
          if xorb neg (in_cls cl c) then k (S pos) rest' caps else None
      | [] => None
      end
  | CSet neg items =>
      match rest with
      | c :: rest' =>
          if xorb neg (existsb (fun it => item_matches it c) items)
          then k (S pos) rest' caps else None
      | [] => None
      end
  | Bol => if (pos =? 0)%nat then k pos rest caps else None
  | Eol =>
      match rest with
      | [] => k pos rest caps
      | [c] => if (PyStr.code c =? 10)%N then k pos rest caps else None
      | _ => None
      end
  | EndZ =>
      match rest with
      | [] => k pos rest caps
      | _ => None
      end
  | Seq r1 r2 =>
      m r1 pos rest caps (fun pos' rest' caps' => m r2 pos' rest' caps' k)
  | Alt r1 r2 =>
      match m r1 pos rest caps k with
      | Some x => Some x
      | None => m r2 pos rest caps k
      end
  | Grp n r1 =>
      m r1 pos rest caps
        (fun pos' rest' caps' => k pos' rest' ((n, (pos, pos')) :: caps'))
  | Look neg r1 =>
      match m r1 pos rest caps (fun pos' _ caps' => Some (pos', caps')) with
      | Some (_, caps') => if neg then None else k pos rest caps'
      | None => if neg then k pos rest caps else None
      end
  | Rep greedy lo hi r1 =>
      (fix loop (fuel cnt pos : nat) (rest : list ascii) (caps : captures)
           {struct fuel} : option (nat * captures) :=
         let stop (_ : unit) :=
           if (lo <=? cnt)%nat then k pos rest caps else None in
         let more (_ : unit) :=
           match fuel with
           | O => None
           | S fuel' =>
               if under cnt hi then
                 m r1 pos rest caps
                   (fun pos' rest' caps' =>
                      if (pos <? pos')%nat
                      then loop fuel' (S cnt) pos' rest' caps'
                      else if (lo <=? S cnt)%nat then k pos' rest' caps'
                           else None)
               else None
           end in
         if greedy then
           match more tt with Some x => Some x | None => stop tt end
         else
           match stop tt with Some x => Some x | None => more tt end)
        (S (length rest)) 0%nat pos rest caps
  end.

(** The leftmost match starting at [pos] or later.  With
    [must_advance], an empty match at [pos] itself is refused. *)
Fixpoint search_from (r : regex) (must_advance : bool) (pos : nat)
    (rest : list ascii) : option (nat * nat * captures) :=
  match m r pos rest []
          (fun e _ c =>
             if must_advance && (e =? pos)%nat then None else Some (e, c))
  with
  | Some (e, c) => Some (pos, e, c)
  | None =>
      match rest with
      | [] => None
      | _ :: rest' => search_from r false (S pos) rest'
      end
  end.

(** All matches from left to right, none overlapping another: the
    scan of [findall], [finditer] and [sub].  After an empty match the
    next one must advance, so a text has at most two matches per
    position. *)
Fixpoint scan (fuel : nat) (r : regex) (must_advance : bool) (pos : nat)
    (rest : list ascii) : list (nat * nat * captures) :=
  match fuel with
  | O => []
  | S fuel' =>
      match search_from r must_advance pos rest with
      | None => []
      | Some (s, e, c) =>
          (s, e, c) ::
            scan fuel' r (e =? s)%nat e (drop (e - pos) rest)
      end
  end.

End Matcher.

(** [s[i:j]] on a list of characters. *)
Definition slice (i j : nat) (s : list ascii) : list ascii :=
  take (j - i) (drop i s).

(** [m.group(n)], the empty text for a group that did not take part. *)
Definition group (s : list ascii) (caps : captures) (n : nat) : string :=
  match List.find (fun p => (fst p =? n)%nat) caps with
  | Some (_, (i, j)) => string_of_list_ascii (slice i j s)
  | None => ""
  end.

Record match_t := {
  m_start : nat;
  m_end : nat;
  m_whole : string;        (* group(0) *)
  m_groups : list string   (* groups() *)
}.

Definition mk_match (s : list ascii) (ngroups : nat)
    (x : nat * nat * captures) : match_t :=
  let '(i, j, caps) := x in
  {| m_start := i; m_end := j;
     m_whole := string_of_list_ascii (slice i j s);
     m_groups := List.map (fun n => group s caps (S n)) (seq 0 ngroups) |}.

(** [re.search(pattern, s, flags)] *)
Definition search (pattern s : string) (icase : bool) : outcome (option match_t) :=
  '(r, g) ← compile pattern;
  let cs := list_ascii_of_string s in
  Return (mk_match cs g <$> search_from icase r false 0%nat cs).

(** [re.finditer(pattern, s)] as the list of its matches. *)
Definition finditer (pattern s : string) (icase : bool) : outcome (list match_t) :=
  '(r, g) ← compile pattern;
  let cs := list_ascii_of_string s in
  Return (mk_match cs g <$> scan icase (2 * length cs + 2) r false 0%nat cs).

(** [re.escape(s)] *)
Definition special_chars : list ascii :=
  list_ascii_of_string "()[]{}?*+-|^$\.&~# "
    ++ [Re.chr 9; Re.chr 10; Re.chr 13; Re.chr 11; Re.chr 12].

Fixpoint escape (s : string) : string :=
  match s with
  | EmptyString => EmptyString
  | String c r =>
      if existsb (Ascii.eqb c) special_chars
      then String "\" (String c (escape r))
      else String c (escape r)
  end.

(** The template parser of [re.sub]; the result is the replacement
    text.  Of the escapes, [\\] and the control characters
    [\a \b \f \n \r \t \v] are decoded, any other ASCII letter is an
    error, and the rest stay as written.  References to groups and octal
    escapes ([\g<...>] and a digit) are not modelled. *)
Definition tpl_escape (c : ascii) : option ascii :=
  if Ascii.eqb c "b" then Some (Re.chr 8) else Re.escape_char c.

Fixpoint parse_template (s : list ascii) : outcome (list ascii) :=
  match s with
  | [] => Return []
  | "\"%char :: [] => Raise (re_error "bad escape (end of pattern)")
  | "\"%char :: c :: r =>
      if Ascii.eqb c "g" || PyStr.isdigit c then Raise outside_fragment
      else
        match tpl_escape c with
        | Some x => t ← parse_template r; Return (x :: t)
        | None =>
            if PyStr.is_ascii_letter c
            then Raise (Re.bad_escape c)
            else t ← parse_template r;
                 Return ("\"%char :: c :: t)
        end
  | c :: r => t ← parse_template r; Return (c :: t)
  end.

(** The text between the matches, each match replaced by the template
    text; [i] is the end of the previous match. *)
Fixpoint replace_matches (s t : list ascii) (i : nat)
    (ms : list (nat * nat * captures)) : list ascii :=
  match ms with
  | [] => drop i s
  | (a, b, _) :: ms' => slice i a s ++ t ++ replace_matches s t b ms'
  end.

(** [re.sub(pattern, repl, s)] for a replacement given as a string: the
    pattern is compiled, then the template, then the matches are
    replaced. *)
Definition sub (pattern repl s : string) : outcome string :=
  '(r, g) ← compile pattern;
  t ← parse_template (list_ascii_of_string repl);
  let cs := list_ascii_of_string s in
  Return (string_of_list_ascii
            (replace_matches cs t 0%nat
               (scan false (2 * length cs + 2) r false 0%nat cs))).

End ReMatch.


(** ** Rule engine and pattern model: [scripts/loophole_detection.py] *)

Module Loophole.

Record rule := {
  r_name : string;
  r_pattern : string;
  r_description : string;
  r_severity : string
}.

Definition CUSTOM_RULES : list rule :=
  [ {| r_name := "Timestamp_Dependency";
       r_pattern := "block\.timestamp";
       r_description := "Use of block.timestamp, can be manipulated by miners.";
       r_severity := "Medium" |};
    {| r_name := "TX_Origin_Usage";
       r_pattern := "tx\.origin";
       r_description :=
         "Use of tx.origin for authentication, vulnerable to phishing.";
       r_severity := "High" |};
    {| r_name := "Integer_Overflow_Underflow_Candidate_Basic";
       r_pattern := "\w+\s*(\+\+|--|\+=|-=|\*=|/=)\s*\w+";
       r_description :=
         "Potential basic integer arithmetic operation, needs careful review for overflow/underflow. Slither is much better at this.";
       r_severity := "Low" |};
    {| r_name := "Low_Level_Call";
       r_pattern := "\.(call|delegatecall|staticcall)\s*\(";
       r_description :=
         "Use of low-level calls (.call, .delegatecall, .staticcall), requires careful handling of return values and gas.";
       r_severity := "Medium" |} ].

Record source_mapping := {
  sm_start : Z;
  sm_length : Z;
  sm_lines : list Z;
  sm_filename_relative : string
}.

Record element := {
  e_type : string;
  e_name : string;
  e_source_mapping : source_mapping
}.

Record finding := {
  check : string;
  impact : string;
  confidence : string;
  description : string;
  elements : list element
}.

Definition line_element (line : string) (line_num : Z) (filename : string)
    : element :=
  {| e_type := "line";
     e_name := PyStr.strip line;
     e_source_mapping :=
       {| sm_start := -1; sm_length := -1; sm_lines := [line_num];
          sm_filename_relative := filename |} |}.

(** A loop body works on the list of findings collected so far and may
    raise; what was appended before the exception stays in the list. *)
Definition step := list finding -> outcome unit * list finding.

(** [for x in xs: body(x)] *)
Fixpoint for_each {A} (xs : list A) (body : A -> step) : step :=
  fun acc =>
    match xs with
    | [] => (Return tt, acc)
    | x :: r =>
        match body x acc with
        | (Return _, acc') => for_each r body acc'
        | (Raise e, acc') => (Raise e, acc')
        end
    end.

(** The truth value of the object [re.search] returns. *)
Definition found (o : option ReMatch.match_t) : bool :=
  match o with Some _ => true | None => false end.

(** The body of the inner loop of [apply_custom_rules]. *)
Definition apply_rule (filename : string) (line_num : Z) (line : string)
    (rule : rule) : step :=
  fun acc =>
    match ReMatch.search (r_pattern rule) line true with
    | Raise e => (Raise e, acc)
    | Return o =>
        if found o then
          (Return tt,
           (acc ++ [ {| check := r_name rule;
                        impact := r_severity rule;
                        confidence := "Medium";
                        description :=
                          r_description rule ++ " (Custom Rule Match)";
                        elements := [line_element line line_num filename] |} ])%list)
        else (Return tt, acc)
    end.

(** Which of the custom rules match a line, rule by rule. *)
Definition rule_hits (line : string) : list (outcome bool) :=
  List.map (fun r => found <$> ReMatch.search (r_pattern r) line true)
    CUSTOM_RULES.

(** [apply_custom_rules(filepath)].  [filename] is the base name of the
    path and [file] the outcome of reading the file.  Whatever is raised
    inside is caught and printed; the findings are returned. *)
Definition apply_custom_rules (filename : string) (file : outcome string)
    : list finding :=
  match file with
  | Raise _ => []
  | Return content =>
      snd (for_each (PyStr.enumerate 1 (PyStr.splitlines content))
             (fun '(line_num, line) =>
                for_each CUSTOM_RULES (apply_rule filename line_num line))
             [])
  end.

(** The persisted pattern model, as read from its JSON file: both
    top-level keys may be absent, and so may the severity of a type. *)
Record model := {
  vulnerability_types : option (list (string * option string));
  code_patterns : option (list (string * list string))
}.

(** [d.get(k)] on the items of a dictionary. *)
Fixpoint lookup {V} (d : list (string * V)) (k : string) : option V :=
  match d with
  | [] => None
  | (k', v) :: r => if String.eqb k' k then Some v else lookup r k
  end.

(** [model_patterns.get('vulnerability_types', {}).get(vuln_type, {})
      .get('severity', 'Medium')] *)
Definition model_severity (mdl : model) (vuln_type : string) : string :=
  match lookup (default [] (vulnerability_types mdl)) vuln_type with
  | Some (Some sev) => sev
  | _ => "Medium"
  end.

(** The pattern the detection derives from one exemplar line. *)
Definition core_pattern (pattern : string) : outcome string :=
  p1 ← ReMatch.sub "\s+" "\s+" (ReMatch.escape pattern);
  ReMatch.sub "\\\w+\\s+\\\w+" "\w+\s+\w+" p1.

(** The body of the innermost loop of the model-based detection. *)
Definition apply_pattern (mdl : model) (contract_name vuln_type : string)
    (line_num : Z) (line pattern : string) : step :=
  fun acc =>
    match core_pattern pattern with
    | Raise e => (Raise e, acc)
    | Return cp =>
        match ReMatch.search cp line true with
        | Raise e => (Raise e, acc)
        | Return o =>
            if found o then
              (Return tt,
               (acc ++ [ {| check := "Model_" ++ vuln_type;
                            impact := model_severity mdl vuln_type;
                            confidence := "Medium";
                            description :=
                              "Potential " ++ vuln_type ++
                              " vulnerability detected based on trained model patterns";
                            elements :=
                              [line_element line line_num contract_name] |} ])%list)
            else (Return tt, acc)
        end
    end.

(** The model-based detection of [detect_external_loopholes] for one
    contract: [model_patterns] is the loaded model, [None] when there is
    none or it is empty.  Whatever is raised inside is caught and
    printed; the findings collected so far are kept. *)
Definition model_detection (model_patterns : option model)
    (contract_name : string) (file : outcome string) : list finding :=
  match model_patterns with
  | None => []
  | Some mdl =>
      match file with
      | Raise _ => []
      | Return content =>
          snd (for_each (default [] (code_patterns mdl))
                 (fun '(vuln_type, patterns) =>
                    for_each (PyStr.enumerate 1 (PyStr.splitlines content))
                      (fun '(line_num, line) =>
                         for_each patterns
                           (apply_pattern mdl contract_name vuln_type
                              line_num line)))
                 [])
      end
  end.

Definition exemplar_model : model :=
  {| vulnerability_types := Some [("reentrancy", Some "High")];
     code_patterns := Some [("reentrancy", ["x.call.value(amount)()"])] |}.

End Loophole.

(** ** Training of the pattern model: [scripts/train_model.py] *)

Module Train.

(** A finding of a detection report as the training pass reads it: the
    check and the fields of an element may be absent. *)
Record element := {
  e_type : option string;
  e_name : option string
}.

Record finding := {
  check : option string;
  elements : list element
}.

Record report := {
  slither_findings : list finding;
  custom_findings : list finding
}.

Definition severity_map : list (string * string) :=
  [ ("reentrancy", "High");
    ("reentrancy-eth", "High");
    ("reentrancy-no-eth", "Medium");
    ("unchecked-transfer", "High");
    ("unchecked-lowlevel", "High");
    ("unchecked-send", "Medium");
    ("tx-origin", "High");
    ("TX_Origin_Usage", "High");
    ("timestamp", "Medium");
    ("Timestamp_Dependency", "Medium");
    ("Integer_Overflow_Underflow_Candidate_Basic", "Medium");
    ("uninitialized-local", "Medium");
    ("uninitialized-storage", "High");
    ("unused-return", "Medium");
    ("incorrect-equality", "Medium");
    ("shadowing-state", "Medium");
    ("suicidal", "High");
    ("arbitrary-send", "High");
    ("locked-ether", "Medium");
    ("Low_Level_Call", "Medium") ].

(** [get_severity_for_vulnerability] *)
Definition get_severity_for_vulnerability (vuln_type : string) : string :=
  PyStr.dict_get severity_map (PyStr.lower vuln_type) "Medium".

(** The state of the training loop. *)
Record state := {
  code_patterns : gmap string (list string);
  vulnerability_counts : gmap string Z;
  contract_count : Z;
  vulnerable_contract_count : Z
}.

Definition init : state :=
  {| code_patterns := ∅; vulnerability_counts := ∅;
     contract_count := 0; vulnerable_contract_count := 0 |}.

(** The code line of an element: the stripped name of an element of type
    [line], when it is longer than five characters. *)
Definition code_line_of (el : element) : option string :=
  if bool_decide (e_type el = Some "line") then
    let code_line := PyStr.strip (default "" (e_name el)) in
    if negb (String.eqb code_line "") && (5 <? PyStr.len code_line)
    then Some code_line else None
  else None.

(** The update of [patterns['code_patterns']] for one element. *)
Definition add_element (vuln_type : string) (cp : gmap string (list string))
    (el : element) : gmap string (list string) :=
  match code_line_of el with
  | None => cp
  | Some code_line =>
      let cp0 :=
        match cp !! vuln_type with
        | None => <[vuln_type := []]> cp
        | Some _ => cp
        end in
      let l := default [] (cp0 !! vuln_type) in
      if bool_decide (code_line ∈ l) then cp0
      else <[vuln_type := (l ++ [code_line])%list]> cp0
  end.

(** The body of the loops over the findings of a report. *)
Definition add_finding (st : state) (f : finding) : state :=
  let vuln_type := default "unknown" (check f) in
  let counts0 :=
    match vulnerability_counts st !! vuln_type with
    | None => <[vuln_type := 0]> (vulnerability_counts st)
    | Some _ => vulnerability_counts st
    end in
  let counts1 :=
    <[vuln_type := default 0 (counts0 !! vuln_type) + 1]> counts0 in
  {| code_patterns :=
       fold_left (add_element vuln_type) (elements f) (code_patterns st);
     vulnerability_counts := counts1;
     contract_count := contract_count st;
     vulnerable_contract_count := vulnerable_contract_count st |}.

(** The body of the loop over the detection reports: [loaded] is the
    outcome of reading and decoding the file at [detection_path]; a
    report that cannot be loaded is skipped.  A loaded report has the
    shape the detection writes: lists of findings with lists of
    elements. *)
Definition add_report (st : state) (file : string * outcome report) : state :=
  let '(detection_path, loaded) := file in
  match loaded with
  | Raise _ => st
  | Return rep =>
      let is_vulnerable := PyStr.contains "vulnerable" detection_path in
      let st1 :=
        {| code_patterns := code_patterns st;
           vulnerability_counts := vulnerability_counts st;
           contract_count := contract_count st + 1;
           vulnerable_contract_count :=
             if is_vulnerable then vulnerable_contract_count st + 1
             else vulnerable_contract_count st |} in
      let st2 := fold_left add_finding (slither_findings rep) st1 in
      fold_left add_finding (custom_findings rep) st2
  end.

Definition train (files : list (string * outcome report)) : state :=
  fold_left add_report files init.

Record type_stats := {
  ts_count : Z;
  ts_frequency : Z * Z;  (* the quotient count / contract_count, as its two terms *)
  ts_severity : string
}.

Record patterns := {
  total_contracts_analyzed : Z;
  vulnerable_contracts_analyzed : Z;
  p_vulnerability_types : gmap string type_stats;
  p_code_patterns : gmap string (list string)
}.

(** [extract_vulnerability_patterns], given the detection reports found
    and the outcome of loading each; [None] when there is no report. *)
Definition extract_vulnerability_patterns
    (detection_files : list (string * outcome report)) : option patterns :=
  match detection_files with
  | [] => None
  | _ =>
      let st := train detection_files in
      Some {| total_contracts_analyzed := contract_count st;
              vulnerable_contracts_analyzed := vulnerable_contract_count st;
              p_vulnerability_types :=
                map_imap (fun vuln_type cnt =>
                            Some {| ts_count := cnt;
                                    ts_frequency :=
                                      if 0 <? contract_count st
                                      then (cnt, contract_count st) else (0, 1);
                                    ts_severity :=
                                      get_severity_for_vulnerability vuln_type |})
                         (vulnerability_counts st);
              p_code_patterns := code_patterns st |}
  end.

(** *** Vocabulary of the statements about the training pass *)

(** The exemplar list of a check type, empty when the type is absent. *)
Definition exemplars (cp : gmap string (list string)) (vt : string) : list string :=
  default [] (cp !! vt).

Definition all_nodup (cp : gmap string (list string)) : Prop :=
  forall vt l, cp !! vt = Some l -> NoDup l.

(** The three loops keep what they find: lists only grow at their end
    and stay without repetition. *)
Definition grows (cp cp' : gmap string (list string)) : Prop :=
  forall vt, exemplars cp vt `prefix_of` exemplars cp' vt.

Definition has_line (vt line : string) (cp : gmap string (list string)) : Prop :=
  line ∈ exemplars cp vt.

Definition short_line_report : report :=
  {| slither_findings :=
       [ {| check := Some "tx-origin";
            elements := [ {| e_type := Some "line"; e_name := Some "x=1;" |} ] |} ];
     custom_findings := [] |}.

Definition long_line_report : report :=
  {| slither_findings := [];
     custom_findings :=
       [ {| check := Some "TX_Origin_Usage";
            elements :=
              [ {| e_type := Some "line";
                   e_name := Some "  require(tx.origin == owner);  " |} ] |} ] |}.

End Train.

(** ** JSON texts: the decoder behind [json.loads] *)

Module Json.

(** A decoded value.  A number keeps the text it was written with; an
    object keeps its members as written, a later member of the same
    name overriding an earlier one on lookup. *)
#[warnings="-register-all"]
Inductive value :=
| JNull
| JBool (b : bool)
| JNum (lexeme : string)
| JStr (s : string)
| JArr (l : list value)
| JObj (members : list (string * value)).

Definition is_ws (c : ascii) : bool :=
  Ascii.eqb c " " || (PyStr.code c =? 9)%N || (PyStr.code c =? 10)%N
  || (PyStr.code c =? 13)%N.

Fixpoint skip_ws (s : list ascii) : list ascii :=
  match s with
  | c :: r => if is_ws c then skip_ws r else s
  | [] => []
  end.

Definition hex_digit (c : ascii) : option N :=
  if PyStr.in_range 48 57 c then Some (PyStr.code c - 48)%N
  else if PyStr.in_range 97 102 c then Some (PyStr.code c - 87)%N
  else if PyStr.in_range 65 70 c then Some (PyStr.code c - 55)%N
  else None.

Definition dquote : ascii := Re.chr 34.

Definition simple_escape (c : ascii) : option ascii :=
  if Ascii.eqb c dquote then Some dquote
  else if Ascii.eqb c "\" then Some "\"%char
  else if Ascii.eqb c "/" then Some "/"%char
  else if Ascii.eqb c "b" then Some (Re.chr 8)
  else if Ascii.eqb c "f" then Some (Re.chr 12)
  else if Ascii.eqb c "n" then Some (Re.chr 10)
  else if Ascii.eqb c "r" then Some (Re.chr 13)
  else if Ascii.eqb c "t" then Some (Re.chr 9)
  else None.

(** The characters of a string after its opening quote.  An escape
    [\uXXXX] of a code point of 256 or more has no counterpart among
    the strings of this development. *)
Fixpoint scan_string (s : list ascii) (acc : list ascii)
    : outcome (string * list ascii) :=
  match s with
  | [] => Raise JSONDecodeError
  | c :: r =>
      if Ascii.eqb c dquote then Return (string_of_list_ascii (rev acc), r)
      else if Ascii.eqb c "\" then
        match r with
        | [] => Raise JSONDecodeError
        | e :: r' =>
            if Ascii.eqb e "u" then
              match r' with
              | h1 :: h2 :: h3 :: h4 :: r'' =>
                  match hex_digit h1, hex_digit h2, hex_digit h3, hex_digit h4 with
                  | Some a, Some b, Some c3, Some d =>
                      if ((a =? 0) && (b =? 0))%N
                      then scan_string r'' (Re.chr (16 * c3 + d) :: acc)
                      else Raise outside_fragment
                  | _, _, _, _ => Raise JSONDecodeError
                  end
              | _ => Raise JSONDecodeError
              end
            else
              match simple_escape e with
              | Some x => scan_string r' (x :: acc)
              | None => Raise JSONDecodeError
              end
        end
      else if (PyStr.code c <? 32)%N then Raise JSONDecodeError
      else scan_string r (c :: acc)
  end.

Fixpoint span_digits (s : list ascii) : list ascii * list ascii :=
  match s with
  | c :: r =>
      if PyStr.isdigit c
      then let '(ds, rest) := span_digits r in (c :: ds, rest)
      else ([], s)
  | [] => ([], [])
  end.

(** The longest number at the head of the text: an integer part, then
    a fraction and an exponent when they are complete. *)
Definition scan_number (s : list ascii) : option (list ascii * list ascii) :=
  let '(sign, s1) :=
    match s with
    | "-"%char :: r => (["-"%char], r)
    | _ => ([], s)
    end in
  let int_part :=
    match s1 with
    | "0"%char :: r => Some (["0"%char], r)
    | _ => match span_digits s1 with
           | ([], _) => None
           | (ds, r) => Some (ds, r)
           end
    end in
  match int_part with
  | None => None
  | Some (ds, s2) =>
      let '(frac, s3) :=
        match s2 with
        | "."%char :: r =>
            match span_digits r with
            | ([], _) => ([], s2)
            | (fs, r') => ("."%char :: fs, r')
            end
        | _ => ([], s2)
        end in
      let '(ex, s4) :=
        match s3 with
        | e :: r =>
            if Ascii.eqb e "e" || Ascii.eqb e "E" then
              let '(sg, r1) :=
                match r with
                | x :: r' =>
                    if Ascii.eqb x "+" || Ascii.eqb x "-" then ([x], r')
                    else ([], r)
                | [] => ([], r)
                end in
              match span_digits r1 with
              | ([], _) => ([], s3)
              | (es, r2) => ((e :: sg ++ es)%list, r2)
              end
            else ([], s3)
        | [] => ([], s3)
        end in
      Some ((sign ++ ds ++ frac ++ ex)%list, s4)
  end.

(** [s] starts with the characters of [w]: the rest, when it does. *)
Fixpoint strip_prefix (w s : list ascii) : option (list ascii) :=
  match w, s with
  | [], _ => Some s
  | a :: w', b :: s' => if Ascii.eqb a b then strip_prefix w' s' else None
  | _ :: _, [] => None
  end.

Definition keyword (w : string) (v : value) (s : list ascii)
    : option (value * list ascii) :=
  (fun rest => (v, rest)) <$> strip_prefix (list_ascii_of_string w) s.

(** A number written without fraction and exponent is read by [int],
    which refuses more than 4300 digits. *)
Definition is_int_lexeme (lex : list ascii) : bool :=
  forallb (fun c => PyStr.isdigit c || Ascii.eqb c "-") lex.

Definition too_many_digits (lex : list ascii) : bool :=
  is_int_lexeme lex && (4300 <? length (List.filter PyStr.isdigit lex))%nat.

(** A value that is neither a string, an object nor an array. *)
Definition scan_scalar (s : list ascii) : outcome (value * list ascii) :=
  match keyword "null" JNull s with
  | Some x => Return x
  | None =>
  match keyword "true" (JBool true) s with
  | Some x => Return x
  | None =>
  match keyword "false" (JBool false) s with
  | Some x => Return x
  | None =>
  match scan_number s with
  | Some (lex, rest) =>
      if too_many_digits lex then Raise ValueError
      else Return (JNum (string_of_list_ascii lex), rest)
  | None =>
  match keyword "NaN" (JNum "NaN") s with
  | Some x => Return x
  | None =>
  match keyword "Infinity" (JNum "Infinity") s with
  | Some x => Return x
  | None =>
  match keyword "-Infinity" (JNum "-Infinity") s with
  | Some x => Return x
  | None => Raise JSONDecodeError
  end end end end end end end.

(** How deep objects and arrays may be nested for the decoder of this
    development to answer.  The interpreter raises RecursionError on a
    text that is nested deeper than its recursion limit leaves room
    for; how much room that is, the code does not fix (about a thousand
    levels by default).  Up to [max_depth] levels the limit is out of
    reach. *)
Definition max_depth : nat := 200.

(** A value at the head of the text; the members of an object from the
    quote of a name on; the elements of an array.  [depth] is the
    number of levels of nesting that may still be entered. *)
Fixpoint scan_value (fuel depth : nat) (s : list ascii)
    : outcome (value * list ascii) :=
  match fuel with
  | O => Raise outside_fragment
  | S fuel' =>
      match s with
      | [] => Raise JSONDecodeError
      | c :: r =>
          if Ascii.eqb c dquote then
            '(str, r') ← scan_string r []; Return (JStr str, r')
          else if Ascii.eqb c "{" then
            match depth with
            | O => Raise outside_fragment
            | S depth' =>
                match skip_ws r with
                | "}"%char :: r2 => Return (JObj [], r2)
                | r1 => scan_members fuel' depth' r1 []
                end
            end
          else if Ascii.eqb c "[" then
            match depth with
            | O => Raise outside_fragment
            | S depth' =>
                match skip_ws r with
                | "]"%char :: r2 => Return (JArr [], r2)
                | r1 => scan_elements fuel' depth' r1 []
                end
            end
          else scan_scalar s
      end
  end
with scan_members (fuel depth : nat) (s : list ascii)
    (acc : list (string * value)) : outcome (value * list ascii) :=
  match fuel with
  | O => Raise outside_fragment
  | S fuel' =>
      match s with
      | c :: r =>
          if Ascii.eqb c dquote then
            '(key, r1) ← scan_string r [];
            match skip_ws r1 with
            | ":"%char :: r2 =>
                '(v, r3) ← scan_value fuel' depth (skip_ws r2);
                match skip_ws r3 with
                | ","%char :: r4 =>
                    scan_members fuel' depth (skip_ws r4) ((key, v) :: acc)
                | "}"%char :: r4 => Return (JObj (rev ((key, v) :: acc)), r4)
                | _ => Raise JSONDecodeError
                end
            | _ => Raise JSONDecodeError
            end
          else Raise JSONDecodeError
      | [] => Raise JSONDecodeError
      end
  end
with scan_elements (fuel depth : nat) (s : list ascii) (acc : list value)
    : outcome (value * list ascii) :=
  match fuel with
  | O => Raise outside_fragment
  | S fuel' =>
      '(v, r1) ← scan_value fuel' depth s;
      match skip_ws r1 with
      | ","%char :: r2 => scan_elements fuel' depth (skip_ws r2) (v :: acc)
      | "]"%char :: r2 => Return (JArr (rev (v :: acc)), r2)
      | _ => Raise JSONDecodeError
      end
  end.

(** [json.loads(s)]: one value, white space around it, nothing else.
    It raises ValueError for an integer of more than 4300 digits; a text
    nested deeper than [max_depth] levels has no answer here. *)
Definition loads (s : string) : outcome value :=
  let cs := list_ascii_of_string s in
  '(v, rest) ← scan_value (2 * length cs + 2) max_depth (skip_ws cs);
  match skip_ws rest with
  | [] => Return v
  | _ => Raise JSONDecodeError
  end.

(** [d.get(key)] on the members of an object: the last member of that
    name. *)
Definition get (members : list (string * value)) (key : string) : option value :=
  snd <$> List.find (fun p => String.eqb (fst p) key) (rev members).

(** The keys of an object in the order of a Python dictionary: each
    name once, at its first place. *)
Fixpoint keys (members : list (string * value)) (seen : list string)
    : list string :=
  match members with
  | [] => []
  | (k, _) :: r =>
      if existsb (String.eqb k) seen then keys r seen
      else k :: keys r (k :: seen)
  end.

End Json.

(** ** Tool adapters: [src/contract_analysis/imp_tools_integration.py] *)

Module Tools.
Import Json.

(** [for x in xs] with a body that may raise, collecting the results. *)
Fixpoint mapM {A B} (f : A -> outcome B) (xs : list A) : outcome (list B) :=
  match xs with
  | [] => Return []
  | x :: r => y ← f x; ys ← mapM f r; Return (y :: ys)
  end.

Fixpoint foldM {A B} (f : B -> A -> outcome B) (xs : list A) (b : B) : outcome B :=
  match xs with
  | [] => Return b
  | x :: r => b' ← f b x; foldM f r b'
  end.

(** What a decoded value does under the operations the adapter applies
    to it. *)

(** [v.get]: only an object has it. *)
Definition as_dict (v : value) : outcome (list (string * value)) :=
  match v with
  | JObj ms => Return ms
  | _ => Raise AttributeError
  end.

Fixpoint chars (s : string) : list value :=
  match s with
  | EmptyString => []
  | String c r => JStr (String c "") :: chars r
  end.

(** [for x in v]: the elements of an array, the keys of an object, the
    characters of a string. *)
Definition iterate (v : value) : outcome (list value) :=
  match v with
  | JArr l => Return l
  | JObj ms => Return (JStr <$> keys ms [])
  | JStr s => Return (chars s)
  | _ => Raise TypeError
  end.

Definition is_str (key : string) (v : value) : bool :=
  match v with
  | JStr t => String.eqb t key
  | _ => false
  end.

(** [key in v] for a string [key]. *)
Definition contains_key (key : string) (v : value) : outcome bool :=
  match v with
  | JObj ms => Return (bool_decide (is_Some (get ms key)))
  | JStr s => Return (PyStr.contains key s)
  | JArr l => Return (existsb (is_str key) l)
  | _ => Raise TypeError
  end.

(** [v[key]] for a string [key]. *)
Definition subscript (v : value) (key : string) : outcome value :=
  match v with
  | JObj ms =>
      match get ms key with
      | Some x => Return x
      | None => Raise KeyError
      end
  | _ => Raise TypeError
  end.

(** A line number of an issue: a decoded value, or the integer the
    textual fallback read. *)
Inductive line_no :=
| LJson (v : value)
| LInt (n : Z).

Record issue := {
  title : value;
  description : value;
  severity : string;
  line_numbers : list line_no;
  code_snippet : option string;
  swc_id : option value;
  confidence : option value
}.

(** The dictionary an adapter returns; a key that is not set is [None]. *)
Record results := {
  tool : option string;
  issues : option (list issue);
  raw_output : option string;
  error_parsing : option string;
  error : option string;
  success : option bool
}.

Definition newline : string := String (Re.chr 10) "".

(** The body of the loop over [issue.get('sourceMap', [])]. *)
Definition add_source (acc : list line_no * string) (source : value)
    : outcome (list line_no * string) :=
  has_line ← contains_key "line" source;
  lns ← (if has_line : bool
         then v ← subscript source "line"; Return (acc.1 ++ [LJson v])%list
         else Return acc.1);
  has_source ← contains_key "source" source;
  snippet ← (if has_source : bool
             then v ← subscript source "source";
                  match v with
                  | JStr t => Return (acc.2 ++ (t ++ newline))
                  | _ => Raise TypeError
                  end
             else Return acc.2);
  Return (lns, snippet).

(** The body of the loop over [mythril_results.get('issues', [])]. *)
Definition parse_issue (i : value) : outcome issue :=
  ms ← as_dict i;
  sev ← match default (JStr "Unknown") (get ms "severity") with
        | JStr s =>
            match PyStr.capitalize s with
            | Some t => Return t
            | None => Raise outside_fragment
            end
        | _ => Raise AttributeError
        end;
  sources ← iterate (default (JArr []) (get ms "sourceMap"));
  '(lns, snippet) ← foldM add_source sources ([], "");
  Return {| title := default (JStr "Unknown Issue") (get ms "title");
            description := default (JStr "") (get ms "description");
            severity := sev;
            line_numbers := lns;
            code_snippet := Some snippet;
            swc_id := Some (default (JStr "") (get ms "swc-id"));
            confidence := Some (default (JStr "Unknown") (get ms "confidence")) |}.

(** [int(s)] on a run of decimal digits: the interpreter refuses more
    than 4300 of them. *)
Fixpoint digits_value (s : string) (acc : Z) : Z :=
  match s with
  | EmptyString => acc
  | String c r => digits_value r (10 * acc + Z.of_N (PyStr.code c - 48))
  end.

Definition int (s : string) : outcome Z :=
  if (4300 <? String.length s)%nat then Raise ValueError
  else Return (digits_value s 0).

Definition issue_pattern : string :=
  "=== (\w+) ===\n([\s\S]+?)(?=\n===|\Z)".

(** The body of the loop over the matches of the textual fallback. *)
Definition fallback_issue (mt : ReMatch.match_t) : outcome issue :=
  let issue_type := nth 0 (ReMatch.m_groups mt) "" in
  let content := nth 1 (ReMatch.m_groups mt) "" in
  line_match ← ReMatch.search "line (\d+)" content false;
  line_number ← match line_match with
                | Some lm => n ← int (nth 0 (ReMatch.m_groups lm) "");
                             Return (Some n)
                | None => Return None
                end;
  Return {| title := JStr issue_type;
            description := JStr (PyStr.take 200 (PyStr.strip content));
            severity := "Unknown";
            line_numbers :=
              match line_number with
              | Some n => if n =? 0 then [] else [LInt n]
              | None => []
              end;
            code_snippet := None; swc_id := None; confidence := None |}.

Definition mythril (iss : list issue) (raw err : option string) : results :=
  {| tool := Some "Mythril"; issues := Some iss; raw_output := raw;
     error_parsing := err; error := None; success := None |}.

(** [MythrilAnalyzer.parse_results] *)
Definition parse_results (raw_output : string) : outcome results :=
  let nonblank := negb (String.eqb (PyStr.strip raw_output) "") in
  let finish (iss : list issue) :=
    mythril iss
      (match iss with
       | [] => if nonblank then Some (PyStr.take 1000 raw_output) else None
       | _ => None
       end) None in
  if nonblank then
    match loads raw_output with
    | Return mythril_results =>
        ms ← as_dict mythril_results;
        its ← iterate (default (JArr []) (get ms "issues"));
        iss ← mapM parse_issue its;
        Return (finish iss)
    | Raise JSONDecodeError =>
        matches ← ReMatch.finditer issue_pattern raw_output false;
        iss ← mapM fallback_issue matches;
        Return (mythril iss (Some (PyStr.take 1000 raw_output))
                  (Some "Could not parse Mythril JSON output"))
    | Raise e => Raise e
    end
  else Return (finish []).

(** The issues of the textual fallback: the loop of [parse_results] over
    the matches of [issue_pattern] in the output. *)
Definition fallback_issues (raw_output : string) : outcome (list issue) :=
  matches ← ReMatch.finditer issue_pattern raw_output false;
  mapM fallback_issue matches.

(** What running the tool came to. *)
Inductive run_outcome :=
| Completed (returncode : Z) (stdout stderr : string)
| TimeoutExpired
| Failed (e : exn).

Definition failure (msg : string) : results :=
  {| tool := Some "Mythril"; issues := None; raw_output := None;
     error_parsing := None; error := Some msg; success := Some false |}.

Section Analyze.

(** [str(e)], the text of an exception. *)
Variable str : exn -> string.

(** [MythrilAnalyzer.analyze]: [path_exists] is the answer of
    [os.path.exists(contract_path)] and [run] the outcome of
    [subprocess.run].  The result is what is stored in
    [self.results] and returned. *)
Definition analyze (path_exists : bool) (contract_path : string)
    (run : run_outcome) : outcome results :=
  if negb path_exists then
    Return {| tool := None; issues := None; raw_output := None;
              error_parsing := None;
              error := Some ("File not found: " ++ contract_path);
              success := None |}
  else
    match run with
    | Completed returncode stdout stderr =>
        if negb (returncode =? 0) && String.eqb stdout "" then
          Return (failure ("Mythril analysis failed: " ++ stderr))
        else
          match parse_results stdout with
          | Return r =>
              Return {| tool := tool r; issues := issues r;
                        raw_output := raw_output r;
                        error_parsing := error_parsing r;
                        error := error r; success := Some true |}
          | Raise outside_fragment => Raise outside_fragment
          | Raise e => Return (failure ("Error running Mythril: " ++ str e))
          end
    | TimeoutExpired =>
        Return (failure "Mythril analysis timed out after 300 seconds")
    | Failed e => Return (failure ("Error running Mythril: " ++ str e))
    end.

End Analyze.

Definition oyente_severity_map : list (string * string) :=
  [ ("reentrancy", "High");
    ("timestamp_dependency", "Medium");
    ("assertion_failure", "High");
    ("integer_overflow", "High");
    ("integer_underflow", "Medium");
    ("money_concurrency", "High");
    ("transaction_ordering_dependence", "Medium");
    ("parity_multisig_bug", "Critical") ].

(** [OyenteAnalyzer._get_severity_for_issue] *)
Definition _get_severity_for_issue (issue_type : string) : string :=
  PyStr.dict_get oyente_severity_map (PyStr.lower issue_type) "Medium".

Definition parse_error_text : string := "Could not parse Mythril JSON output".

(** An output of the tool in its textual form: one block, named
    [Issue], whose text mentions a line number of [n] digits. *)
Fixpoint digits (n : nat) : string :=
  match n with
  | O => ""
  | S n' => String "7" (digits n')
  end.

Definition textual_output (n : nat) : string :=
  "=== Issue ===" ++ newline ++ "in line " ++ digits n.

End Tools.

(** * More of the code *)

(** ** The risk score: vocabulary of further statements *)

Module ScoreMore.
Import RiskScorer.

(** The sum of the counts of the categories. *)
Definition sum_counts (m : gmap string cat_stats) : Z :=
  map_fold (fun _ st acc => count st + acc) 0 m.

(** [n] analyses of the empty text by one legal scorer, without a reset
    in between. *)
Fixpoint analyze_empty_times
    (chk1 chk2 chk3 : string -> RiskScore -> RiskScore) (n : nat)
    (risk_score : RiskScore) : RiskScore :=
  match n with
  | O => risk_score
  | S n' =>
      analyze_empty_times chk1 chk2 chk3 n'
        (analyze_contract chk1 chk2 chk3 "" risk_score)
  end.

End ScoreMore.

(** ** The Mythril adapter: vocabulary of further statements *)

Module ToolsMore.
Import Json Tools.

(** The title the adapter gives to a decoded issue. *)
Definition title_of (i : value) : value :=
  match i with
  | JObj ms => default (JStr "Unknown Issue") (get ms "title")
  | _ => JStr "Unknown Issue"
  end.

(** A description of the textual fallback: a text of at most 200
    characters. *)
Definition short_text (v : value) : Prop :=
  match v with
  | JStr d => PyStr.len d <= 200
  | _ => False
  end.

(** A text between double quotes. *)
Definition quoted (s : string) : string :=
  String dquote (s ++ String dquote "").

(** A captured output with one issue, and the issue the parser makes of
    it. *)
Definition sample_output : string :=
  "{" ++ quoted "issues" ++ ": [{" ++ quoted "title" ++ ": " ++ quoted "A" ++ "}]}".

Definition sample_issue : issue :=
  {| title := JStr "A"; description := JStr ""; severity := "Unknown";
     line_numbers := []; code_snippet := Some "";
     swc_id := Some (JStr ""); confidence := Some (JStr "Unknown") |}.

Section AnalyzeWith.

Variable str : exn -> string.

(** The method [self.parse_results] that [analyze] calls: what it
    returns or raises for an output. *)
Variable parse : string -> outcome results.

(** [MythrilAnalyzer.analyze], with the parser it calls as a parameter:
    the same steps as [Tools.analyze], which is this function for the
    parser [Tools.parse_results]. *)
Definition analyze_with (path_exists : bool) (contract_path : string)
    (run : run_outcome) : outcome results :=
  if negb path_exists then
    Return {| tool := None; issues := None; raw_output := None;
              error_parsing := None;
              error := Some ("File not found: " ++ contract_path);
              success := None |}
  else
    match run with
    | Completed returncode stdout stderr =>
        if negb (returncode =? 0) && String.eqb stdout "" then
          Return (failure ("Mythril analysis failed: " ++ stderr))
        else
          match parse stdout with
          | Return r =>
              Return {| tool := tool r; issues := issues r;
                        raw_output := raw_output r;
                        error_parsing := error_parsing r;
                        error := error r; success := Some true |}
          | Raise outside_fragment => Raise outside_fragment
          | Raise e => Return (failure ("Error running Mythril: " ++ str e))
          end
    | TimeoutExpired =>
        Return (failure "Mythril analysis timed out after 300 seconds")
    | Failed e => Return (failure ("Error running Mythril: " ++ str e))
    end.

End AnalyzeWith.

(** The result of the parser with the mark [success] set. *)
Definition marked_success (r : results) : results :=
  {| tool := tool r; issues := issues r; raw_output := raw_output r;
     error_parsing := error_parsing r; error := error r;
     success := Some true |}.

End ToolsMore.

(** ** Several tools: [MultiToolAnalyzer] *)

Module MultiTool.
Import Tools.

(** The keys of [self.analyzers]. *)
Definition analyzer_names : list string := ["mythril"; "oyente"; "smartcheck"].

Record summary := {
  high_severity : Z;
  medium_severity : Z;
  low_severity : Z;
  total_issues : Z;
  successful_tools : option Z;
  requested_tools : option Z
}.

Record combined := {
  contract_path : string;
  filename : string;
  tool_results : gmap string results;
  c_summary : summary
}.

(** The state of the loop over the requested tools: the combined results
    and the two local counters. *)
Record loop_state := {
  ls_results : gmap string results;
  ls_high : Z;
  ls_medium : Z;
  ls_low : Z;
  ls_successful : Z;
  ls_total : Z
}.

(** The body of the loop over the issues of a tool. *)
Definition count_issue (st : loop_state) (i : issue) : loop_state :=
  let severity := PyStr.lower (Tools.severity i) in
  if String.eqb severity "high" || String.eqb severity "critical" then
    {| ls_results := ls_results st; ls_high := ls_high st + 1;
       ls_medium := ls_medium st; ls_low := ls_low st;
       ls_successful := ls_successful st; ls_total := ls_total st |}
  else if String.eqb severity "medium" then
    {| ls_results := ls_results st; ls_high := ls_high st;
       ls_medium := ls_medium st + 1; ls_low := ls_low st;
       ls_successful := ls_successful st; ls_total := ls_total st |}
  else
    {| ls_results := ls_results st; ls_high := ls_high st;
       ls_medium := ls_medium st; ls_low := ls_low st + 1;
       ls_successful := ls_successful st; ls_total := ls_total st |}.

Section Analyzers.

(** The result the analyzer of a tool returns for the contract. *)
Variable analyze_tool : string -> results.

(** The body of the loop over the requested tools. *)
Definition run_tool (st : loop_state) (tool_name : string) : loop_state :=
  if negb (existsb (String.eqb tool_name) analyzer_names) then
    {| ls_results :=
         <[tool_name :=
             {| tool := None; issues := None; raw_output := None;
                error_parsing := None;
                error := Some ("Unknown tool: " ++ tool_name);
                success := Some false |}]> (ls_results st);
       ls_high := ls_high st; ls_medium := ls_medium st; ls_low := ls_low st;
       ls_successful := ls_successful st; ls_total := ls_total st |}
  else
    let tool_result := analyze_tool tool_name in
    let st1 :=
      {| ls_results := <[tool_name := tool_result]> (ls_results st);
         ls_high := ls_high st; ls_medium := ls_medium st; ls_low := ls_low st;
         ls_successful := ls_successful st; ls_total := ls_total st |} in
    match default false (success tool_result), issues tool_result with
    | true, Some iss =>
        fold_left count_issue iss
          {| ls_results := ls_results st1;
             ls_high := ls_high st1; ls_medium := ls_medium st1;
             ls_low := ls_low st1;
             ls_successful := ls_successful st1 + 1;
             ls_total := ls_total st1 + Z.of_nat (length iss) |}
    | _, _ => st1
    end.

(** [MultiToolAnalyzer.analyze_contract]: [path_exists] is the answer of
    [os.path.exists(contract_path)], [basename] the base name of the
    path, and [tools] the requested tools, [None] when none is given.
    The result is the error of a missing file, or the combined
    results. *)
Definition analyze_contract (path_exists : bool) (contract_path basename : string)
    (tools : option (list string)) : string + combined :=
  if negb path_exists then inl ("Contract file not found: " ++ contract_path)
  else
    let tools :=
      match tools with
      | None | Some [] => analyzer_names
      | Some ts => ts
      end in
    let st := fold_left run_tool tools
                {| ls_results := ∅; ls_high := 0; ls_medium := 0; ls_low := 0;
                   ls_successful := 0; ls_total := 0 |} in
    inr {| contract_path := contract_path;
           filename := basename;
           tool_results := ls_results st;
           c_summary :=
             {| high_severity := ls_high st;
                medium_severity := ls_medium st;
                low_severity := ls_low st;
                total_issues := ls_total st;
                successful_tools := Some (ls_successful st);
                requested_tools := Some (Z.of_nat (length tools)) |} |}.

End Analyzers.

(** The tools that are run when [tools] is requested. *)
Definition effective_tools (tools : option (list string)) : list string :=
  match tools with
  | None | Some [] => analyzer_names
  | Some ts => ts
  end.

(** The issues a requested tool contributes to the summary. *)
Definition counted_issues (analyze_tool : string -> results) (tool_name : string)
    : list issue :=
  if existsb (String.eqb tool_name) analyzer_names then
    match default false (success (analyze_tool tool_name)),
          issues (analyze_tool tool_name) with
    | true, Some iss => iss
    | _, _ => []
    end
  else [].

(** The severity classes of the summary. *)
Definition is_high (i : issue) : bool :=
  String.eqb (PyStr.lower (Tools.severity i)) "high"
  || String.eqb (PyStr.lower (Tools.severity i)) "critical".

Definition is_medium (i : issue) : bool :=
  negb (is_high i) && String.eqb (PyStr.lower (Tools.severity i)) "medium".

Definition is_low (i : issue) : bool := negb (is_high i) && negb (is_medium i).

Definition how_many (p : issue -> bool) (iss : list issue) : Z :=
  Z.of_nat (length (List.filter p iss)).

End MultiTool.

(** ** The remaining helper of the smart-contract scorer *)

Module ScorerHelpers.

Definition open_brace : ascii := "{"%char.
Definition close_brace : ascii := "}"%char.

(** The loop of [_find_closing_brace] from index [i] on, over the
    characters from there, with the current value of [stack]. *)
Fixpoint scan_braces (s : list ascii) (i : Z) (stack : Z) : Z :=
  match s with
  | [] => -1
  | c :: r =>
      if Ascii.eqb c open_brace then scan_braces r (i + 1) (stack + 1)
      else if Ascii.eqb c close_brace then
        if stack - 1 =? 0 then i else scan_braces r (i + 1) (stack - 1)
      else scan_braces r (i + 1) stack
  end.

(** [SmartContractRiskScorer._find_closing_brace], for a start position
    that is not negative (the callers pass the end of a match). *)
Definition _find_closing_brace (text : string) (start_pos : nat) : Z :=
  scan_braces (drop start_pos (list_ascii_of_string text)) (Z.of_nat start_pos) 0.

(** How often a character occurs among others. *)
Definition occurrences (c : ascii) (s : list ascii) : Z :=
  Z.of_nat (length (List.filter (Ascii.eqb c) s)).

(** [text[i:j]] as a list of characters. *)
Definition chars_between (text : string) (i j : nat) : list ascii :=
  ReMatch.slice i j (list_ascii_of_string text).

End ScorerHelpers.

(** ** The custom rules: vocabulary of further statements *)

Module RulesMore.
Import Loophole.

(** The finding of a rule for a line. *)
Definition rule_finding (filename : string) (line_num : Z) (line : string)
    (rule : rule) : finding :=
  {| check := r_name rule;
     impact := r_severity rule;
     confidence := "Medium";
     description := r_description rule ++ " (Custom Rule Match)";
     elements := [line_element line line_num filename] |}.

(** The pattern of the rule is found in the line, letter case ignored. *)
Definition rule_matches (rule : rule) (line : string) : bool :=
  match ReMatch.search (r_pattern rule) line true with
  | Return (Some _) => true
  | _ => false
  end.

(** The findings of one line: one per matching rule, in the order of the
    rules. *)
Definition findings_of_line (filename : string) (nl : Z * string) : list finding :=
  List.map (rule_finding filename (fst nl) (snd nl))
    (List.filter (fun r => rule_matches r (snd nl)) CUSTOM_RULES).

(** The line number a finding of a custom rule refers to. *)
Definition line_of (f : finding) : Z :=
  match elements f with
  | e :: _ =>
      match sm_lines (e_source_mapping e) with
      | n :: _ => n
      | [] => 0
      end
  | [] => 0
  end.

(** The pattern that is the characters [cs], each one a literal. *)
Fixpoint literal (c : ascii) (cs : list ascii) : Re.regex :=
  match cs with
  | [] => Re.Lit c
  | c' :: cs' => Re.Seq (Re.Lit c) (literal c' cs')
  end.

(** The text starts with the characters [cs], letter case ignored: what
    is left of the text then. *)
Fixpoint starts_with_ci (cs : list ascii) (s : list ascii) : option (list ascii) :=
  match cs, s with
  | [], _ => Some s
  | c :: cs', x :: s' =>
      if ReMatch.lit_matches true c x then starts_with_ci cs' s' else None
  | _ :: _, [] => None
  end.

Fixpoint occurs_ci (cs : list ascii) (s : list ascii) : bool :=
  match starts_with_ci cs s with
  | Some _ => true
  | None =>
      match s with
      | [] => false
      | _ :: s' => occurs_ci cs s'
      end
  end.

(** The two rules whose pattern is a literal text. *)
Definition timestamp_rule : rule := nth 0 CUSTOM_RULES (Build_rule "" "" "" "").
Definition tx_origin_rule : rule := nth 1 CUSTOM_RULES (Build_rule "" "" "" "").

(** The text of a file as the program reads it is a sequence of code
    points.  It is a string of this development when every code point
    is below 256. *)
Definition below_256 (text : list N) : Prop :=
  Forall (fun n => (n < 256)%N) text.

Definition string_of_code_points (text : list N) : string :=
  string_of_list_ascii (List.map ascii_of_N text).

End RulesMore.

(** ** The severity table of the training pass: vocabulary *)

Module TrainMore.

(** An entry of a table whose key is written in lower case. *)
Definition lower_case_key (kv : string * string) : bool :=
  String.eqb (PyStr.lower (fst kv)) (fst kv).

End TrainMore.


(** * Properties *)

(** ** The library models on sample inputs *)

Section LibraryModels.

Let nl : string := String (Re.chr 10) "".
Let cr : string := String (Re.chr 13) "".
Let q (s : string) : string := String Json.dquote (s ++ String Json.dquote "").

Example lower_mixed_case : PyStr.lower "CrItIcAl" = "critical".
Proof. reflexivity. Qed.

Example strip_both_ends : PyStr.strip "  a b  " = "a b".
Proof. reflexivity. Qed.

Example splitlines_samples :
  PyStr.splitlines ("ab" ++ cr ++ nl ++ "c" ++ nl) = ["ab"; "c"]
  /\ PyStr.splitlines ("a" ++ nl ++ nl ++ "b") = ["a"; ""; "b"]
  /\ PyStr.splitlines "" = []
  /\ PyStr.splitlines nl = [""]
  /\ PyStr.splitlines ("a" ++ cr) = ["a"].
Proof. repeat split. Qed.

Example rules_on_samples :
  Loophole.rule_hits "counter += 1;" = Return <$> [false; false; true; false]
  /\ Loophole.rule_hits "msg.sender.call (x)" = Return <$> [false; false; false; true]
  /\ Loophole.rule_hits "a == b" = Return <$> [false; false; false; false]
  /\ Loophole.rule_hits "if (block.TIMESTAMP > t)" = Return <$> [true; false; false; false]
  /\ Loophole.rule_hits "i++ ;" = Return <$> [false; false; false; false]
  /\ Loophole.rule_hits "i++ j" = Return <$> [false; false; true; false].
Proof. repeat split; vm_compute; reflexivity. Qed.

Example sub_samples :
  ReMatch.sub "\s+" "-" "a b   c  " = Return "a-b-c-"
  /\ ReMatch.sub "x*" "-" "abxd" = Return "-a-b--d-"
  /\ ReMatch.sub "|a" "-" "aaa" = Return "-------"
  /\ ReMatch.sub "\s+" "\s+" "a b" = Raise (re_error "bad escape \s").
Proof. repeat split; vm_compute; reflexivity. Qed.

Example escape_sample :
  ReMatch.escape "x.call.value(amount)() a_b-c"
  = "x\.call\.value\(amount\)\(\)\ a_b\-c".
Proof. reflexivity. Qed.

(** The escaped exemplar has no fragment the second substitution of the
    detection looks for, and, taken as a pattern, it matches its own
    line in any case of letters but not the line with other names. *)
Example escaped_exemplar_is_literal :
  ReMatch.search "\\\w+\\s+\\\w+" (ReMatch.escape "x.call.value(amount)()") false
  = Return None
  /\ Loophole.found <$>
       ReMatch.search (ReMatch.escape "x.call.value(amount)()")
         "  X.CALL.value(amount)();" true
     = Return true
  /\ ReMatch.search (ReMatch.escape "x.call.value(amount)()")
       "y.call.value(total)()" true
     = Return None.
Proof. repeat split; vm_compute; reflexivity. Qed.

Example loads_samples :
  Json.loads "{not json" = Raise JSONDecodeError
  /\ Json.loads "[1,]" = Raise JSONDecodeError
  /\ Json.loads "01" = Raise JSONDecodeError
  /\ Json.loads "1." = Raise JSONDecodeError
  /\ Json.loads "nul" = Raise JSONDecodeError
  /\ Json.loads "[1 2]" = Raise JSONDecodeError
  /\ Json.loads "[]x" = Raise JSONDecodeError
  /\ Json.loads "" = Raise JSONDecodeError
  /\ Json.loads " [[1, 2.5e3], true, null, NaN] "
     = Return (Json.JArr [Json.JArr [Json.JNum "1"; Json.JNum "2.5e3"];
                          Json.JBool true; Json.JNull; Json.JNum "NaN"])
  /\ Json.loads ("{" ++ q "a" ++ ": " ++ q "xA\n" ++ ", " ++ q "a" ++ " : {}}")
     = Return (Json.JObj [("a", Json.JStr ("xA" ++ nl)); ("a", Json.JObj [])]).
Proof. repeat split; vm_compute; reflexivity. Qed.

Example fallback_sample :
  Tools.parse_results
    ("=== Foo ===" ++ nl ++ "at line 12 x" ++ nl ++ "=== Bar ===" ++ nl ++ "b2")
  = Return
      (Tools.mythril
         [ {| Tools.title := Json.JStr "Foo";
              Tools.description := Json.JStr "at line 12 x";
              Tools.severity := "Unknown";
              Tools.line_numbers := [Tools.LInt 12];
              Tools.code_snippet := None; Tools.swc_id := None;
              Tools.confidence := None |};
           {| Tools.title := Json.JStr "Bar";
              Tools.description := Json.JStr "b2";
              Tools.severity := "Unknown";
              Tools.line_numbers := [];
              Tools.code_snippet := None; Tools.swc_id := None;
              Tools.confidence := None |} ]
         (Some ("=== Foo ===" ++ nl ++ "at line 12 x" ++ nl ++ "=== Bar ===" ++ nl ++ "b2"))
         (Some Tools.parse_error_text)).
Proof. vm_compute. reflexivity. Qed.

(** A JSON text of another shape than the adapter expects makes the
    parser raise; the analysis catches it. *)
Example wrong_shape_raises :
  Tools.parse_results "[]" = Raise AttributeError
  /\ Tools.analyze (fun _ => "e") true "c.sol" (Tools.Completed 0 "[]" "")
     = Return (Tools.failure "Error running Mythril: e").
Proof. repeat split; vm_compute; reflexivity. Qed.

End LibraryModels.

(** ** The risk score *)

Section RiskScoreFacts.
Import RiskScorer.

Lemma weight_nonneg l : 0 <= _get_risk_weight l.
Proof. destruct l; simpl; lia. Qed.

Lemma add_vulnerability_categories rs f :
  risk_categories (add_vulnerability rs f) =
  <[f_category f := next_stats (risk_categories rs !! f_category f) (f_risk_level f)]>
    (risk_categories rs).
Proof.
  unfold add_vulnerability, next_stats; simpl.
  destruct (risk_categories rs !! f_category f) as [st|] eqn:E.
  - rewrite E; simpl.
    destruct (value (max_level st) <? value (f_risk_level f)); reflexivity.
  - rewrite lookup_insert_eq, insert_insert_eq; simpl.
    destruct (0 <? value (f_risk_level f)); reflexivity.
Qed.

Lemma add_vulnerability_vulns rs f :
  vulnerabilities (add_vulnerability rs f) = (vulnerabilities rs ++ [mk_vuln f])%list.
Proof. reflexivity. Qed.

Lemma add_vulnerability_total rs f :
  total_score (add_vulnerability rs f) =
  total_score rs + _get_risk_weight (f_risk_level f).
Proof. reflexivity. Qed.

Lemma add_vulnerability_max rs f :
  max_risk_level (add_vulnerability rs f) =
  if value (max_risk_level rs) <? value (f_risk_level f)
  then f_risk_level f else max_risk_level rs.
Proof. reflexivity. Qed.

Lemma aggregate_snoc fs f :
  aggregate (fs ++ [f]) = add_vulnerability (aggregate fs) f.
Proof. unfold aggregate. rewrite fold_left_app. reflexivity. Qed.

Lemma aggregate_vulns fs : vulnerabilities (aggregate fs) = mk_vuln <$> fs.
Proof.
  induction fs as [|f fs IH] using rev_ind; [reflexivity|].
  rewrite aggregate_snoc, add_vulnerability_vulns, IH, fmap_app. reflexivity.
Qed.

Lemma sum_weights_app vs ws : sum_weights (vs ++ ws) = sum_weights vs + sum_weights ws.
Proof. induction vs as [|v vs IH]; simpl; [reflexivity | rewrite IH; lia]. Qed.

Lemma count_in_app c vs ws : count_in c (vs ++ ws) = count_in c vs + count_in c ws.
Proof.
  induction vs as [|v vs IH]; simpl; [reflexivity|].
  rewrite IH. destruct (decide (v_category v = c)); lia.
Qed.

Lemma count_level_app l vs ws :
  count_level l (vs ++ ws) = count_level l vs + count_level l ws.
Proof.
  induction vs as [|v vs IH]; simpl; [reflexivity|].
  rewrite IH. destruct (decide (v_risk_level v = l)); lia.
Qed.

Lemma count_level_nonneg l vs : 0 <= count_level l vs.
Proof.
  induction vs as [|v vs IH]; simpl; [lia|].
  destruct (decide (v_risk_level v = l)); lia.
Qed.

Lemma sum_weights_nonneg vs : 0 <= sum_weights vs.
Proof.
  induction vs as [|v vs IH]; simpl; [lia|].
  pose proof (weight_nonneg (v_risk_level v)). lia.
Qed.

Lemma aggregate_total fs :
  total_score (aggregate fs) = sum_weights (vulnerabilities (aggregate fs)).
Proof.
  induction fs as [|f fs IH] using rev_ind; [reflexivity|].
  rewrite aggregate_snoc, add_vulnerability_vulns, add_vulnerability_total.
  rewrite sum_weights_app, IH. simpl. lia.
Qed.

(** The histogram of [get_summary] counts the vulnerabilities of each
    level. *)
Lemma level_counts_snoc vs v l :
  level_counts (vs ++ [v]) l =
  level_counts vs l + (if decide (v_risk_level v = l) then 1 else 0).
Proof.
  unfold level_counts. rewrite fold_left_app. simpl. unfold bump.
  destruct (decide (l = v_risk_level v)), (decide (v_risk_level v = l));
    congruence || lia.
Qed.

Lemma level_counts_count vs l : level_counts vs l = count_level l vs.
Proof.
  induction vs as [|v vs IH] using rev_ind; [reflexivity|].
  rewrite level_counts_snoc, count_level_app, IH. simpl.
  destruct (decide (v_risk_level v = l)); lia.
Qed.

Lemma bucket_summary rs l :
  bucket (s_risk_distribution (get_summary rs)) l =
  count_level l (vulnerabilities rs).
Proof. rewrite <- level_counts_count. destruct l; reflexivity. Qed.

(** The sum of the category scores after an entry is written. *)
Lemma sum_scores_insert m c st :
  sum_scores (<[c := st]> m) =
  sum_scores m - score (default zero_stats (m !! c)) + score st.
Proof.
  assert (Hcomm : forall (m' : gmap string cat_stats) (j1 j2 : string)
                    (z1 z2 : cat_stats) (y : Z),
             j1 ≠ j2 -> m' !! j1 = Some z1 -> m' !! j2 = Some z2 ->
             score z1 + (score z2 + y) = score z2 + (score z1 + y))
    by (intros; lia).
  unfold sum_scores.
  destruct (m !! c) as [old|] eqn:E; simpl.
  - rewrite <- (insert_delete_eq m c st).
    rewrite <- (insert_delete_id m c old E) at 2.
    rewrite !map_fold_insert_L by (eauto || apply lookup_delete_eq). lia.
  - rewrite map_fold_insert_L by eauto. lia.
Qed.

Lemma aggregate_scores fs :
  total_score (aggregate fs) = sum_scores (risk_categories (aggregate fs)).
Proof.
  induction fs as [|f fs IH] using rev_ind; [reflexivity|].
  rewrite aggregate_snoc, add_vulnerability_total, add_vulnerability_categories.
  rewrite sum_scores_insert, IH. unfold next_stats; simpl. lia.
Qed.

Lemma aggregate_counts fs c :
  count_of (risk_categories (aggregate fs) !! c) =
  count_in c (vulnerabilities (aggregate fs)).
Proof.
  induction fs as [|f fs IH] using rev_ind; [reflexivity|].
  rewrite aggregate_snoc, add_vulnerability_vulns, add_vulnerability_categories.
  rewrite count_in_app; simpl.
  destruct (decide (f_category f = c)) as [->|Hne].
  - rewrite lookup_insert_eq; simpl. rewrite <- IH.
    destruct (risk_categories (aggregate fs) !! c); simpl; lia.
  - rewrite lookup_insert_ne by done. rewrite IH. lia.
Qed.

Lemma value_inj l1 l2 : value l1 = value l2 -> l1 = l2.
Proof. destruct l1, l2; simpl; intros; congruence || lia. Qed.

Lemma aggregate_max_bound fs v :
  v ∈ vulnerabilities (aggregate fs) ->
  value (v_risk_level v) <= value (max_risk_level (aggregate fs)).
Proof.
  induction fs as [|f fs IH] using rev_ind; [inversion 1|].
  rewrite aggregate_snoc, add_vulnerability_vulns, add_vulnerability_max.
  intros [Hin | Hin%list_elem_of_singleton]%elem_of_app.
  - specialize (IH Hin).
    destruct (Z.ltb_spec (value (max_risk_level (aggregate fs)))
                (value (f_risk_level f))); lia.
  - subst v; simpl.
    destruct (Z.ltb_spec (value (max_risk_level (aggregate fs)))
                (value (f_risk_level f))); lia.
Qed.

Lemma aggregate_max_attained fs :
  fs ≠ [] ->
  exists v, v ∈ vulnerabilities (aggregate fs)
            /\ v_risk_level v = max_risk_level (aggregate fs).
Proof.
  induction fs as [|f fs IH] using rev_ind; [congruence|]. intros _.
  rewrite aggregate_snoc, add_vulnerability_vulns, add_vulnerability_max.
  destruct (Z.ltb_spec (value (max_risk_level (aggregate fs)))
              (value (f_risk_level f))) as [Hlt|Hge].
  - exists (mk_vuln f). split; [set_solver | reflexivity].
  - destruct fs as [|f0 fs'].
    + exists (mk_vuln f). split; [set_solver|]. simpl in *.
      apply value_inj. pose proof (value_inj (f_risk_level f) NONE).
      destruct (f_risk_level f); simpl in *; lia || reflexivity.
    + destruct IH as (v & Hin & Hv); [congruence|].
      exists v. split; [set_solver | exact Hv].
Qed.

End RiskScoreFacts.

Section RiskScoreClaims.
Import RiskScorer.

Lemma dict_get_default {V} (d : list (string * V)) key (dflt : V) :
  ~ In key (List.map fst d) -> PyStr.dict_get d key dflt = dflt.
Proof.
  induction d as [|[k v] d IH]; simpl; [reflexivity|]. intros Hnot.
  destruct (String.eqb_spec k key) as [->|Hne]; [tauto|].
  apply IH. tauto.
Qed.

(** C1, as stated, fails: the string [bogus] is not in the vocabulary,
    yet it converts to the level Low, whose text is not "Unknown" and
    whose weight is 1, not 0. *)
Lemma unknown_severity_counterexample :
  ~ recognized "bogus"
  /\ from_string "bogus" = LOW
  /\ to_string (Some (from_string "bogus")) <> "Unknown"
  /\ _get_risk_weight (from_string "bogus") <> 0.
Proof.
  repeat split; try reflexivity; try discriminate.
  unfold recognized; simpl. intros H.
  repeat (destruct H as [H|H]; [discriminate H|]). exact H.
Qed.

(** C1, amended: every severity string outside the recognised
    vocabulary converts to the level Low, whose weight is 1; a finding
    of that level is appended to the list of vulnerabilities, none is
    dropped, and the total score grows by 1. *)
Theorem unknown_severity_defaults_to_low (level_str : string) :
  ~ recognized level_str ->
  from_string level_str = LOW
  /\ _get_risk_weight (from_string level_str) = 1
  /\ forall rs f,
       f_risk_level f = from_string level_str ->
       vulnerabilities (add_vulnerability rs f)
         = (vulnerabilities rs ++ [mk_vuln f])%list
       /\ total_score (add_vulnerability rs f) = total_score rs + 1.
Proof.
  intros Hnot.
  assert (E : from_string level_str = LOW)
    by (unfold from_string; apply dict_get_default; exact Hnot).
  rewrite E. split; [reflexivity|]. split; [reflexivity|].
  intros rs f Hf. split; [apply add_vulnerability_vulns|].
  rewrite add_vulnerability_total, Hf. reflexivity.
Qed.

Lemma unknown_severity_defaults_to_low_witness :
  from_string "bogus" = LOW /\ _get_risk_weight (from_string "bogus") = 1.
Proof.
  destruct (unknown_severity_defaults_to_low "bogus") as (H1 & H2 & _).
  - unfold recognized; simpl. intros H.
    repeat (destruct H as [H|H]; [discriminate H|]). exact H.
  - split; [exact H1 | exact H2].
Defined.

(** C4: the overall risk level follows the total score by fixed
    thresholds: 0 gives None, a score strictly between 0 and 3 gives
    Low, from 3 and below 8 Medium, from 8 and below 18 High, and from 18
    on Critical. *)
Theorem overall_risk_level_thresholds (rs : RiskScore) :
  (total_score rs = 0 -> get_overall_risk_level rs = NONE)
  /\ (0 < total_score rs < 3 -> get_overall_risk_level rs = LOW)
  /\ (3 <= total_score rs < 8 -> get_overall_risk_level rs = MEDIUM)
  /\ (8 <= total_score rs < 18 -> get_overall_risk_level rs = HIGH)
  /\ (18 <= total_score rs -> get_overall_risk_level rs = CRITICAL).
Proof.
  unfold get_overall_risk_level.
  destruct (Z.eqb_spec (total_score rs) 0), (Z.ltb_spec (total_score rs) 3),
    (Z.ltb_spec (total_score rs) 8), (Z.ltb_spec (total_score rs) 18);
    repeat split; intros; lia || reflexivity.
Qed.

Lemma overall_risk_level_thresholds_witness :
  get_overall_risk_level (aggregate []) = NONE
  /\ get_overall_risk_level (aggregate [finding_of LOW; finding_of LOW]) = LOW
  /\ get_overall_risk_level (aggregate [finding_of MEDIUM]) = MEDIUM
  /\ get_overall_risk_level (aggregate [finding_of HIGH; finding_of LOW]) = HIGH
  /\ get_overall_risk_level (aggregate [finding_of CRITICAL; finding_of MEDIUM])
     = CRITICAL.
Proof.
  split; [|split; [|split; [|split]]].
  - apply (proj1 (overall_risk_level_thresholds (aggregate []))).
    reflexivity.
  - apply (proj1 (proj2 (overall_risk_level_thresholds
                           (aggregate [finding_of LOW; finding_of LOW])))).
    simpl; lia.
  - apply (proj1 (proj2 (proj2 (overall_risk_level_thresholds
                                  (aggregate [finding_of MEDIUM]))))).
    simpl; lia.
  - apply (proj1 (proj2 (proj2 (proj2 (overall_risk_level_thresholds
             (aggregate [finding_of HIGH; finding_of LOW])))))).
    simpl; lia.
  - apply (proj2 (proj2 (proj2 (proj2 (overall_risk_level_thresholds
             (aggregate [finding_of CRITICAL; finding_of MEDIUM])))))).
    simpl; lia.
Defined.

(** C7: adding a finding to a list of findings, at any place, never
    lowers the total score of the aggregation nor any bucket of the
    severity histogram of its summary, and raises the bucket of the
    finding's own level by one. *)
Theorem aggregation_monotone (fs1 fs2 : list finding) (f : finding) :
  let before := get_summary (aggregate (fs1 ++ fs2)) in
  let after := get_summary (aggregate (fs1 ++ f :: fs2)) in
  s_total_score before <= s_total_score after
  /\ (forall l, bucket (s_risk_distribution before) l
                <= bucket (s_risk_distribution after) l)
  /\ bucket (s_risk_distribution after) (f_risk_level f)
     = bucket (s_risk_distribution before) (f_risk_level f) + 1.
Proof.
  cbv zeta. split; [|split].
  - unfold get_summary; cbn [s_total_score].
    rewrite !aggregate_total, !aggregate_vulns, !fmap_app, fmap_cons.
    rewrite !sum_weights_app; cbn [sum_weights foldr].
    fold (sum_weights (mk_vuln <$> fs2)).
    pose proof (weight_nonneg (v_risk_level (mk_vuln f))). lia.
  - intros l. rewrite !bucket_summary, !aggregate_vulns, !fmap_app, fmap_cons.
    rewrite !count_level_app; cbn [count_level foldr].
    fold (count_level l (mk_vuln <$> fs2)).
    destruct (decide (v_risk_level (mk_vuln f) = l)); lia.
  - rewrite !bucket_summary, !aggregate_vulns, !fmap_app, fmap_cons.
    rewrite !count_level_app; cbn [count_level foldr].
    fold (count_level (f_risk_level f) (mk_vuln <$> fs2)).
    destruct (decide (v_risk_level (mk_vuln f) = f_risk_level f)) as [_|Hne];
      [lia | exfalso; apply Hne; reflexivity].
Qed.

(** C9: after any sequence of [add_vulnerability] calls on a fresh
    score, the total score is the sum of the weights of the recorded
    vulnerabilities and the sum of the scores of the categories; the
    count of every category is the number of recorded vulnerabilities of
    that category; and the maximal risk level bounds every recorded
    level, is None when nothing was recorded and is otherwise the level
    of a recorded vulnerability. *)
Theorem accounting_invariant (fs : list finding) :
  let rs := aggregate fs in
  total_score rs = sum_weights (vulnerabilities rs)
  /\ total_score rs = sum_scores (risk_categories rs)
  /\ (forall c, count_of (risk_categories rs !! c) = count_in c (vulnerabilities rs))
  /\ (forall v, v ∈ vulnerabilities rs ->
                value (v_risk_level v) <= value (max_risk_level rs))
  /\ (fs = [] -> max_risk_level rs = NONE)
  /\ (fs <> [] -> exists v, v ∈ vulnerabilities rs
                            /\ v_risk_level v = max_risk_level rs).
Proof.
  cbv zeta. split; [apply aggregate_total|]. split; [apply aggregate_scores|].
  split; [intros c; apply aggregate_counts|].
  split; [intros v; apply aggregate_max_bound|].
  split; [intros ->; reflexivity | apply aggregate_max_attained].
Qed.

Lemma accounting_invariant_witness :
  exists v, v ∈ vulnerabilities (aggregate [finding_of HIGH; finding_of LOW])
            /\ v_risk_level v
               = max_risk_level (aggregate [finding_of HIGH; finding_of LOW]).
Proof.
  apply (proj2 (proj2 (proj2 (proj2 (proj2
           (accounting_invariant [finding_of HIGH; finding_of LOW])))))).
  discriminate.
Defined.

(** C10, as stated, fails: the analysis adds to the score the scorer
    already holds.  A scorer that has analysed the empty text once and
    analyses it again, with no reset in between, returns a score with
    two vulnerabilities, a total of 30 and the overall level Critical,
    not one vulnerability, 15 and High. *)
Lemma empty_input_counterexample :
  let idle := fun (_ : string) (rs : RiskScore) => rs in
  let legal :=
    analyze_contract idle idle idle "" (analyze_contract idle idle idle "" init) in
  let smart :=
    analyze_contract_code idle idle idle ""
      (analyze_contract_code idle idle idle "" init) in
  vulnerabilities legal = [mk_vuln empty_contract; mk_vuln empty_contract]
  /\ total_score legal = 30
  /\ get_overall_risk_level legal = CRITICAL
  /\ vulnerabilities smart = [mk_vuln empty_contract_code; mk_vuln empty_contract_code]
  /\ total_score smart = 30
  /\ get_overall_risk_level smart = CRITICAL.
Proof. cbv zeta. split; [|split; [|split; [|split; [|split]]]]; reflexivity. Qed.

(** C10, amended: on the empty text, and on the empty code, the analysis
    performs none of its checks and adds exactly one vulnerability, of
    level Critical and category Completeness, to the score the scorer
    holds: the vulnerabilities are those held before and the new one at
    the end, and the total grows by 15.  On a fresh scorer the score
    then has exactly that one vulnerability, the total 15 and the
    overall level High; on a scorer whose total was 3 or more the
    overall level is Critical. *)
Theorem empty_input_adds_one_critical_finding
    (chk1 chk2 chk3 : string -> RiskScore -> RiskScore) (rs : RiskScore) :
  let legal := analyze_contract chk1 chk2 chk3 "" rs in
  let smart := analyze_contract_code chk1 chk2 chk3 "" rs in
  (legal = add_vulnerability rs empty_contract
   /\ smart = add_vulnerability rs empty_contract_code)
  /\ (vulnerabilities legal = (vulnerabilities rs ++ [mk_vuln empty_contract])%list
      /\ vulnerabilities smart
         = (vulnerabilities rs ++ [mk_vuln empty_contract_code])%list)
  /\ (v_risk_level (mk_vuln empty_contract) = CRITICAL
      /\ v_category (mk_vuln empty_contract) = "Completeness"
      /\ v_risk_level (mk_vuln empty_contract_code) = CRITICAL
      /\ v_category (mk_vuln empty_contract_code) = "Completeness")
  /\ (total_score legal = total_score rs + 15
      /\ total_score smart = total_score rs + 15)
  /\ (rs = init ->
      vulnerabilities legal = [mk_vuln empty_contract]
      /\ vulnerabilities smart = [mk_vuln empty_contract_code]
      /\ total_score legal = 15 /\ total_score smart = 15
      /\ get_overall_risk_level legal = HIGH
      /\ get_overall_risk_level smart = HIGH)
  /\ (0 <= total_score rs < 3 ->
      get_overall_risk_level legal = HIGH
      /\ get_overall_risk_level smart = HIGH)
  /\ (3 <= total_score rs ->
      get_overall_risk_level legal = CRITICAL
      /\ get_overall_risk_level smart = CRITICAL).
Proof.
  cbv zeta.
  assert (El : analyze_contract chk1 chk2 chk3 "" rs
               = add_vulnerability rs empty_contract) by reflexivity.
  assert (Es : analyze_contract_code chk1 chk2 chk3 "" rs
               = add_vulnerability rs empty_contract_code) by reflexivity.
  rewrite El, Es.
  assert (Tl : total_score (add_vulnerability rs empty_contract)
               = total_score rs + 15)
    by (rewrite add_vulnerability_total; reflexivity).
  assert (Ts : total_score (add_vulnerability rs empty_contract_code)
               = total_score rs + 15)
    by (rewrite add_vulnerability_total; reflexivity).
  split; [split; reflexivity|].
  split; [split; apply add_vulnerability_vulns|].
  split; [split; [|split; [|split]]; reflexivity|].
  split; [split; assumption|].
  split; [intros ->; split; [|split; [|split; [|split; [|split]]]]; reflexivity|].
  split.
  - intros Hlt. unfold get_overall_risk_level. rewrite Tl, Ts.
    destruct (Z.eqb_spec (total_score rs + 15) 0); [lia|].
    destruct (Z.ltb_spec (total_score rs + 15) 3); [lia|].
    destruct (Z.ltb_spec (total_score rs + 15) 8); [lia|].
    destruct (Z.ltb_spec (total_score rs + 15) 18); [|lia].
    split; reflexivity.
  - intros Hge. unfold get_overall_risk_level. rewrite Tl, Ts.
    destruct (Z.eqb_spec (total_score rs + 15) 0); [lia|].
    destruct (Z.ltb_spec (total_score rs + 15) 3); [lia|].
    destruct (Z.ltb_spec (total_score rs + 15) 8); [lia|].
    destruct (Z.ltb_spec (total_score rs + 15) 18); [lia|].
    split; reflexivity.
Qed.

Lemma empty_input_adds_one_critical_finding_witness :
  get_overall_risk_level
    (analyze_contract (fun _ rs => rs) (fun _ rs => rs) (fun _ rs => rs) ""
       (aggregate [finding_of MEDIUM]))
  = CRITICAL.
Proof.
  apply (proj2 (proj2 (proj2 (proj2 (proj2 (proj2
           (empty_input_adds_one_critical_finding
              (fun _ rs => rs) (fun _ rs => rs) (fun _ rs => rs)
              (aggregate [finding_of MEDIUM])))))))).
  vm_compute. discriminate.
Defined.

End RiskScoreClaims.

(** ** Severity tables *)

Section SeverityTables.

(** C5, as stated, fails: an issue type that is in neither table is
    given the severity Medium, not Unknown. *)
Lemma severity_table_counterexample :
  ~ In (PyStr.lower "selfdestruct_bug") (List.map fst Tools.oyente_severity_map)
  /\ Tools._get_severity_for_issue "selfdestruct_bug" = "Medium"
  /\ Tools._get_severity_for_issue "selfdestruct_bug" <> "Unknown"
  /\ ~ In (PyStr.lower "selfdestruct_bug") (List.map fst Train.severity_map)
  /\ Train.get_severity_for_vulnerability "selfdestruct_bug" = "Medium"
  /\ Train.get_severity_for_vulnerability "selfdestruct_bug" <> "Unknown".
Proof.
  split; [|split; [|split; [|split; [|split]]]];
    try reflexivity; try discriminate.
  - simpl. intros H.
    repeat (destruct H as [H|H]; [discriminate H|]). exact H.
  - simpl. intros H.
    repeat (destruct H as [H|H]; [discriminate H|]). exact H.
Qed.

Lemma lower_char_idempotent c : PyStr.lower_char (PyStr.lower_char c) = PyStr.lower_char c.
Proof. destruct c as [[] [] [] [] [] [] [] []]; reflexivity. Qed.

Lemma lower_idempotent s : PyStr.lower (PyStr.lower s) = PyStr.lower s.
Proof.
  induction s as [|c s IH]; [reflexivity|].
  change (PyStr.lower (String c s))
    with (String (PyStr.lower_char c) (PyStr.lower s)).
  change (PyStr.lower (String (PyStr.lower_char c) (PyStr.lower s)))
    with (String (PyStr.lower_char (PyStr.lower_char c))
            (PyStr.lower (PyStr.lower s))).
  rewrite lower_char_idempotent, IH. reflexivity.
Qed.

(** Looking up the lower-cased type finds every entry whose key is
    written in lower case. *)
Lemma lookup_honours_lower_case_keys (table : list (string * string)) :
  Forall (fun kv => PyStr.dict_get table (fst kv) "Medium" = snd kv) table ->
  forall s k v,
    In (k, v) table -> PyStr.lower k = k -> PyStr.lower s = PyStr.lower k ->
    PyStr.dict_get table (PyStr.lower s) "Medium" = v.
Proof.
  intros Hall s k v Hin Hk Hs. rewrite Forall_forall in Hall.
  rewrite Hs, Hk. apply (Hall (k, v)). apply list_elem_of_In, Hin.
Qed.

(** A type that equals no key up to letter case is not found. *)
Lemma lookup_defaults (table : list (string * string)) s :
  (forall k, In k (List.map fst table) -> PyStr.lower s <> PyStr.lower k) ->
  PyStr.dict_get table (PyStr.lower s) "Medium" = "Medium".
Proof.
  intros H. apply dict_get_default. intros Hin.
  apply (H (PyStr.lower s) Hin). symmetry. apply lower_idempotent.
Qed.

(** C5, amended: the severity of an issue type is looked up in an
    explicit table by the lower-cased type, in the adapter of Oyente and
    in the training pass alike.  A type that equals, up to letter case,
    a key of the table that is written in lower case gets the severity
    the table lists for it; all keys of the adapter's table are written
    so.  A type that equals no key of the table up to letter case gets
    Medium, and never Unknown. *)
Theorem severity_table_defaults_to_medium (issue_type : string) :
  (forall k v, In (k, v) Tools.oyente_severity_map -> PyStr.lower k = k)
  /\ (forall k v,
        In (k, v) Tools.oyente_severity_map ->
        PyStr.lower issue_type = PyStr.lower k ->
        Tools._get_severity_for_issue issue_type = v)
  /\ ((forall k, In k (List.map fst Tools.oyente_severity_map) ->
                 PyStr.lower issue_type <> PyStr.lower k) ->
      Tools._get_severity_for_issue issue_type = "Medium")
  /\ (forall k v,
        In (k, v) Train.severity_map ->
        PyStr.lower k = k ->
        PyStr.lower issue_type = PyStr.lower k ->
        Train.get_severity_for_vulnerability issue_type = v)
  /\ ((forall k, In k (List.map fst Train.severity_map) ->
                 PyStr.lower issue_type <> PyStr.lower k) ->
      Train.get_severity_for_vulnerability issue_type = "Medium")
  /\ "Medium" <> "Unknown".
Proof.
  assert (Ho : forall k v, In (k, v) Tools.oyente_severity_map -> PyStr.lower k = k).
  { intros k v Hin. cbn in Hin.
    repeat (destruct Hin as [[= <- <-]|Hin]; [reflexivity|]). contradiction. }
  split; [exact Ho|]. split; [|split; [|split; [|split]]].
  - intros k v Hin Hs. unfold Tools._get_severity_for_issue.
    apply (lookup_honours_lower_case_keys Tools.oyente_severity_map)
      with (k := k); eauto.
    repeat (constructor; [reflexivity|]). constructor.
  - apply lookup_defaults.
  - intros k v Hin Hk Hs. unfold Train.get_severity_for_vulnerability.
    apply (lookup_honours_lower_case_keys Train.severity_map)
      with (k := k); auto.
    repeat (constructor; [reflexivity|]). constructor.
  - apply lookup_defaults.
  - discriminate.
Qed.

Lemma severity_table_defaults_to_medium_witness :
  Tools._get_severity_for_issue "Parity_Multisig_Bug" = "Critical"
  /\ Train.get_severity_for_vulnerability "TX-Origin" = "High"
  /\ Tools._get_severity_for_issue "selfdestruct_bug" = "Medium"
  /\ Train.get_severity_for_vulnerability "selfdestruct_bug" = "Medium".
Proof.
  destruct (severity_table_defaults_to_medium "Parity_Multisig_Bug")
    as (_ & H1 & _).
  destruct (severity_table_defaults_to_medium "TX-Origin")
    as (_ & _ & _ & H2 & _).
  destruct (severity_table_defaults_to_medium "selfdestruct_bug")
    as (_ & _ & H3 & _ & H4 & _).
  split; [|split; [|split]].
  - apply (H1 "parity_multisig_bug"); [cbn; tauto | reflexivity].
  - apply (H2 "tx-origin"); [cbn; tauto | reflexivity | reflexivity].
  - apply H3. cbn. intros k Hk.
    repeat (destruct Hk as [<-|Hk]; [discriminate|]). contradiction.
  - apply H4. cbn. intros k Hk.
    repeat (destruct Hk as [<-|Hk]; [discriminate|]). contradiction.
Defined.

End SeverityTables.

(** ** The rule engine and the pattern model *)

Section LoopholeClaims.
Import Loophole.

(** C6: the custom rules, applied to a source text that is the one line
    [require(tx.origin == owner);], give exactly one finding; it is the
    one of the rule TX_Origin_Usage, of severity High, marked as a
    custom rule match, and its one element is that line, at line 1. *)
Theorem tx_origin_scenario (filename : string) :
  apply_custom_rules filename (Return "require(tx.origin == owner);") =
  [ {| check := "TX_Origin_Usage";
       impact := "High";
       confidence := "Medium";
       description :=
         "Use of tx.origin for authentication, vulnerable to phishing. (Custom Rule Match)";
       elements :=
         [ {| e_type := "line";
              e_name := "require(tx.origin == owner);";
              e_source_mapping :=
                {| sm_start := -1; sm_length := -1; sm_lines := [1];
                   sm_filename_relative := filename |} |} ] |} ].
Proof. vm_compute. reflexivity. Qed.

(** Each call of [re.sub] of the detection has a replacement template
    with an escape that [re] refuses, so deriving a pattern raises for
    every exemplar. *)
Lemma core_pattern_raises (pattern : string) :
  core_pattern pattern = Raise (re_error "bad escape \s").
Proof. vm_compute. reflexivity. Qed.

Lemma for_each_keeps {A} (xs : list A) (body : A -> step) :
  (forall x acc, snd (body x acc) = acc) ->
  forall acc, snd (for_each xs body acc) = acc.
Proof.
  intros Hbody. induction xs as [|x xs IH]; intros acc; simpl; [reflexivity|].
  specialize (Hbody x acc).
  destruct (body x acc) as [[[]|e] acc']; simpl in *; subst acc'; auto.
Qed.

Lemma apply_pattern_keeps mdl name vt n line pattern acc :
  snd (apply_pattern mdl name vt n line pattern acc) = acc.
Proof. unfold apply_pattern. rewrite core_pattern_raises. reflexivity. Qed.

(** Hence the model-based detection never yields a finding. *)
Lemma model_detection_finds_nothing mdl name file :
  model_detection mdl name file = [].
Proof.
  unfold model_detection.
  destruct mdl as [mdl|]; [|reflexivity].
  destruct file as [content|e]; [|reflexivity].
  apply for_each_keeps. intros [vt patterns] acc.
  apply for_each_keeps. intros [n line] acc'.
  apply for_each_keeps. intros pattern acc''.
  apply apply_pattern_keeps.
Qed.

(** C2, on the code: for the exemplar [x.call.value(amount)()] learned
    under reentrancy, deriving the pattern raises, and the detection
    reports nothing on the line [y.call.value(total)()] of the same
    shape, as it reports nothing on the unrelated line. *)
Theorem pattern_generalization_on_exemplar (contract_name : string) :
  core_pattern "x.call.value(amount)()" = Raise (re_error "bad escape \s")
  /\ model_detection (Some exemplar_model) contract_name
       (Return "y.call.value(total)()") = []
  /\ model_detection (Some exemplar_model) contract_name
       (Return "uint256 public totalSupply;") = [].
Proof.
  split; [apply core_pattern_raises|].
  split; apply model_detection_finds_nothing.
Qed.

End LoopholeClaims.

(** ** Training of the pattern model *)

Section TrainClaims.
Import Train.

Lemma fold_left_preserves {A S} (g : S -> A -> S) (P : S -> Prop) xs :
  (forall s y, P s -> P (g s y)) -> forall s, P s -> P (fold_left g xs s).
Proof. intros Hg. induction xs as [|x xs IH]; simpl; auto. Qed.

Lemma fold_left_establishes {A S} (g : S -> A -> S) (P : S -> Prop) xs x :
  x ∈ xs -> (forall s, P (g s x)) -> (forall s y, P s -> P (g s y)) ->
  forall s, P (fold_left g xs s).
Proof.
  intros Hin Hx Hg. induction Hin as [x xs|x y xs Hin IH]; intros s; simpl.
  - apply (fold_left_preserves g P); [exact Hg | apply Hx].
  - apply IH; assumption.
Qed.

(** One element: the list of the check type is kept, or gets the code
    line as its new last member when the line is not in it yet. *)
Lemma add_element_same vt cp el line :
  code_line_of el = Some line ->
  add_element vt cp el !! vt =
  Some (if bool_decide (line ∈ exemplars cp vt) then exemplars cp vt
        else (exemplars cp vt ++ [line])%list).
Proof.
  intros E. unfold add_element, exemplars. rewrite E.
  destruct (cp !! vt) as [l|] eqn:El; simpl.
  - rewrite El; simpl. destruct (bool_decide (line ∈ l)).
    + exact El.
    + apply lookup_insert_eq.
  - rewrite lookup_insert_eq; simpl.
    destruct (bool_decide (line ∈ [])) eqn:B.
    + apply bool_decide_eq_true in B. inversion B.
    + apply lookup_insert_eq.
Qed.

Lemma add_element_skip vt cp el :
  code_line_of el = None -> add_element vt cp el = cp.
Proof. intros E. unfold add_element. rewrite E. reflexivity. Qed.

Lemma add_element_other vt vt' cp el :
  vt' <> vt -> exemplars (add_element vt cp el) vt' = exemplars cp vt'.
Proof.
  intros Hne. unfold add_element, exemplars.
  destruct (code_line_of el) as [line|]; [|reflexivity].
  destruct (cp !! vt) as [l|] eqn:El; simpl.
  - rewrite El; simpl. destruct (bool_decide (line ∈ l)); [reflexivity|].
    rewrite lookup_insert_ne by congruence. reflexivity.
  - rewrite lookup_insert_eq; simpl.
    destruct (bool_decide (line ∈ [])); rewrite !lookup_insert_ne by congruence;
      reflexivity.
Qed.

Lemma add_element_prefix vt cp el vt' :
  exemplars cp vt' `prefix_of` exemplars (add_element vt cp el) vt'.
Proof.
  destruct (decide (vt' = vt)) as [->|Hne].
  - destruct (code_line_of el) as [line|] eqn:E.
    + unfold exemplars at 2. rewrite (add_element_same _ _ _ _ E); simpl.
      destruct (bool_decide (line ∈ exemplars cp vt)); [reflexivity|].
      apply prefix_app_r. reflexivity.
    + rewrite add_element_skip by exact E. reflexivity.
  - rewrite add_element_other by exact Hne. reflexivity.
Qed.

Lemma add_element_nodup vt cp el : all_nodup cp -> all_nodup (add_element vt cp el).
Proof.
  intros Hcp vt' l Hl.
  destruct (code_line_of el) as [line|] eqn:E;
    [|rewrite add_element_skip in Hl by exact E; eauto].
  destruct (decide (vt' = vt)) as [->|Hne].
  - rewrite (add_element_same _ _ _ _ E) in Hl. injection Hl as <-.
    assert (Hnd : NoDup (exemplars cp vt)).
    { unfold exemplars. destruct (cp !! vt) as [l0|] eqn:E0; simpl;
        [eauto | constructor]. }
    destruct (bool_decide (line ∈ exemplars cp vt)) eqn:B; [exact Hnd|].
    apply bool_decide_eq_false in B.
    apply NoDup_app. split; [exact Hnd|]. split.
    + intros x Hx Hx'%list_elem_of_singleton. subst x. contradiction.
    + apply NoDup_singleton.
  - pose proof (add_element_other vt vt' cp el Hne) as Ho.
    unfold exemplars in Ho. rewrite Hl in Ho; simpl in Ho.
    destruct (cp !! vt') as [l0|] eqn:E0; simpl in Ho.
    + subst l. eauto.
    + subst l. constructor.
Qed.

Lemma add_element_member vt cp el line :
  code_line_of el = Some line -> line ∈ exemplars (add_element vt cp el) vt.
Proof.
  intros E. unfold exemplars at 1. rewrite (add_element_same _ _ _ _ E); simpl.
  destruct (bool_decide (line ∈ exemplars cp vt)) eqn:B.
  - apply bool_decide_eq_true in B. exact B.
  - set_solver.
Qed.

Lemma grows_refl cp : grows cp cp.
Proof. intros vt. reflexivity. Qed.

Lemma grows_trans cp1 cp2 cp3 : grows cp1 cp2 -> grows cp2 cp3 -> grows cp1 cp3.
Proof. intros H1 H2 vt. etransitivity; [apply H1 | apply H2]. Qed.

Lemma add_elements_grows vt els cp :
  grows cp (fold_left (add_element vt) els cp).
Proof.
  revert cp. induction els as [|el els IH]; intros cp; simpl; [apply grows_refl|].
  eapply grows_trans; [|apply IH]. intros vt'. apply add_element_prefix.
Qed.

Lemma add_finding_grows st f :
  grows (code_patterns st) (code_patterns (add_finding st f)).
Proof. apply add_elements_grows. Qed.

Lemma add_findings_grows fs st :
  grows (code_patterns st) (code_patterns (fold_left add_finding fs st)).
Proof.
  revert st. induction fs as [|f fs IH]; intros st; simpl; [apply grows_refl|].
  eapply grows_trans; [apply (add_finding_grows st f) | apply IH].
Qed.

Lemma add_report_grows st file :
  grows (code_patterns st) (code_patterns (add_report st file)).
Proof.
  destruct file as [path [rep|e]]; simpl; [|apply grows_refl].
  eapply grows_trans; [|apply add_findings_grows].
  apply (add_findings_grows (slither_findings rep)
           {| code_patterns := code_patterns st;
              vulnerability_counts := vulnerability_counts st;
              contract_count := contract_count st + 1;
              vulnerable_contract_count := _ |}).
Qed.

Lemma add_reports_grows files st :
  grows (code_patterns st) (code_patterns (fold_left add_report files st)).
Proof.
  revert st. induction files as [|file files IH]; intros st; simpl;
    [apply grows_refl|].
  eapply grows_trans; [apply add_report_grows | apply IH].
Qed.

Lemma add_finding_nodup st f :
  all_nodup (code_patterns st) -> all_nodup (code_patterns (add_finding st f)).
Proof.
  simpl. apply fold_left_preserves. intros cp el. apply add_element_nodup.
Qed.

Lemma add_report_nodup st file :
  all_nodup (code_patterns st) -> all_nodup (code_patterns (add_report st file)).
Proof.
  destruct file as [path [rep|e]]; simpl; [|auto]. intros H.
  apply (fold_left_preserves add_finding (fun s => all_nodup (code_patterns s)));
    [intros s y; apply add_finding_nodup|].
  apply (fold_left_preserves add_finding (fun s => all_nodup (code_patterns s)));
    [intros s y; apply add_finding_nodup | exact H].
Qed.

Lemma train_nodup files : all_nodup (code_patterns (train files)).
Proof.
  unfold train.
  apply (fold_left_preserves add_report (fun s => all_nodup (code_patterns s)));
    [intros s y; apply add_report_nodup|].
  intros vt l H. simpl in H. rewrite lookup_empty in H. discriminate.
Qed.

Lemma has_line_grows vt line cp cp' :
  grows cp cp' -> has_line vt line cp -> has_line vt line cp'.
Proof.
  intros Hg Hin. unfold has_line in *.
  destruct (Hg vt) as [k ->]. set_solver.
Qed.

Lemma add_finding_has_line st f el line :
  el ∈ elements f -> code_line_of el = Some line ->
  has_line (default "unknown" (check f)) line (code_patterns (add_finding st f)).
Proof.
  intros Hel E. simpl.
  apply (fold_left_establishes _ (has_line _ line) _ el Hel).
  - intros cp. apply add_element_member, E.
  - intros cp el'. apply has_line_grows. intros vt'. apply add_element_prefix.
Qed.

Lemma add_findings_has_line fs st f el line :
  f ∈ fs -> el ∈ elements f -> code_line_of el = Some line ->
  has_line (default "unknown" (check f)) line
    (code_patterns (fold_left add_finding fs st)).
Proof.
  intros Hf Hel E.
  apply (fold_left_establishes add_finding
           (fun s => has_line _ line (code_patterns s)) _ f Hf).
  - intros s. eapply add_finding_has_line; eauto.
  - intros s f'. apply has_line_grows, add_finding_grows.
Qed.

Lemma add_report_has_line st path rep f el line :
  f ∈ (slither_findings rep ++ custom_findings rep)%list ->
  el ∈ elements f -> code_line_of el = Some line ->
  has_line (default "unknown" (check f)) line
    (code_patterns (add_report st (path, Return rep))).
Proof.
  intros [Hf|Hf]%elem_of_app Hel E; simpl.
  - eapply has_line_grows; [apply add_findings_grows|].
    eapply add_findings_has_line; eauto.
  - eapply add_findings_has_line; eauto.
Qed.

Lemma train_has_line files path rep f el line :
  (path, Return rep) ∈ files ->
  f ∈ (slither_findings rep ++ custom_findings rep)%list ->
  el ∈ elements f -> code_line_of el = Some line ->
  has_line (default "unknown" (check f)) line (code_patterns (train files)).
Proof.
  intros Hfile Hf Hel E. unfold train.
  apply (fold_left_establishes add_report
           (fun s => has_line _ line (code_patterns s)) _ _ Hfile).
  - intros s. eapply add_report_has_line; eauto.
  - intros s file. apply has_line_grows, add_report_grows.
Qed.

Lemma code_line_of_spec el :
  e_type el = Some "line" ->
  5 < PyStr.len (PyStr.strip (default "" (e_name el))) ->
  code_line_of el = Some (PyStr.strip (default "" (e_name el))).
Proof.
  intros Ht Hlen. unfold code_line_of.
  rewrite bool_decide_eq_true_2 by exact Ht.
  destruct (String.eqb_spec (PyStr.strip (default "" (e_name el))) "") as [E|_].
  - rewrite E in Hlen. simpl in Hlen. unfold PyStr.len in Hlen. simpl in Hlen. lia.
  - apply Z.ltb_lt in Hlen. rewrite Hlen. reflexivity.
Qed.

Lemma code_line_of_inv el line :
  code_line_of el = Some line ->
  e_type el = Some "line"
  /\ line = PyStr.strip (default "" (e_name el))
  /\ 5 < PyStr.len line.
Proof.
  unfold code_line_of.
  destruct (bool_decide (e_type el = Some "line")) eqn:B; [|discriminate].
  apply bool_decide_eq_true in B. cbv zeta.
  destruct (negb (String.eqb (PyStr.strip (default "" (e_name el))) "")
            && (5 <? PyStr.len (PyStr.strip (default "" (e_name el))))) eqn:G;
    [|discriminate].
  intros [= <-]. apply andb_true_iff in G as [_ G]. apply Z.ltb_lt in G. auto.
Qed.

(** An element of another type, and a line of five characters or fewer,
    have no code line. *)
Lemma code_line_of_skips el :
  e_type el <> Some "line"
  \/ PyStr.len (PyStr.strip (default "" (e_name el))) <= 5 ->
  code_line_of el = None.
Proof.
  intros H. destruct (code_line_of el) as [line|] eqn:E; [|reflexivity].
  apply code_line_of_inv in E as (Ht & -> & Hlen). destruct H; [contradiction | lia].
Qed.

(** Whatever is in a list after one element was already there, or is
    the code line of the element. *)
Lemma add_element_sound vt cp el vt' line :
  line ∈ exemplars (add_element vt cp el) vt' ->
  line ∈ exemplars cp vt' \/ (vt' = vt /\ code_line_of el = Some line).
Proof.
  intros H. destruct (decide (vt' = vt)) as [->|Hne].
  - destruct (code_line_of el) as [l0|] eqn:E.
    + unfold exemplars at 1 in H. rewrite (add_element_same _ _ _ _ E) in H.
      cbn [default from_option] in H. unfold id in H.
      destruct (bool_decide (l0 ∈ exemplars cp vt)); [left; exact H|].
      apply elem_of_app in H as [H|H]; [left; exact H|].
      apply list_elem_of_singleton in H. subst l0. right. auto.
    + rewrite add_element_skip in H by exact E. left. exact H.
  - rewrite add_element_other in H by exact Hne. left. exact H.
Qed.

Lemma add_elements_sound vt els cp vt' line :
  line ∈ exemplars (fold_left (add_element vt) els cp) vt' ->
  line ∈ exemplars cp vt'
  \/ (vt' = vt /\ exists el, el ∈ els /\ code_line_of el = Some line).
Proof.
  revert cp. induction els as [|el els IH]; intros cp H; cbn [fold_left] in H.
  - left. exact H.
  - apply IH in H as [H|(-> & el' & Hel' & E)].
    + apply add_element_sound in H as [H|(-> & E)]; [left; exact H|].
      right. split; [reflexivity|]. exists el.
      split; [apply list_elem_of_here | exact E].
    + right. split; [reflexivity|]. exists el'.
      split; [apply list_elem_of_further, Hel' | exact E].
Qed.

Lemma add_findings_sound fs st vt line :
  line ∈ exemplars (code_patterns (fold_left add_finding fs st)) vt ->
  line ∈ exemplars (code_patterns st) vt
  \/ exists f el, f ∈ fs /\ default "unknown" (check f) = vt
                  /\ el ∈ elements f /\ code_line_of el = Some line.
Proof.
  revert st. induction fs as [|f fs IH]; intros st H; cbn [fold_left] in H.
  - left. exact H.
  - apply IH in H as [H|(f' & el & Hf' & Hvt & Hel & E)].
    + change (code_patterns (add_finding st f))
        with (fold_left (add_element (default "unknown" (check f)))
                (elements f) (code_patterns st)) in H.
      apply add_elements_sound in H as [H|(-> & el & Hel & E)]; [left; exact H|].
      right. exists f, el.
      split; [apply list_elem_of_here|]. split; [reflexivity|]. auto.
    + right. exists f', el. split; [apply list_elem_of_further, Hf'|]. auto.
Qed.

Lemma add_report_sound st path rep vt line :
  line ∈ exemplars (code_patterns (add_report st (path, Return rep))) vt ->
  line ∈ exemplars (code_patterns st) vt
  \/ exists f el, f ∈ (slither_findings rep ++ custom_findings rep)%list
                  /\ default "unknown" (check f) = vt
                  /\ el ∈ elements f /\ code_line_of el = Some line.
Proof.
  cbn [add_report]. intros H.
  apply add_findings_sound in H as [H|(f & el & Hf & Hrest)].
  - apply add_findings_sound in H as [H|(f & el & Hf & Hrest)].
    + left. exact H.
    + right. exists f, el. split; [apply elem_of_app; left; exact Hf | exact Hrest].
  - right. exists f, el. split; [apply elem_of_app; right; exact Hf | exact Hrest].
Qed.

Lemma add_reports_sound files st vt line :
  line ∈ exemplars (code_patterns (fold_left add_report files st)) vt ->
  line ∈ exemplars (code_patterns st) vt
  \/ exists path rep f el,
       (path, Return rep) ∈ files
       /\ f ∈ (slither_findings rep ++ custom_findings rep)%list
       /\ default "unknown" (check f) = vt
       /\ el ∈ elements f /\ code_line_of el = Some line.
Proof.
  revert st. induction files as [|[path [rep|e]] files IH]; intros st H;
    cbn [fold_left] in H.
  - left. exact H.
  - apply IH in H as [H|(path' & rep' & f & el & Hfile & Hrest)].
    + apply add_report_sound in H as [H|(f & el & Hrest)]; [left; exact H|].
      right. exists path, rep, f, el. split; [apply list_elem_of_here | exact Hrest].
    + right. exists path', rep', f, el.
      split; [apply list_elem_of_further, Hfile | exact Hrest].
  - apply IH in H as [H|(path' & rep' & f & el & Hfile & Hrest)].
    + left. exact H.
    + right. exists path', rep', f, el.
      split; [apply list_elem_of_further, Hfile | exact Hrest].
Qed.

(** C8, as stated, fails: a code line of five characters or fewer is
    not appended; after training on a report whose one finding has the
    line [x=1;], the model has no exemplar under that check type. *)
Lemma training_counterexample :
  PyStr.strip "x=1;" = "x=1;"
  /\ code_patterns (train [("r_detection_report.json", Return short_line_report)])
       !! "tx-origin" = None.
Proof. split; vm_compute; reflexivity. Qed.

(** C8, amended: the training pass appends every not-yet-seen code line
    of more than five characters (the stripped name of an element of
    type line) to the exemplar list of its check type, and nothing
    else: a line is in the list of a check type at the end exactly when
    it is such a line of a finding of that check type in a loaded
    report, so that lines of five characters or fewer and elements of
    another type are skipped.  No list holds a line twice; one element
    leaves the lists as they are when it is skipped, and otherwise
    leaves the list of its check type as it is or adds the line at its
    end; and training on further reports only extends the lists. *)
Theorem training_appends_and_dedups (files : list (string * outcome report)) :
  let cp := code_patterns (train files) in
  (forall vt l, cp !! vt = Some l -> NoDup l)
  /\ (forall vt line,
        line ∈ exemplars cp vt <->
        exists path rep f el,
          (path, Return rep) ∈ files
          /\ f ∈ (slither_findings rep ++ custom_findings rep)%list
          /\ default "unknown" (check f) = vt
          /\ el ∈ elements f
          /\ e_type el = Some "line"
          /\ line = PyStr.strip (default "" (e_name el))
          /\ 5 < PyStr.len line)
  /\ (forall vt cp0 el,
        e_type el <> Some "line"
        \/ PyStr.len (PyStr.strip (default "" (e_name el))) <= 5 ->
        add_element vt cp0 el = cp0)
  /\ (forall vt cp0 el,
        e_type el = Some "line" ->
        5 < PyStr.len (PyStr.strip (default "" (e_name el))) ->
        let line := PyStr.strip (default "" (e_name el)) in
        exemplars (add_element vt cp0 el) vt =
        if bool_decide (line ∈ exemplars cp0 vt) then exemplars cp0 vt
        else (exemplars cp0 vt ++ [line])%list)
  /\ (forall more vt,
        exemplars cp vt
          `prefix_of` exemplars (code_patterns (train (files ++ more))) vt).
Proof.
  cbv zeta. split; [apply train_nodup|]. split; [|split; [|split]].
  - intros vt line. split.
    + intros H. unfold train in H.
      apply add_reports_sound in H as [H|(path & rep & f & el & H1 & H2 & H3 & H4 & E)].
      * unfold exemplars in H. cbn in H. rewrite lookup_empty in H. inversion H.
      * apply code_line_of_inv in E as (Ht & Hl & Hlen).
        exists path, rep, f, el. auto 10.
    + intros (path & rep & f & el & H1 & H2 & <- & H4 & Ht & -> & Hlen).
      eapply train_has_line; eauto using code_line_of_spec.
  - intros vt cp0 el H. apply add_element_skip, code_line_of_skips, H.
  - intros vt cp0 el Ht Hlen. unfold exemplars at 1.
    rewrite (add_element_same _ _ _ _ (code_line_of_spec el Ht Hlen)).
    reflexivity.
  - intros more vt. unfold train. rewrite fold_left_app.
    apply add_reports_grows.
Qed.

Lemma training_appends_and_dedups_witness :
  "require(tx.origin == owner);"
    ∈ exemplars
        (code_patterns (train [("c_detection_report.json", Return long_line_report)]))
        "TX_Origin_Usage".
Proof.
  apply (proj2 (proj1 (proj2 (training_appends_and_dedups
                                [("c_detection_report.json", Return long_line_report)]))
                  "TX_Origin_Usage" "require(tx.origin == owner);")).
  exists "c_detection_report.json", long_line_report,
    {| check := Some "TX_Origin_Usage";
       elements :=
         [ {| e_type := Some "line";
              e_name := Some "  require(tx.origin == owner);  " |} ] |},
    {| e_type := Some "line";
       e_name := Some "  require(tx.origin == owner);  " |}.
  split; [apply list_elem_of_here|]. split; [apply list_elem_of_here|].
  split; [reflexivity|]. split; [apply list_elem_of_here|].
  split; [reflexivity|]. split; vm_compute; reflexivity.
Defined.

End TrainClaims.

(** ** The Mythril adapter *)

Section AdapterClaims.
Import Tools.

(** C3, as stated, fails: on the truncated text [{not json], which is
    not a JSON text, the parser returns a result without a success flag
    and without an error field, and the analysis marks that result as a
    success. *)
Lemma adapter_counterexample :
  Json.loads "{not json" = Raise JSONDecodeError
  /\ (exists r, parse_results "{not json" = Return r
                /\ success r = None /\ error r = None)
  /\ (exists r, analyze (fun _ => "") true "c.sol" (Completed 0 "{not json" "")
                = Return r
                /\ success r = Some true /\ error r = None).
Proof.
  split; [vm_compute; reflexivity|].
  split; eexists; (split; [vm_compute; reflexivity|]); split; reflexivity.
Qed.

Lemma finditer_issue_pattern raw :
  exists ms, ReMatch.finditer issue_pattern raw false = Return ms.
Proof.
  unfold ReMatch.finditer.
  destruct (Re.compile issue_pattern) as [[r g]|e] eqn:E.
  - eexists. reflexivity.
  - vm_compute in E. discriminate E.
Qed.

Lemma search_line_pattern content :
  exists o, ReMatch.search "line (\d+)" content false = Return o.
Proof.
  unfold ReMatch.search.
  destruct (Re.compile "line (\d+)") as [[r g]|e] eqn:E.
  - eexists. reflexivity.
  - vm_compute in E. discriminate E.
Qed.

Lemma int_outcome s : (exists n, int s = Return n) \/ int s = Raise ValueError.
Proof. unfold int. destruct (4300 <? String.length s)%nat; eauto. Qed.

#[local] Opaque ReMatch.search ReMatch.finditer Json.loads int.

(** The textual fallback gives an issue, of severity Unknown, for each
    match, unless a line number is too long to be read. *)
Lemma fallback_issue_outcome mt :
  (exists i, fallback_issue mt = Return i) \/ fallback_issue mt = Raise ValueError.
Proof.
  unfold fallback_issue.
  destruct (search_line_pattern (nth 1 (ReMatch.m_groups mt) "")) as [o' E'].
  rewrite E'. simpl. destruct o' as [lm|]; simpl; [|eauto].
  destruct (int_outcome (nth 0 (ReMatch.m_groups lm) "")) as [[n ->]| ->]; simpl;
    eauto.
Qed.

Lemma mapM_fallback_outcome ms :
  (exists iss, mapM fallback_issue ms = Return iss)
  \/ mapM fallback_issue ms = Raise ValueError.
Proof.
  induction ms as [|mt ms IH]; cbn [mapM]; [eauto|].
  destruct (fallback_issue_outcome mt) as [[i ->]| ->]; simpl; [|eauto].
  destruct IH as [[iss ->]| ->]; simpl; eauto.
Qed.

Lemma parse_results_fallback raw :
  PyStr.strip raw <> "" ->
  Json.loads raw = Raise JSONDecodeError ->
  (exists iss,
     parse_results raw =
     Return (mythril iss (Some (PyStr.take 1000 raw)) (Some parse_error_text)))
  \/ parse_results raw = Raise ValueError.
Proof.
  intros Hnb Hloads. unfold parse_results.
  destruct (String.eqb_spec (PyStr.strip raw) "") as [E|_]; [contradiction|].
  simpl. rewrite Hloads.
  destruct (finditer_issue_pattern raw) as [ms ->]. simpl.
  destruct (mapM_fallback_outcome ms) as [[iss ->]| ->]; simpl; eauto.
Qed.

Lemma nonblank_nonempty raw : PyStr.strip raw <> "" -> String.eqb raw "" = false.
Proof.
  intros H. destruct (String.eqb_spec raw "") as [->|]; [|reflexivity].
  exfalso. apply H. reflexivity.
Qed.

Lemma fallback_issues_outcome raw :
  (exists iss, fallback_issues raw = Return iss)
  \/ fallback_issues raw = Raise ValueError.
Proof.
  unfold fallback_issues.
  destruct (finditer_issue_pattern raw) as [ms ->]. cbn.
  apply mapM_fallback_outcome.
Qed.

(** The textual fallback does raise: a line number of more than 4300
    digits is refused by [int]. *)
Lemma fallback_raises_on_a_long_line_number :
  fallback_issues (textual_output 4301) = Raise ValueError
  /\ parse_results (textual_output 4301) = Raise ValueError
  /\ exists iss, fallback_issues (textual_output 4300) = Return iss
                 /\ length iss = 1%nat.
Proof.
  split; [vm_compute; reflexivity|]. split; [vm_compute; reflexivity|].
  eexists. split; [vm_compute; reflexivity | reflexivity].
Qed.

(** C3, amended: for every output that is not blank and that is not a
    JSON text, the analysis never raises.  When the textual fallback
    returns its issues, the parser returns them in a result without a
    success flag and without an error, which keeps the first 1000
    characters of the output under [raw_output] and names the failure
    under [error_parsing], by a text that is not empty; the analysis
    returns that very result marked success=true.  When the textual
    fallback raises, which it does with ValueError only, the parser
    raises too, and the analysis returns success=false with the
    non-empty error text that names the exception.  So success=false is
    returned exactly when the fallback raises. *)
Theorem adapter_parse_failure (str : exn -> string) (contract_path raw stderr : string)
    (returncode : Z) :
  PyStr.strip raw <> "" ->
  Json.loads raw = Raise JSONDecodeError ->
  match fallback_issues raw with
  | Return iss =>
      parse_results raw
      = Return {| tool := Some "Mythril"; issues := Some iss;
                  raw_output := Some (PyStr.take 1000 raw);
                  error_parsing := Some parse_error_text;
                  error := None; success := None |}
      /\ analyze str true contract_path (Completed returncode raw stderr)
         = Return {| tool := Some "Mythril"; issues := Some iss;
                     raw_output := Some (PyStr.take 1000 raw);
                     error_parsing := Some parse_error_text;
                     error := None; success := Some true |}
      /\ parse_error_text <> ""
  | Raise e =>
      e = ValueError
      /\ parse_results raw = Raise ValueError
      /\ analyze str true contract_path (Completed returncode raw stderr)
         = Return {| tool := Some "Mythril"; issues := None;
                     raw_output := None; error_parsing := None;
                     error := Some ("Error running Mythril: " ++ str ValueError);
                     success := Some false |}
      /\ "Error running Mythril: " ++ str ValueError <> ""
  end.
Proof.
  intros Hnb Hloads.
  assert (Hp : parse_results raw
               = (iss ← fallback_issues raw;
                  Return (mythril iss (Some (PyStr.take 1000 raw))
                            (Some parse_error_text)))).
  { unfold parse_results, fallback_issues.
    destruct (String.eqb_spec (PyStr.strip raw) "") as [E|_]; [contradiction|].
    cbn [negb]. rewrite Hloads.
    destruct (ReMatch.finditer issue_pattern raw false) as [ms|e]; [|reflexivity].
    cbn. destruct (mapM fallback_issue ms); reflexivity. }
  assert (Ha : analyze str true contract_path (Completed returncode raw stderr)
               = match parse_results raw with
                 | Return r =>
                     Return {| tool := tool r; issues := issues r;
                               raw_output := raw_output r;
                               error_parsing := error_parsing r;
                               error := error r; success := Some true |}
                 | Raise outside_fragment => Raise outside_fragment
                 | Raise e => Return (failure ("Error running Mythril: " ++ str e))
                 end).
  { unfold analyze. cbn [negb]. rewrite (nonblank_nonempty raw Hnb).
    rewrite andb_false_r. reflexivity. }
  rewrite Ha, Hp.
  destruct (fallback_issues_outcome raw) as [[iss ->]| ->]; cbn.
  - split; [reflexivity|]. split; [reflexivity | discriminate].
  - split; [reflexivity|]. split; [reflexivity|].
    split; [reflexivity | discriminate].
Qed.

Lemma adapter_parse_failure_witness :
  analyze (fun _ => "") true "c.sol" (Completed 0 "{not json" "")
  = Return {| tool := Some "Mythril"; issues := Some [];
              raw_output := Some "{not json";
              error_parsing := Some parse_error_text;
              error := None; success := Some true |}.
Proof.
  pose proof (adapter_parse_failure (fun _ => "") "c.sol" "{not json" "" 0
                ltac:(vm_compute; discriminate)
                ltac:(vm_compute; reflexivity)) as H.
  assert (E : fallback_issues "{not json" = Return []) by (vm_compute; reflexivity).
  rewrite E in H. exact (proj1 (proj2 H)).
Defined.

End AdapterClaims.

(** * Further properties *)

(** ** The risk score *)

Section ScoreMoreFacts.
Import RiskScorer ScoreMore.

Lemma overall_risk_level_thresholds_aux (rs : RiskScore) :
  18 <= total_score rs -> get_overall_risk_level rs = CRITICAL.
Proof.
  intros H. unfold get_overall_risk_level.
  destruct (Z.eqb_spec (total_score rs) 0), (Z.ltb_spec (total_score rs) 3),
    (Z.ltb_spec (total_score rs) 8), (Z.ltb_spec (total_score rs) 18);
    lia || reflexivity.
Qed.

(** X1: [from_string] inverts [to_string], whatever the case of the
    letters: a string that equals the text of a level up to case converts
    back to that level. *)
Theorem level_text_round_trip (l : RiskLevel) (s : string) :
  PyStr.lower s = PyStr.lower (to_string (Some l)) ->
  from_string s = l.
Proof.
  intros H. unfold from_string. rewrite H. destruct l; reflexivity.
Qed.

Lemma level_text_round_trip_witness : from_string "CRITICAL" = CRITICAL.
Proof. apply (level_text_round_trip CRITICAL "CRITICAL"). reflexivity. Defined.

Lemma count_levels_total vs :
  count_level NONE vs + count_level LOW vs + count_level MEDIUM vs
  + count_level HIGH vs + count_level CRITICAL vs = Z.of_nat (length vs).
Proof.
  induction vs as [|v vs IH]; [reflexivity|].
  cbn [count_level foldr length].
  fold (count_level NONE vs) (count_level LOW vs) (count_level MEDIUM vs)
       (count_level HIGH vs) (count_level CRITICAL vs).
  destruct (v_risk_level v);
    repeat match goal with |- context [decide ?P] => destruct (decide P) end;
    try congruence; lia.
Qed.

(** X2: in the summary of any score, the five buckets of the risk
    distribution add up to the vulnerability count, and no bucket is
    negative. *)
Theorem distribution_adds_up (rs : RiskScore) :
  let s := get_summary rs in
  d_none (s_risk_distribution s) + d_low (s_risk_distribution s)
  + d_medium (s_risk_distribution s) + d_high (s_risk_distribution s)
  + d_critical (s_risk_distribution s) = s_vulnerability_count s
  /\ forall l, 0 <= bucket (s_risk_distribution s) l.
Proof.
  cbv zeta. split.
  - pose proof (count_levels_total (vulnerabilities rs)) as H.
    rewrite <- !level_counts_count in H. exact H.
  - intros l. rewrite bucket_summary. apply count_level_nonneg.
Qed.

Lemma sum_counts_insert m c st :
  sum_counts (<[c := st]> m) =
  sum_counts m - count (default zero_stats (m !! c)) + count st.
Proof.
  assert (Hcomm : forall (m' : gmap string cat_stats) (j1 j2 : string)
                    (z1 z2 : cat_stats) (y : Z),
             j1 ≠ j2 -> m' !! j1 = Some z1 -> m' !! j2 = Some z2 ->
             count z1 + (count z2 + y) = count z2 + (count z1 + y))
    by (intros; lia).
  unfold sum_counts.
  destruct (m !! c) as [old|] eqn:E; simpl.
  - rewrite <- (insert_delete_eq m c st).
    rewrite <- (insert_delete_id m c old E) at 2.
    rewrite !map_fold_insert_L by (eauto || apply lookup_delete_eq). lia.
  - rewrite map_fold_insert_L by eauto. lia.
Qed.

Lemma aggregate_sum_counts fs :
  sum_counts (risk_categories (aggregate fs)) = Z.of_nat (length fs).
Proof.
  induction fs as [|f fs IH] using rev_ind; [reflexivity|].
  rewrite aggregate_snoc, add_vulnerability_categories, sum_counts_insert, IH.
  rewrite length_app. unfold next_stats; simpl. lia.
Qed.

Lemma aggregate_category_present fs c :
  is_Some (risk_categories (aggregate fs) !! c) <->
  exists f, f ∈ fs /\ f_category f = c.
Proof.
  induction fs as [|f fs IHfs] using rev_ind.
  - simpl. rewrite lookup_empty. split.
    + intros [x Hx]. discriminate.
    + intros (f & Hf & _). inversion Hf.
  - rewrite aggregate_snoc, add_vulnerability_categories.
    destruct (decide (f_category f = c)) as [<-|Hne].
    + rewrite lookup_insert_eq. split; [|eauto].
      intros _. exists f.
      split; [apply elem_of_app; right; apply list_elem_of_here | reflexivity].
    + rewrite lookup_insert_ne by done. rewrite IHfs. split.
      * intros (g & Hg & Hc). exists g.
        split; [apply elem_of_app; auto | exact Hc].
      * intros (g & [Hg|Hg%list_elem_of_singleton]%elem_of_app & Hc);
          [eauto | congruence].
Qed.

Lemma count_in_nonneg c vs : 0 <= count_in c vs.
Proof.
  induction vs as [|v vs IH]; simpl; [lia|].
  destruct (decide (v_category v = c)); lia.
Qed.

Lemma count_in_positive c fs f :
  f ∈ fs -> f_category f = c -> 0 < count_in c (mk_vuln <$> fs).
Proof.
  intros Hin Hc. apply list_elem_of_split in Hin as (l1 & l2 & ->).
  rewrite fmap_app, fmap_cons, count_in_app. cbn [count_in foldr].
  fold (count_in c (mk_vuln <$> l2)).
  pose proof (count_in_nonneg c (mk_vuln <$> l1)).
  pose proof (count_in_nonneg c (mk_vuln <$> l2)).
  destruct (decide (v_category (mk_vuln f) = c)); [lia | contradiction].
Qed.

(** X3: the categories partition the findings.  After aggregation the
    counts of the categories add up to the vulnerability count; a
    category is in the summary exactly when some finding names it, and
    its count is then the positive number of findings that name it. *)
Theorem categories_partition_findings (fs : list finding) :
  let rs := aggregate fs in
  let s := get_summary rs in
  sum_counts (risk_categories rs) = s_vulnerability_count s
  /\ s_vulnerability_count s = Z.of_nat (length fs)
  /\ forall c,
       match s_categories s !! c with
       | Some cs =>
           cs_count cs = count_in c (vulnerabilities rs)
           /\ 0 < cs_count cs
           /\ exists f, f ∈ fs /\ f_category f = c
       | None => forall f, f ∈ fs -> f_category f <> c
       end.
Proof.
  cbv zeta. unfold get_summary; cbn [s_vulnerability_count s_categories].
  rewrite aggregate_sum_counts, aggregate_vulns, length_fmap.
  split; [reflexivity|]. split; [reflexivity|].
  intros c. rewrite lookup_fmap.
  pose proof (aggregate_counts fs c) as Hcount.
  pose proof (aggregate_category_present fs c) as Hpres.
  rewrite aggregate_vulns in Hcount.
  destruct (risk_categories (aggregate fs) !! c) as [st|] eqn:E; simpl in *.
  - destruct (proj1 Hpres (ex_intro _ st eq_refl)) as (f & Hf & Hc).
    split; [exact Hcount|]. split; [|eauto].
    rewrite Hcount. eapply count_in_positive; eauto.
  - intros f Hf Hc. destruct (proj2 Hpres (ex_intro _ f (conj Hf Hc))) as [x Hx].
    discriminate.
Qed.

Lemma categories_partition_findings_witness :
  s_vulnerability_count (get_summary (aggregate [finding_of HIGH]))
  = Z.of_nat (length [finding_of HIGH]).
Proof.
  exact (proj1 (proj2 (categories_partition_findings [finding_of HIGH]))).
Defined.

Lemma weight_zero_iff l : _get_risk_weight l = 0 <-> l = NONE.
Proof. destruct l; simpl; split; intros; congruence || lia. Qed.

Lemma weight_le_15 l : _get_risk_weight l <= 15.
Proof. destruct l; simpl; lia. Qed.

Lemma sum_weights_cons v vs :
  sum_weights (v :: vs) = _get_risk_weight (v_risk_level v) + sum_weights vs.
Proof. reflexivity. Qed.

Lemma sum_weights_zero_iff fs :
  sum_weights (mk_vuln <$> fs) = 0 <-> forall f, f ∈ fs -> f_risk_level f = NONE.
Proof.
  induction fs as [|f fs IH].
  - split; [intros _ f Hf; inversion Hf | reflexivity].
  - rewrite fmap_cons, sum_weights_cons. cbn [mk_vuln v_risk_level].
    pose proof (weight_nonneg (f_risk_level f)).
    pose proof (sum_weights_nonneg (mk_vuln <$> fs)).
    split.
    + intros Hz f' [->|Hf']%elem_of_cons.
      * apply weight_zero_iff. lia.
      * apply IH; [lia | exact Hf'].
    + intros Hall.
      assert (E1 : _get_risk_weight (f_risk_level f) = 0)
        by (apply weight_zero_iff, Hall, list_elem_of_here).
      assert (E2 : sum_weights (mk_vuln <$> fs) = 0)
        by (apply IH; intros; apply Hall, list_elem_of_further; assumption).
      lia.
Qed.

Lemma sum_weights_bound vs : sum_weights vs <= 15 * Z.of_nat (length vs).
Proof.
  induction vs as [|v vs IH]; [simpl; lia|].
  rewrite sum_weights_cons. cbn [length].
  pose proof (weight_le_15 (v_risk_level v)). lia.
Qed.

Lemma weight_le_sum v vs :
  v ∈ vs -> _get_risk_weight (v_risk_level v) <= sum_weights vs.
Proof.
  intros Hin. induction Hin as [v vs|v w vs Hin IH]; rewrite sum_weights_cons.
  - pose proof (sum_weights_nonneg vs). lia.
  - pose proof (weight_nonneg (v_risk_level w)). lia.
Qed.

Lemma overall_by_total rs :
  value (get_overall_risk_level rs) =
  if total_score rs =? 0 then 0
  else if total_score rs <? 3 then 1
  else if total_score rs <? 8 then 2
  else if total_score rs <? 18 then 3 else 4.
Proof.
  unfold get_overall_risk_level.
  destruct (total_score rs =? 0), (total_score rs <? 3), (total_score rs <? 8),
    (total_score rs <? 18); reflexivity.
Qed.

(** X4: how the overall level relates to the findings.  The overall level
    of an aggregation is None exactly when every finding has the level
    None; it is never more than one step below the highest level among
    the findings; and it is Critical only when there are at least two
    findings. *)
Theorem overall_level_and_findings (fs : list finding) :
  let rs := aggregate fs in
  (get_overall_risk_level rs = NONE <->
   forall f, f ∈ fs -> f_risk_level f = NONE)
  /\ value (max_risk_level rs) - 1 <= value (get_overall_risk_level rs)
  /\ (get_overall_risk_level rs = CRITICAL -> (2 <= length fs)%nat).
Proof.
  cbv zeta.
  pose proof (aggregate_total fs) as Ht. rewrite aggregate_vulns in Ht.
  pose proof (sum_weights_nonneg (mk_vuln <$> fs)) as Hnn.
  split; [|split].
  - rewrite <- sum_weights_zero_iff, <- Ht.
    unfold get_overall_risk_level.
    destruct (Z.eqb_spec (total_score (aggregate fs)) 0) as [E|E];
      [tauto|].
    split; [|contradiction].
    destruct (total_score (aggregate fs) <? 3), (total_score (aggregate fs) <? 8),
      (total_score (aggregate fs) <? 18); discriminate.
  - destruct fs as [|f0 fs'] eqn:Efs; [simpl; lia|]. rewrite <- Efs in *.
    destruct (aggregate_max_attained fs) as (v & Hv & Hmax); [congruence|].
    pose proof (weight_le_sum v _ Hv) as Hw.
    rewrite <- aggregate_total in Hw. rewrite <- Hmax, overall_by_total.
    destruct (Z.eqb_spec (total_score (aggregate fs)) 0),
      (Z.ltb_spec (total_score (aggregate fs)) 3),
      (Z.ltb_spec (total_score (aggregate fs)) 8),
      (Z.ltb_spec (total_score (aggregate fs)) 18);
      destruct (v_risk_level v); simpl in *; lia.
  - intros Hc.
    assert (18 <= total_score (aggregate fs)).
    { pose proof (overall_by_total (aggregate fs)) as Ho. rewrite Hc in Ho.
      simpl in Ho.
      destruct (Z.eqb_spec (total_score (aggregate fs)) 0),
        (Z.ltb_spec (total_score (aggregate fs)) 3),
        (Z.ltb_spec (total_score (aggregate fs)) 8),
        (Z.ltb_spec (total_score (aggregate fs)) 18); lia. }
    pose proof (sum_weights_bound (mk_vuln <$> fs)) as Hb.
    rewrite length_fmap in Hb. lia.
Qed.

Lemma overall_level_and_findings_witness :
  (2 <= length [finding_of CRITICAL; finding_of MEDIUM])%nat.
Proof.
  apply (proj2 (proj2 (overall_level_and_findings
                         [finding_of CRITICAL; finding_of MEDIUM]))).
  reflexivity.
Defined.

(** X5: the overall level is monotone: a finding added at any place of
    the list never lowers the overall risk level of the aggregation. *)
Theorem overall_level_monotone (fs1 fs2 : list finding) (f : finding) :
  value (get_overall_risk_level (aggregate (fs1 ++ fs2)))
  <= value (get_overall_risk_level (aggregate (fs1 ++ f :: fs2))).
Proof.
  rewrite !overall_by_total, !aggregate_total, !aggregate_vulns.
  rewrite !fmap_app, fmap_cons, !sum_weights_app. cbn [sum_weights foldr].
  fold (sum_weights (mk_vuln <$> fs2)).
  pose proof (weight_nonneg (v_risk_level (mk_vuln f))).
  pose proof (sum_weights_nonneg (mk_vuln <$> fs1)).
  pose proof (sum_weights_nonneg (mk_vuln <$> fs2)).
  set (a := sum_weights (mk_vuln <$> fs1) + sum_weights (mk_vuln <$> fs2)).
  set (b := sum_weights (mk_vuln <$> fs1)
            + (_get_risk_weight (v_risk_level (mk_vuln f))
               + sum_weights (mk_vuln <$> fs2))).
  assert (a <= b) by (unfold a, b; lia).
  destruct (Z.eqb_spec a 0), (Z.ltb_spec a 3), (Z.ltb_spec a 8), (Z.ltb_spec a 18),
    (Z.eqb_spec b 0), (Z.ltb_spec b 3), (Z.ltb_spec b 8), (Z.ltb_spec b 18); lia.
Qed.

Lemma value_nonneg l : 0 <= value l.
Proof. destruct l; simpl; lia. Qed.

Lemma value_pick a b :
  value (if value a <? value b then b else a) = Z.max (value a) (value b).
Proof. destruct (Z.ltb_spec (value a) (value b)); lia. Qed.

Lemma pick_cases a b :
  (if value a <? value b then b else a) = a
  \/ (if value a <? value b then b else a) = b.
Proof. destruct (value a <? value b); auto. Qed.

(** The statistics of a category follow its own vulnerabilities. *)
Lemma category_max_invariant fs c st :
  risk_categories (aggregate fs) !! c = Some st ->
  (forall v, v ∈ vulnerabilities (aggregate fs) -> v_category v = c ->
             value (v_risk_level v) <= value (max_level st))
  /\ (exists v, v ∈ vulnerabilities (aggregate fs) /\ v_category v = c
                /\ v_risk_level v = max_level st)
  /\ value (max_level st) <= value (max_risk_level (aggregate fs)).
Proof.
  revert st. induction fs as [|f fs IHfs] using rev_ind; intros st.
  - simpl. rewrite lookup_empty. discriminate.
  - rewrite aggregate_snoc, add_vulnerability_categories, add_vulnerability_vulns,
      add_vulnerability_max.
    pose proof (value_pick (max_risk_level (aggregate fs)) (f_risk_level f)) as Hgm.
    destruct (decide (f_category f = c)) as [<-|Hne].
    + rewrite lookup_insert_eq. intros [= <-]. unfold next_stats; cbv zeta.
      destruct (risk_categories (aggregate fs) !! f_category f) as [old|] eqn:E;
        cbn [default from_option max_level]; unfold id.
      * destruct (IHfs old eq_refl) as (Hb & (w & Hw & Hwc & Hwl) & Hg).
        pose proof (value_pick (max_level old) (f_risk_level f)) as Hcm.
        split; [|split; [|lia]].
        -- intros v [Hv|Hv%list_elem_of_singleton]%elem_of_app Hc.
           ++ specialize (Hb v Hv Hc). lia.
           ++ subst v. cbn [mk_vuln v_risk_level]. lia.
        -- destruct (pick_cases (max_level old) (f_risk_level f)) as [->| ->].
           ++ exists w. split; [apply elem_of_app; auto | split; assumption].
           ++ exists (mk_vuln f).
              split; [apply elem_of_app; right; apply list_elem_of_here|].
              split; reflexivity.
      * assert (Hnone : forall v, v ∈ vulnerabilities (aggregate fs) ->
                                  v_category v <> f_category f).
        { intros v Hv Hc. rewrite aggregate_vulns in Hv.
          apply list_elem_of_fmap in Hv as (g & -> & Hg).
          assert (Hs : is_Some (risk_categories (aggregate fs) !! f_category f))
            by (apply aggregate_category_present; eauto).
          rewrite E in Hs. destruct Hs as [x Hx]. discriminate. }
        pose proof (value_pick (max_level zero_stats) (f_risk_level f)) as Hcm.
        pose proof (value_nonneg (f_risk_level f)) as Hfn.
        cbn [zero_stats max_level] in *. change (value NONE) with 0 in *.
        split; [|split; [|lia]].
        -- intros v [Hv|Hv%list_elem_of_singleton]%elem_of_app Hc.
           ++ exfalso. eapply Hnone; eauto.
           ++ subst v. cbn [mk_vuln v_risk_level]. lia.
        -- exists (mk_vuln f).
           split; [apply elem_of_app; right; apply list_elem_of_here|].
           split; [reflexivity|]. cbn [mk_vuln v_risk_level].
           apply value_inj. lia.
    + rewrite lookup_insert_ne by done. intros Hst.
      destruct (IHfs st Hst) as (Hb & (w & Hw & Hwc & Hwl) & Hg).
      split; [|split; [|lia]].
      * intros v [Hv|Hv%list_elem_of_singleton]%elem_of_app Hc;
          [eauto | subst v; simpl in Hc; congruence].
      * exists w. split; [apply elem_of_app; auto | split; assumption].
Qed.

(** X6: the maximal level of a category.  In the summary of an
    aggregation, the level text of a category is the text of the highest
    level among the findings of that category, and that level never
    exceeds the maximal level of the whole score. *)
Theorem category_max_level (fs : list finding) (c : string) (cs : cat_summary) :
  s_categories (get_summary (aggregate fs)) !! c = Some cs ->
  exists l,
    cs_max_level cs = to_string (Some l)
    /\ (forall f, f ∈ fs -> f_category f = c -> value (f_risk_level f) <= value l)
    /\ (exists f, f ∈ fs /\ f_category f = c /\ f_risk_level f = l)
    /\ value l <= value (max_risk_level (aggregate fs)).
Proof.
  unfold get_summary; cbn [s_categories]. rewrite lookup_fmap.
  destruct (risk_categories (aggregate fs) !! c) as [st|] eqn:E; [|discriminate].
  simpl. intros [= <-]. exists (max_level st).
  destruct (category_max_invariant fs c st E) as (Hb & (w & Hw & Hwc & Hwl) & Hg).
  rewrite aggregate_vulns in Hb, Hw.
  split; [reflexivity|]. split; [|split; [|exact Hg]].
  - intros f Hf Hc. apply (Hb (mk_vuln f)); [|exact Hc].
    apply list_elem_of_fmap. eauto.
  - apply list_elem_of_fmap in Hw as (g & -> & Hgin). eauto.
Qed.

Lemma category_max_level_witness :
  exists l,
    "High" = to_string (Some l)
    /\ (forall f, f ∈ [finding_of LOW; finding_of HIGH] ->
                   f_category f = "Security" -> value (f_risk_level f) <= value l)
    /\ (exists f, f ∈ [finding_of LOW; finding_of HIGH]
                  /\ f_category f = "Security" /\ f_risk_level f = l)
    /\ value l <= value (max_risk_level (aggregate [finding_of LOW; finding_of HIGH])).
Proof.
  apply (category_max_level [finding_of LOW; finding_of HIGH] "Security"
           {| cs_count := 2; cs_max_level := "High"; cs_score := 8 |}).
  vm_compute. reflexivity.
Defined.

Lemma analyze_empty_times_spec chk1 chk2 chk3 n rs :
  analyze_empty_times chk1 chk2 chk3 n rs
  = fold_left add_vulnerability (replicate n empty_contract) rs.
Proof.
  revert rs. induction n as [|n IH]; intros rs; simpl; [reflexivity|].
  rewrite IH. reflexivity.
Qed.

(** X7: a scorer keeps its score between analyses.  [n] analyses of the
    empty text by one legal scorer, with no reset in between, leave [n]
    vulnerabilities and a total score of 15 [n]; from the second analysis
    on the overall level is Critical. *)
Theorem repeated_analysis_accumulates
    (chk1 chk2 chk3 : string -> RiskScore -> RiskScore) (n : nat) :
  let rs := analyze_empty_times chk1 chk2 chk3 n init in
  length (vulnerabilities rs) = n
  /\ total_score rs = 15 * Z.of_nat n
  /\ ((2 <= n)%nat -> get_overall_risk_level rs = CRITICAL).
Proof.
  cbv zeta. rewrite analyze_empty_times_spec.
  fold (aggregate (replicate n empty_contract)).
  rewrite aggregate_total, aggregate_vulns, length_fmap, length_replicate.
  assert (Hs : sum_weights (mk_vuln <$> replicate n empty_contract)
               = 15 * Z.of_nat n).
  { induction n as [|n IH]; [reflexivity|].
    cbn [replicate]. rewrite fmap_cons, sum_weights_cons, IH.
    cbn [mk_vuln v_risk_level empty_contract f_risk_level _get_risk_weight]. lia. }
  split; [reflexivity|]. split; [exact Hs|].
  intros Hn.
  pose proof (overall_risk_level_thresholds_aux (aggregate (replicate n empty_contract))) as H.
  apply H. rewrite aggregate_total, aggregate_vulns, Hs. lia.
Qed.

Lemma repeated_analysis_accumulates_witness :
  get_overall_risk_level
    (analyze_empty_times (fun _ r => r) (fun _ r => r) (fun _ r => r) 2 init)
  = CRITICAL.
Proof.
  apply (proj2 (proj2 (repeated_analysis_accumulates
                         (fun _ r => r) (fun _ r => r) (fun _ r => r) 2))).
  lia.
Defined.

End ScoreMoreFacts.

(** ** The Mythril adapter *)

Section ToolsMoreFacts.
Import Json Tools ToolsMore.

Lemma digits_value_nonneg s acc : 0 <= acc -> 0 <= digits_value s acc.
Proof.
  revert acc. induction s as [|c s IH]; intros acc Hacc; simpl; [exact Hacc|].
  apply IH. lia.
Qed.

Lemma int_nonneg s n : int s = Return n -> 0 <= n.
Proof.
  unfold int. destruct (4300 <? String.length s)%nat; [discriminate|].
  intros [= <-]. apply digits_value_nonneg. lia.
Qed.

#[local] Opaque ReMatch.search ReMatch.finditer Json.loads int.

Lemma len_take n s : PyStr.len (PyStr.take n s) <= Z.of_nat n.
Proof.
  unfold PyStr.len. revert s. induction n as [|n IH]; intros s; [simpl; lia|].
  destruct s as [|c s]; simpl; [lia|]. specialize (IH s). lia.
Qed.

Lemma mapM_Return_inv {A B} (f : A -> outcome B) xs ys :
  mapM f xs = Return ys -> Forall2 (fun x y => f x = Return y) xs ys.
Proof.
  revert ys. induction xs as [|x xs IH]; intros ys; cbn [mapM].
  - intros [= <-]. constructor.
  - destruct (f x) as [y|e] eqn:Ex; [|discriminate]. cbn.
    destruct (mapM f xs) as [ys'|e] eqn:Exs; [|discriminate]. cbn.
    intros [= <-]. constructor; auto.
Qed.

(** What a returned result of the parser looks like. *)
Lemma parse_results_shape raw r :
  parse_results raw = Return r ->
  exists iss raw_out err,
    r = mythril iss raw_out err
    /\ (raw_out = None \/ raw_out = Some (PyStr.take 1000 raw))
    /\ (raw_out = None -> iss <> [] \/ PyStr.strip raw = "")
    /\ (err = None \/ err = Some parse_error_text).
Proof.
  unfold parse_results.
  destruct (String.eqb_spec (PyStr.strip raw) "") as [Eb|Eb]; cbn [negb].
  - intros [= <-]. exists [], None, None. tauto.
  - destruct (loads raw) as [v|e].
    + destruct (as_dict v) as [ms|e]; [|discriminate]. cbn.
      destruct (iterate (default (JArr []) (get ms "issues"))) as [its|e];
        [|discriminate]. cbn.
      destruct (mapM parse_issue its) as [iss|e]; [|discriminate]. cbn.
      intros [= <-]. destruct iss as [|i iss].
      * exists [], (Some (PyStr.take 1000 raw)), None.
        split; [reflexivity|]. split; [tauto|]. split; [discriminate | tauto].
      * exists (i :: iss), None, None.
        split; [reflexivity|]. split; [tauto|].
        split; [left; discriminate | tauto].
    + destruct e; [discriminate | | discriminate..].
      destruct (ReMatch.finditer issue_pattern raw false) as [ms|e];
        [|discriminate]. cbn.
      destruct (mapM fallback_issue ms) as [iss|e]; [|discriminate]. cbn.
      intros [= <-].
      exists iss, (Some (PyStr.take 1000 raw)), (Some parse_error_text).
      split; [reflexivity|]. split; [tauto|]. split; [discriminate | tauto].
Qed.

(** X8: the raw output kept by the parser is bounded.  When the parser
    returns, the kept raw output, if any, is the first characters of the
    output, at most 1000 of them; it is kept whenever the output is not
    blank and no issue was found, and the parser itself sets neither a
    success flag nor an error. *)
Theorem raw_output_is_bounded (raw : string) (r : results) :
  parse_results raw = Return r ->
  match raw_output r with
  | Some o => o = PyStr.take 1000 raw /\ PyStr.len o <= 1000
  | None => PyStr.strip raw = "" \/ exists i iss, issues r = Some (i :: iss)
  end
  /\ tool r = Some "Mythril" /\ success r = None /\ error r = None
  /\ is_Some (issues r).
Proof.
  intros H. destruct (parse_results_shape raw r H)
    as (iss & raw_out & err & -> & Hraw & Hnone & Herr).
  cbn [mythril raw_output tool success error issues].
  split; [|repeat split; eauto].
  destruct Hraw as [-> | ->].
  - destruct (Hnone eq_refl) as [Hne|Hb]; [|auto].
    right. destruct iss as [|i iss]; [congruence | eauto].
  - split; [reflexivity | apply (len_take 1000)].
Qed.

Lemma raw_output_is_bounded_witness :
  raw_output (mythril [] (Some "{not json") (Some parse_error_text))
  = Some "{not json".
Proof.
  pose proof (raw_output_is_bounded "{not json"
                (mythril [] (Some "{not json") (Some parse_error_text))
                ltac:(vm_compute; reflexivity)) as H.
  cbn [mythril raw_output] in H. destruct H as [[H _] _].
  rewrite H. vm_compute. reflexivity.
Defined.

Lemma fallback_issue_shape mt i :
  fallback_issue mt = Return i ->
  severity i = "Unknown"
  /\ short_text (description i)
  /\ title i = JStr (nth 0 (ReMatch.m_groups mt) "")
  /\ (line_numbers i = [] \/ exists n, 0 < n /\ line_numbers i = [LInt n])
  /\ code_snippet i = None /\ swc_id i = None /\ confidence i = None.
Proof.
  unfold fallback_issue.
  destruct (ReMatch.search "line (\d+)" (nth 1 (ReMatch.m_groups mt) "") false)
    as [o|e]; [|discriminate]. cbn.
  destruct o as [lm|]; cbn.
  - destruct (int (nth 0 (ReMatch.m_groups lm) "")) as [n|e] eqn:En;
      [|discriminate]. cbn. intros [= <-]. cbn.
    split; [reflexivity|]. split; [apply (len_take 200)|].
    split; [reflexivity|]. split; [|tauto].
    destruct (Z.eqb_spec n 0) as [E|E]; [tauto|]. right. exists n.
    split; [|reflexivity].
    pose proof (int_nonneg _ _ En). lia.
  - intros [= <-]. cbn.
    split; [reflexivity|]. split; [apply (len_take 200)|]. tauto.
Qed.

(** X9: the issues of the textual fallback.  When the output is not a
    JSON text and the parser returns, every issue it found has the
    severity Unknown, a description of at most 200 characters, no code
    snippet, and either no line number or one positive line number. *)
Theorem fallback_issues_are_unknown (raw : string) (r : results) :
  PyStr.strip raw <> "" ->
  loads raw = Raise JSONDecodeError ->
  parse_results raw = Return r ->
  error_parsing r = Some parse_error_text
  /\ exists iss,
       issues r = Some iss
       /\ Forall (fun i =>
                    severity i = "Unknown"
                    /\ short_text (description i)
                    /\ (line_numbers i = []
                        \/ exists n, 0 < n /\ line_numbers i = [LInt n])
                    /\ code_snippet i = None) iss.
Proof.
  intros Hnb Hloads. unfold parse_results.
  destruct (String.eqb_spec (PyStr.strip raw) "") as [Eb|_]; [contradiction|].
  cbn [negb]. rewrite Hloads.
  destruct (ReMatch.finditer issue_pattern raw false) as [ms|e]; [|discriminate].
  cbn. destruct (mapM fallback_issue ms) as [iss|e] eqn:Em; [|discriminate].
  cbn. intros [= <-]. cbn. split; [reflexivity|]. exists iss. split; [reflexivity|].
  apply mapM_Return_inv in Em.
  induction Em as [|mt i ms iss Hi _ IH]; constructor; [|exact IH].
  destruct (fallback_issue_shape mt i Hi) as (H1 & H2 & _ & H4 & H5 & _). tauto.
Qed.

Lemma fallback_issues_are_unknown_witness :
  error_parsing (mythril [] (Some "{not json") (Some parse_error_text))
  = Some parse_error_text.
Proof.
  apply (fallback_issues_are_unknown "{not json"
           (mythril [] (Some "{not json") (Some parse_error_text))).
  - vm_compute. discriminate.
  - vm_compute. reflexivity.
  - vm_compute. reflexivity.
Defined.

Lemma parse_issue_title v i : parse_issue v = Return i -> title i = title_of v.
Proof.
  unfold parse_issue. destruct v; try discriminate. cbn.
  destruct (default (JStr "Unknown") (get members "severity")); try discriminate.
  destruct (PyStr.capitalize s); [|discriminate]. cbn.
  destruct (iterate (default (JArr []) (get members "sourceMap"))) as [srcs|e];
    [|discriminate]. cbn.
  destruct (foldM add_source srcs ([], "")) as [[lns snip]|e]; [|discriminate].
  cbn. intros [= <-]. reflexivity.
Qed.

(** X10: no decoded issue is dropped.  When the output is a JSON object
    whose [issues] member is an array and the parser returns, the result
    has one issue per element of the array, in the same order, each with
    the title of its element (or "Unknown Issue"); and no parse error is
    flagged. *)
Theorem decoded_issues_are_kept (raw : string) (ms : list (string * value))
    (l : list value) (r : results) :
  PyStr.strip raw <> "" ->
  loads raw = Return (JObj ms) ->
  get ms "issues" = Some (JArr l) ->
  parse_results raw = Return r ->
  exists iss,
    issues r = Some iss
    /\ length iss = length l
    /\ title <$> iss = title_of <$> l
    /\ error_parsing r = None.
Proof.
  intros Hnb Hloads Hget. unfold parse_results.
  destruct (String.eqb_spec (PyStr.strip raw) "") as [Eb|_]; [contradiction|].
  cbn [negb]. rewrite Hloads. cbn. rewrite Hget. cbn.
  destruct (mapM parse_issue l) as [iss|e] eqn:Em; [|discriminate].
  cbn. intros [= <-]. exists iss. cbn. split; [reflexivity|].
  apply mapM_Return_inv in Em.
  split; [symmetry; eapply Forall2_length; eauto|]. split; [|reflexivity].
  clear Hget. induction Em as [|v i l iss Hi _ IH]; [reflexivity|].
  rewrite !fmap_cons, IH, (parse_issue_title v i Hi). reflexivity.
Qed.

Lemma decoded_issues_are_kept_witness :
  exists iss,
    issues (mythril [sample_issue] None None) = Some iss
    /\ length iss = length [JObj [("title", JStr "A")]]
    /\ title <$> iss = title_of <$> [JObj [("title", JStr "A")]]
    /\ error_parsing (mythril [sample_issue] None None) = None.
Proof.
  apply (decoded_issues_are_kept sample_output
           [("issues", JArr [JObj [("title", JStr "A")]])]
           [JObj [("title", JStr "A")]]
           (mythril [sample_issue] None None)).
  - vm_compute. discriminate.
  - vm_compute. reflexivity.
  - reflexivity.
  - vm_compute. reflexivity.
Defined.

(** X11: a JSON text of another shape than an object.  When the output
    decodes to a value that is not an object, the parser raises
    AttributeError, and the analysis reports a failure: success=false and
    an error text that starts with "Error running Mythril: ". *)
Theorem non_object_output_fails (str : exn -> string) (raw contract_path stderr : string)
    (returncode : Z) (v : value) :
  PyStr.strip raw <> "" ->
  loads raw = Return v ->
  (forall ms, v <> JObj ms) ->
  parse_results raw = Raise AttributeError
  /\ analyze str true contract_path (Completed returncode raw stderr)
     = Return (failure ("Error running Mythril: " ++ str AttributeError)).
Proof.
  intros Hnb Hloads Hv.
  assert (Hp : parse_results raw = Raise AttributeError).
  { unfold parse_results.
    destruct (String.eqb_spec (PyStr.strip raw) "") as [Eb|_]; [contradiction|].
    cbn [negb]. rewrite Hloads. destruct v; try reflexivity.
    exfalso. eapply Hv. reflexivity. }
  split; [exact Hp|].
  unfold analyze. cbn [negb]. rewrite (nonblank_nonempty raw Hnb), andb_false_r.
  rewrite Hp. reflexivity.
Qed.

Lemma non_object_output_fails_witness :
  parse_results "[1, 2]" = Raise AttributeError.
Proof.
  apply (proj1 (non_object_output_fails (fun _ => "") "[1, 2]" "c.sol" "" 0
                  (JArr [JNum "1"; JNum "2"])
                  ltac:(vm_compute; discriminate)
                  ltac:(vm_compute; reflexivity)
                  ltac:(discriminate))).
Defined.

(** X12: the analysis raises nothing, whatever its parser does.  For a
    parser that, on every output, returns a result or raises an
    exception, the analysis returns a result.  A result with
    success=false has a non-empty error text and no issues; a result
    with success=true is the result of the parser for the output of a
    completed run of an existing file, marked success=true; a result
    without a success flag is the one of a missing file.
    [Tools.analyze] is this analysis for the parser
    [Tools.parse_results], and it has no answer here only where that
    parser has none. *)
Theorem analysis_outcomes (str : exn -> string)
    (parse : string -> outcome results) (path_exists : bool)
    (contract_path : string) (run : run_outcome) :
  (forall out, parse out <> Raise outside_fragment) ->
  (exists r,
     analyze_with str parse path_exists contract_path run = Return r
     /\ match success r with
        | Some false =>
            issues r = None
            /\ exists msg, error r = Some msg /\ msg <> ""
        | Some true =>
            path_exists = true
            /\ exists rc out err r0,
                 run = Completed rc out err
                 /\ parse out = Return r0
                 /\ r = marked_success r0
        | None =>
            path_exists = false
            /\ error r = Some ("File not found: " ++ contract_path)
        end)
  /\ analyze str path_exists contract_path run
     = analyze_with str parse_results path_exists contract_path run
  /\ (forall e, analyze str path_exists contract_path run = Raise e ->
                e = outside_fragment
                /\ exists rc out err,
                     run = Completed rc out err
                     /\ parse_results out = Raise outside_fragment).
Proof.
  intros Hparse. split; [|split; [reflexivity|]].
  - unfold analyze_with. destruct path_exists; cbn [negb].
    + destruct run as [rc out err| |e].
      * destruct (negb (rc =? 0) && String.eqb out "").
        -- eexists. split; [reflexivity|]. cbn.
           split; [reflexivity|]. eexists. split; [reflexivity | discriminate].
        -- destruct (parse out) as [r|e] eqn:Ep.
           ++ eexists. split; [reflexivity|]. cbn.
              split; [reflexivity|]. exists rc, out, err, r. auto.
           ++ destruct e;
                try (eexists; (split; [reflexivity|]); cbn;
                     (split; [reflexivity|]); eexists;
                     (split; [reflexivity | discriminate])).
              exfalso. exact (Hparse out Ep).
      * eexists. split; [reflexivity|]. cbn.
        split; [reflexivity|]. eexists. split; [reflexivity | discriminate].
      * eexists. split; [reflexivity|]. cbn.
        split; [reflexivity|]. eexists. split; [reflexivity | discriminate].
    + eexists. split; [reflexivity|]. cbn. auto.
  - intros e. unfold analyze. destruct path_exists; cbn [negb]; [|discriminate].
    destruct run as [rc out err| |e0]; [|discriminate|discriminate].
    destruct (negb (rc =? 0) && String.eqb out ""); [discriminate|].
    destruct (parse_results out) as [r|e1] eqn:Ep; [discriminate|].
    destruct e1; try discriminate.
    intros [= <-]. split; [reflexivity|]. exists rc, out, err. auto.
Qed.

Lemma analysis_outcomes_witness :
  exists r,
    analyze_with (fun _ => "no such key") (fun _ => Raise KeyError) true "c.sol"
      (Completed 0 "{}" "") = Return r
    /\ success r = Some false
    /\ error r = Some "Error running Mythril: no such key".
Proof.
  destruct (analysis_outcomes (fun _ => "no such key") (fun _ => Raise KeyError)
              true "c.sol" (Completed 0 "{}" "")
              ltac:(intros out; discriminate)) as [(r & Hr & _) _].
  exists r. split; [exact Hr|].
  injection Hr as <-. split; reflexivity.
Defined.

(** X13: a blank output.  On an output of white space only the parser
    finds nothing and flags nothing, and the analysis of a run that ended
    with exit code 0 reports success=true with no issue, no error and no
    raw output. *)
Theorem blank_output_is_clean (str : exn -> string) (raw contract_path stderr : string) :
  PyStr.strip raw = "" ->
  parse_results raw = Return (mythril [] None None)
  /\ analyze str true contract_path (Completed 0 raw stderr)
     = Return {| tool := Some "Mythril"; issues := Some [];
                 raw_output := None; error_parsing := None;
                 error := None; success := Some true |}.
Proof.
  intros Hb.
  assert (Hp : parse_results raw = Return (mythril [] None None)).
  { unfold parse_results. rewrite Hb. reflexivity. }
  split; [exact Hp|]. unfold analyze. cbn. rewrite Hp. reflexivity.
Qed.

Lemma blank_output_is_clean_witness :
  parse_results "   " = Return (mythril [] None None).
Proof.
  apply (proj1 (blank_output_is_clean (fun _ => "") "   " "c.sol" "" eq_refl)).
Defined.

End ToolsMoreFacts.

(** ** Several tools *)

Section MultiToolFacts.
Import Tools MultiTool.

Variable analyze_tool : string -> results.

Lemma how_many_app p l1 l2 : how_many p (l1 ++ l2) = how_many p l1 + how_many p l2.
Proof. unfold how_many. rewrite List.filter_app, length_app. lia. Qed.

Lemma how_many_cons p i l :
  how_many p (i :: l) = (if p i then 1 else 0) + how_many p l.
Proof. unfold how_many. simpl. destruct (p i); simpl; lia. Qed.

Lemma how_many_nonneg p l : 0 <= how_many p l.
Proof. unfold how_many. lia. Qed.

Lemma how_many_classes l :
  how_many is_high l + how_many is_medium l + how_many is_low l
  = Z.of_nat (length l).
Proof.
  induction l as [|i l IH]; [reflexivity|].
  rewrite !how_many_cons. cbn [length].
  assert (E : (if is_high i then 1 else 0) + (if is_medium i then 1 else 0)
              + (if is_low i then 1 else 0) = 1).
  { unfold is_low, is_medium.
    destruct (is_high i), (String.eqb (PyStr.lower (severity i)) "medium");
      reflexivity. }
  lia.
Qed.

Lemma count_issues_spec iss st :
  let st' := fold_left count_issue iss st in
  ls_results st' = ls_results st
  /\ ls_high st' = ls_high st + how_many is_high iss
  /\ ls_medium st' = ls_medium st + how_many is_medium iss
  /\ ls_low st' = ls_low st + how_many is_low iss
  /\ ls_successful st' = ls_successful st
  /\ ls_total st' = ls_total st.
Proof.
  cbv zeta. revert st. induction iss as [|i iss IH]; intros st.
  - cbn [fold_left]. unfold how_many; simpl. repeat split; lia.
  - cbn [fold_left]. destruct (IH (count_issue st i)) as (H1 & H2 & H3 & H4 & H5 & H6).
    rewrite H1, H2, H3, H4, H5, H6, !how_many_cons.
    unfold count_issue, is_low, is_medium, is_high.
    destruct (String.eqb (PyStr.lower (severity i)) "high"
              || String.eqb (PyStr.lower (severity i)) "critical");
      [cbn; repeat split; lia|].
    destruct (String.eqb (PyStr.lower (severity i)) "medium");
      cbn; repeat split; lia.
Qed.

Lemma run_tool_spec st tool_name :
  let st' := run_tool analyze_tool st tool_name in
  let iss := counted_issues analyze_tool tool_name in
  ls_high st' = ls_high st + how_many is_high iss
  /\ ls_medium st' = ls_medium st + how_many is_medium iss
  /\ ls_low st' = ls_low st + how_many is_low iss
  /\ ls_total st' = ls_total st + Z.of_nat (length iss)
  /\ ls_successful st <= ls_successful st' <= ls_successful st + 1
  /\ is_Some (ls_results st' !! tool_name)
  /\ (existsb (String.eqb tool_name) analyzer_names = false ->
      exists r, ls_results st' !! tool_name = Some r
                /\ success r = Some false
                /\ error r = Some ("Unknown tool: " ++ tool_name)).
Proof.
  cbv zeta. unfold run_tool, counted_issues.
  destruct (existsb (String.eqb tool_name) analyzer_names) eqn:Ek; cbn [negb].
  - destruct (default false (success (analyze_tool tool_name))) eqn:Es;
      [destruct (issues (analyze_tool tool_name)) as [iss|] eqn:Ei|];
      cbn [ls_high ls_medium ls_low ls_total ls_successful ls_results].
    + match goal with |- context [fold_left count_issue iss ?s] =>
        destruct (count_issues_spec iss s) as (H1 & H2 & H3 & H4 & H5 & H6) end.
      rewrite H1, H2, H3, H4, H5, H6. cbn.
      rewrite lookup_insert_eq.
      repeat split; try lia; eauto; discriminate.
    + unfold how_many; cbn. rewrite lookup_insert_eq.
      repeat split; try lia; eauto; discriminate.
    + unfold how_many; cbn. rewrite lookup_insert_eq.
      repeat split; try lia; eauto; discriminate.
  - unfold how_many; cbn. rewrite lookup_insert_eq.
    repeat split; try lia; eauto.
Qed.

Lemma run_tools_spec tools st :
  let st' := fold_left (run_tool analyze_tool) tools st in
  let iss := flat_map (counted_issues analyze_tool) tools in
  ls_high st' = ls_high st + how_many is_high iss
  /\ ls_medium st' = ls_medium st + how_many is_medium iss
  /\ ls_low st' = ls_low st + how_many is_low iss
  /\ ls_total st' = ls_total st + Z.of_nat (length iss)
  /\ ls_successful st <= ls_successful st'
     <= ls_successful st + Z.of_nat (length tools).
Proof.
  cbv zeta. revert st. induction tools as [|t tools IH]; intros st.
  - cbn. unfold how_many; cbn. lia.
  - cbn [fold_left flat_map length].
    destruct (IH (run_tool analyze_tool st t)) as (H1 & H2 & H3 & H4 & H5).
    destruct (run_tool_spec st t) as (G1 & G2 & G3 & G4 & G5 & _).
    rewrite H1, H2, H3, H4, G1, G2, G3, G4, !how_many_app, length_app.
    repeat split; lia.
Qed.

(** X14: the summary of a multi-tool analysis.  For an existing file, the
    severity counters of the summary add up to the total number of
    issues, which is the number of issues of the requested tools that
    reported success; issues of severity high or critical (in any case
    of letters) count as high, medium as medium, and every other
    severity as low; and the number of successful tools is at most the
    number of requested tools. *)
Theorem multi_tool_summary (contract_path basename : string)
    (tools : option (list string)) :
  exists c,
    analyze_contract analyze_tool true contract_path basename tools = inr c
    /\ let s := c_summary c in
       let iss := flat_map (counted_issues analyze_tool) (effective_tools tools) in
       high_severity s + medium_severity s + low_severity s = total_issues s
       /\ total_issues s = Z.of_nat (length iss)
       /\ high_severity s = how_many is_high iss
       /\ medium_severity s = how_many is_medium iss
       /\ low_severity s = how_many is_low iss
       /\ requested_tools s = Some (Z.of_nat (length (effective_tools tools)))
       /\ exists n, successful_tools s = Some n
                    /\ 0 <= n <= Z.of_nat (length (effective_tools tools)).
Proof.
  unfold analyze_contract. cbn [negb]. eexists. split; [reflexivity|].
  cbv zeta. cbn [c_summary high_severity medium_severity low_severity
                 total_issues requested_tools successful_tools].
  fold (effective_tools tools).
  match goal with |- context [fold_left (run_tool analyze_tool) ?ts ?s] =>
    destruct (run_tools_spec ts s) as (H1 & H2 & H3 & H4 & H5) end.
  cbn [ls_high ls_medium ls_low ls_total ls_successful] in *.
  pose proof (how_many_classes
                (flat_map (counted_issues analyze_tool) (effective_tools tools))).
  rewrite H1, H2, H3, H4.
  repeat split; try lia. eexists. split; [reflexivity | lia].
Qed.

Lemma run_tools_unknown tools st tool_name :
  tool_name ∈ tools ->
  existsb (String.eqb tool_name) analyzer_names = false ->
  exists r, ls_results (fold_left (run_tool analyze_tool) tools st) !! tool_name
            = Some r
            /\ success r = Some false
            /\ error r = Some ("Unknown tool: " ++ tool_name).
Proof.
  intros Hin Hk. revert st.
  induction tools as [|t tools IH] using rev_ind; intros st; [inversion Hin|].
  rewrite fold_left_app. cbn [fold_left].
  destruct (decide (t = tool_name)) as [->|Hne].
  - apply run_tool_spec, Hk.
  - apply elem_of_app in Hin as [Hin|Hin%list_elem_of_singleton]; [|congruence].
    destruct (IH Hin st) as (r & Hr & Hs & He).
    exists r. split; [|tauto].
    rewrite <- Hr. unfold run_tool.
    destruct (negb (existsb (String.eqb t) analyzer_names));
      [cbn; apply lookup_insert_ne; exact Hne|].
    destruct (default false (success (analyze_tool t)));
      [destruct (issues (analyze_tool t)) as [iss|]|];
      try (cbn; apply lookup_insert_ne; exact Hne).
    match goal with |- context [fold_left count_issue iss ?s] =>
      destruct (count_issues_spec iss s) as (H1 & _) end.
    rewrite H1. cbn. apply lookup_insert_ne; exact Hne.
Qed.

(** X15: an unknown tool and a missing file.  A requested tool that is
    not one of mythril, oyente and smartcheck is reported with
    success=false and the error "Unknown tool: " followed by its name,
    without stopping the analysis; a missing contract file gives only an
    error. *)
Theorem unknown_tool_is_reported (contract_path basename : string)
    (tools : list string) (tool_name : string) :
  tool_name ∈ tools ->
  tool_name ∉ analyzer_names ->
  (exists c r,
     analyze_contract analyze_tool true contract_path basename (Some tools) = inr c
     /\ tool_results c !! tool_name = Some r
     /\ success r = Some false
     /\ error r = Some ("Unknown tool: " ++ tool_name))
  /\ analyze_contract analyze_tool false contract_path basename (Some tools)
     = inl ("Contract file not found: " ++ contract_path).
Proof.
  intros Hin Hk. split; [|reflexivity].
  assert (Hk' : existsb (String.eqb tool_name) analyzer_names = false).
  { destruct (existsb (String.eqb tool_name) analyzer_names) eqn:E; [|reflexivity].
    exfalso. apply Hk. apply existsb_exists in E as (x & Hx & Hx').
    apply String.eqb_eq in Hx'. subst x. apply list_elem_of_In. exact Hx. }
  unfold analyze_contract. cbn [negb].
  destruct tools as [|t tools']; [inversion Hin|].
  match goal with |- context [fold_left (run_tool analyze_tool) ?ts ?s] =>
    destruct (run_tools_unknown ts s tool_name Hin Hk') as (r & Hr & Hs & He) end.
  eexists. exists r. split; [reflexivity|]. cbn [tool_results]. tauto.
Qed.

End MultiToolFacts.

Lemma unknown_tool_is_reported_witness :
  MultiTool.analyze_contract (fun _ => Tools.failure "") false "c.sol" "c.sol"
    (Some ["slither"])
  = inl "Contract file not found: c.sol".
Proof.
  apply (proj2 (unknown_tool_is_reported (fun _ => Tools.failure "") "c.sol" "c.sol"
                  ["slither"] "slither"
                  ltac:(apply list_elem_of_here)
                  ltac:(vm_compute; intros H;
                        repeat (apply elem_of_cons in H as [H|H]; [discriminate H|]);
                        inversion H))).
Defined.

(** ** The closing brace *)

Section ClosingBrace.
Import ScorerHelpers.

Lemma occurrences_cons c x s :
  occurrences c (x :: s) = (if Ascii.eqb c x then 1 else 0) + occurrences c s.
Proof. unfold occurrences. simpl. destruct (Ascii.eqb c x); simpl; lia. Qed.

Lemma occurrences_nonneg c s : 0 <= occurrences c s.
Proof. unfold occurrences. lia. Qed.

(** What the loop returns: nothing, or the place of a closing brace at
    which the braces read so far are balanced. *)
Lemma scan_braces_spec s i stack :
  scan_braces s i stack = -1
  \/ exists k : nat,
       scan_braces s i stack = i + Z.of_nat k
       /\ s !! k = Some close_brace
       /\ stack + occurrences open_brace (take (S k) s)
          - occurrences close_brace (take (S k) s) = 0
       /\ forall j : nat, (j < k)%nat -> s !! j = Some close_brace ->
            stack + occurrences open_brace (take (S j) s)
            - occurrences close_brace (take (S j) s) <> 0.
Proof.
  revert i stack. induction s as [|c s IH]; intros i stack; [left; reflexivity|].
  cbn [scan_braces].
  destruct (Ascii.eqb_spec c open_brace) as [->|Hno].
  - destruct (IH (i + 1) (stack + 1)) as [H|(k & H1 & H2 & H3 & H4)]; [auto|].
    right. exists (S k). rewrite H1. split; [lia|]. split; [exact H2|].
    cbn [take]. rewrite !occurrences_cons. cbn. split; [lia|].
    intros [|j] Hj Hc; [discriminate Hc|].
    cbn [take]. rewrite !occurrences_cons. cbn.
    specialize (H4 j ltac:(lia) Hc). lia.
  - destruct (Ascii.eqb_spec c close_brace) as [->|Hnc].
    + assert (Eoc : Ascii.eqb open_brace close_brace = false) by reflexivity.
      destruct (Z.eqb_spec (stack - 1) 0) as [E0|E0].
      * right. exists 0%nat. split; [lia|]. split; [reflexivity|].
        cbn [take]. rewrite !occurrences_cons, take_0. unfold occurrences; cbn.
        split; [lia|]. intros j Hj. lia.
      * destruct (IH (i + 1) (stack - 1)) as [H|(k & H1 & H2 & H3 & H4)]; [auto|].
        right. exists (S k). rewrite H1. split; [lia|]. split; [exact H2|].
        cbn [take]. rewrite !occurrences_cons, Eoc. cbn. split; [lia|].
        intros [|j] Hj Hc.
        -- cbn [take]. rewrite !occurrences_cons, Eoc, take_0.
           unfold occurrences; cbn. lia.
        -- cbn [take]. rewrite !occurrences_cons, Eoc. cbn.
           specialize (H4 j ltac:(lia) Hc). lia.
    + assert (E1 : Ascii.eqb open_brace c = false)
        by (apply Ascii.eqb_neq; congruence).
      assert (E2 : Ascii.eqb close_brace c = false)
        by (apply Ascii.eqb_neq; congruence).
      destruct (IH (i + 1) stack) as [H|(k & H1 & H2 & H3 & H4)]; [auto|].
      right. exists (S k). rewrite H1. split; [lia|]. split; [exact H2|].
      cbn [take]. rewrite !occurrences_cons, E1, E2. cbn. split; [lia|].
      intros [|j] Hj Hc; [cbn in Hc; congruence|].
      cbn [take]. rewrite !occurrences_cons, E1, E2. cbn.
      specialize (H4 j ltac:(lia) Hc). lia.
Qed.

Lemma scan_braces_no_open s i stack :
  stack <= 0 -> occurrences open_brace s = 0 -> scan_braces s i stack = -1.
Proof.
  revert i stack. induction s as [|c s IH]; intros i stack Hs Ho; [reflexivity|].
  cbn [scan_braces]. rewrite occurrences_cons in Ho.
  pose proof (occurrences_nonneg open_brace s).
  destruct (Ascii.eqb_spec c open_brace) as [->|Hno].
  - rewrite Ascii.eqb_refl in Ho. lia.
  - assert (E1 : Ascii.eqb open_brace c = false)
      by (apply Ascii.eqb_neq; congruence).
    rewrite E1 in Ho.
    destruct (Ascii.eqb c close_brace).
    + destruct (Z.eqb_spec (stack - 1) 0); [lia|]. apply IH; lia.
    + apply IH; lia.
Qed.

Lemma take_drop_slice (s : list ascii) (i k : nat) :
  take (S k) (drop i s) = ReMatch.slice i (i + S k) s.
Proof. unfold ReMatch.slice. f_equal. lia. Qed.

(** X16: the closing brace that is found.  [_find_closing_brace] returns
    -1 or the index, from the start position on and inside the text, of
    a closing brace such that the text from the start position up to and
    including that brace has as many opening as closing braces, and it
    is the first such closing brace.  When no opening brace follows the
    start position, the result is -1: a closing brace that has no
    opening brace after the start position is never found. *)
Theorem closing_brace_is_balanced (text : string) (start_pos : nat) :
  (_find_closing_brace text start_pos = -1
   \/ exists r : nat,
        _find_closing_brace text start_pos = Z.of_nat r
        /\ (start_pos <= r < String.length text)%nat
        /\ list_ascii_of_string text !! r = Some close_brace
        /\ occurrences open_brace (chars_between text start_pos (S r))
           = occurrences close_brace (chars_between text start_pos (S r))
        /\ forall j : nat,
             (start_pos <= j < r)%nat ->
             list_ascii_of_string text !! j = Some close_brace ->
             occurrences open_brace (chars_between text start_pos (S j))
             <> occurrences close_brace (chars_between text start_pos (S j)))
  /\ (occurrences open_brace
        (chars_between text start_pos (String.length text)) = 0 ->
      _find_closing_brace text start_pos = -1).
Proof.
  unfold _find_closing_brace, chars_between.
  set (cs := list_ascii_of_string text).
  assert (Hlen : length cs = String.length text).
  { unfold cs. clear. induction text as [|c t IH]; simpl; congruence. }
  split.
  - destruct (scan_braces_spec (drop start_pos cs) (Z.of_nat start_pos) 0)
      as [H|(k & H1 & H2 & H3 & H4)]; [auto|].
    right. exists (start_pos + k)%nat. rewrite H1.
    rewrite lookup_drop in H2.
    split; [lia|].
    split; [apply lookup_lt_Some in H2; lia|].
    split; [exact H2|].
    rewrite take_drop_slice in H3.
    replace (S (start_pos + k)) with (start_pos + S k)%nat by lia.
    split; [lia|].
    intros j Hj Hc.
    specialize (H4 (j - start_pos)%nat ltac:(lia)).
    rewrite lookup_drop, take_drop_slice in H4.
    replace (start_pos + (j - start_pos))%nat with j in H4 by lia.
    replace (start_pos + S (j - start_pos))%nat with (S j) in H4 by lia.
    specialize (H4 Hc). lia.
  - intros Ho. apply scan_braces_no_open; [lia|].
    unfold ReMatch.slice in Ho. rewrite <- Hlen in Ho.
    rewrite take_ge in Ho; [exact Ho|]. rewrite length_drop. lia.
Qed.

Lemma closing_brace_is_balanced_witness :
  _find_closing_brace " x = 1; }" 0 = -1.
Proof.
  apply (proj2 (closing_brace_is_balanced " x = 1; }" 0)).
  reflexivity.
Defined.

End ClosingBrace.

(** ** The custom rules *)

Section RulesMoreFacts.
Import Loophole RulesMore.

#[local] Transparent ReMatch.search.

Lemma custom_rule_search rule line :
  In rule CUSTOM_RULES ->
  exists o, ReMatch.search (r_pattern rule) line true = Return o.
Proof.
  intros Hin. unfold ReMatch.search.
  destruct (Re.compile (r_pattern rule)) as [[r g]|e] eqn:E;
    [eexists; reflexivity|].
  exfalso. cbn in Hin.
  repeat (destruct Hin as [<-|Hin]; [vm_compute in E; discriminate E|]).
  exact Hin.
Qed.

#[local] Opaque ReMatch.search.

Lemma apply_rule_spec filename n line rule acc :
  In rule CUSTOM_RULES ->
  apply_rule filename n line rule acc =
  (Return tt,
   (acc ++ if rule_matches rule line
           then [rule_finding filename n line rule] else [])%list).
Proof.
  intros Hin. unfold apply_rule, rule_matches.
  destruct (custom_rule_search rule line Hin) as [o ->].
  destruct o; cbn; [reflexivity | rewrite app_nil_r; reflexivity].
Qed.

Lemma for_each_collect {A} (xs : list A) (body : A -> step)
    (g : A -> list finding) (P : A -> Prop) :
  (forall x acc, P x -> body x acc = (Return tt, (acc ++ g x)%list)) ->
  Forall P xs ->
  forall acc, for_each xs body acc = (Return tt, (acc ++ flat_map g xs)%list).
Proof.
  intros Hbody Hall. induction Hall as [|x xs Hx _ IH]; intros acc; cbn.
  - rewrite app_nil_r. reflexivity.
  - rewrite (Hbody x acc Hx), IH, <- app_assoc. reflexivity.
Qed.

Lemma flat_map_filter_map {A B} (p : A -> bool) (f : A -> B) xs :
  flat_map (fun x => if p x then [f x] else []) xs = List.map f (List.filter p xs).
Proof.
  induction xs as [|x xs IH]; [reflexivity|]. cbn. destruct (p x); cbn; congruence.
Qed.

(** The loops of [apply_custom_rules] never raise: the findings are those
    of the lines, in order. *)
Lemma apply_custom_rules_lines filename content :
  apply_custom_rules filename (Return content)
  = flat_map (findings_of_line filename)
      (PyStr.enumerate 1 (PyStr.splitlines content)).
Proof.
  unfold apply_custom_rules.
  rewrite (for_each_collect _ _ (findings_of_line filename) (fun _ => True)).
  - reflexivity.
  - intros [n line] acc _.
    rewrite (for_each_collect _ _
               (fun rule => if rule_matches rule line
                            then [rule_finding filename n line rule] else [])
               (fun rule => In rule CUSTOM_RULES)).
    + unfold findings_of_line. cbn [fst snd].
      rewrite flat_map_filter_map. reflexivity.
    + intros rule acc' Hin. apply apply_rule_spec, Hin.
    + apply Forall_forall. intros x Hx. apply list_elem_of_In. exact Hx.
  - apply Forall_forall. auto.
Qed.

Lemma enumerate_lookup {A} (xs : list A) start n x :
  (n, x) ∈ PyStr.enumerate start xs ->
  exists k : nat, xs !! k = Some x /\ n = start + Z.of_nat k.
Proof.
  revert start. induction xs as [|y xs IH]; intros start; cbn; [inversion 1|].
  intros [[= -> ->]|Hin]%elem_of_cons.
  - exists 0%nat. split; [reflexivity | lia].
  - destruct (IH _ Hin) as (k & Hk & ->). exists (S k). split; [exact Hk | lia].
Qed.

Lemma enumerate_length {A} (xs : list A) start :
  length (PyStr.enumerate start xs) = length xs.
Proof. revert start. induction xs; intros; cbn; auto. Qed.

Lemma flat_map_length_bound {A B} (g : A -> list B) (b : nat) xs :
  (forall x, (length (g x) <= b)%nat) ->
  (length (flat_map g xs) <= b * length xs)%nat.
Proof.
  intros Hg. induction xs as [|x xs IH]; cbn; [lia|].
  rewrite length_app. specialize (Hg x). lia.
Qed.

Lemma findings_of_line_length filename nl :
  (length (findings_of_line filename nl) <= 4)%nat.
Proof.
  unfold findings_of_line. rewrite length_map.
  etransitivity; [apply List.filter_length_le | reflexivity].
Qed.

Lemma sorted_block (start : Z) (xs ys : list Z) :
  Forall (fun n => n = start) xs ->
  StronglySorted Z.le ys ->
  Forall (fun n => start + 1 <= n) ys ->
  StronglySorted Z.le (xs ++ ys).
Proof.
  intros Hx Hs Hf. induction Hx as [|n ns Hn Hns IH]; cbn; [exact Hs|].
  constructor; [exact IH|]. apply Forall_app. split.
  - eapply Forall_impl; [exact Hns|]. cbn. intros; lia.
  - eapply Forall_impl; [exact Hf|]. cbn. intros; lia.
Qed.

Lemma line_of_flat_map filename start lines :
  StronglySorted Z.le
    (line_of <$> flat_map (findings_of_line filename) (PyStr.enumerate start lines))
  /\ Forall (fun n => start <= n)
       (line_of <$> flat_map (findings_of_line filename)
                       (PyStr.enumerate start lines)).
Proof.
  revert start. induction lines as [|line lines IH]; intros start; cbn.
  - split; constructor.
  - destruct (IH (start + 1)) as (Hs & Hf).
    rewrite fmap_app.
    assert (Hhere : Forall (fun n => n = start)
                      (line_of <$> findings_of_line filename (start, line))).
    { unfold findings_of_line. cbn [fst snd].
      induction (List.filter (fun r => rule_matches r line) CUSTOM_RULES)
        as [|r rs IHr]; cbn; constructor; auto. }
    split.
    + apply (sorted_block start); assumption.
    + apply Forall_app. split.
      * eapply Forall_impl; [exact Hhere|]. cbn. intros; lia.
      * eapply Forall_impl; [exact Hf|]. cbn. intros; lia.
Qed.

Lemma findings_of_line_In filename n line f :
  In f (findings_of_line filename (n, line)) <->
  exists rule, In rule CUSTOM_RULES /\ rule_matches rule line = true
               /\ f = rule_finding filename n line rule.
Proof.
  unfold findings_of_line. cbn [fst snd]. generalize CUSTOM_RULES as rs.
  intros rs. rewrite in_map_iff. split.
  - intros (rule & <- & Hr). apply filter_In in Hr as (Hin & Hm). eauto.
  - intros (rule & Hin & Hm & ->). exists rule. split; [reflexivity|].
    apply filter_In. auto.
Qed.

Lemma custom_findings_lines_aux filename content :
  Forall (fun f =>
      exists rule (k : nat) line,
        In rule CUSTOM_RULES
        /\ PyStr.splitlines content !! k = Some line
        /\ rule_matches rule line = true
        /\ f = rule_finding filename (1 + Z.of_nat k) line rule)
    (apply_custom_rules filename (Return content)).
Proof.
  rewrite apply_custom_rules_lines.
  apply Forall_forall. intros f Hf.
  apply list_elem_of_In, in_flat_map in Hf as ([n line] & Hnl & Hf).
  apply list_elem_of_In, enumerate_lookup in Hnl as (k & Hk & ->).
  destruct (proj1 (findings_of_line_In filename _ line f) Hf)
    as (rule & Hin & Hm & ->).
  exists rule, k, line.
  split; [exact Hin | split; [exact Hk | split; [exact Hm | reflexivity]]].
Qed.

(** X17: the findings of the custom rules.  For a readable file the
    findings are at most four per line of the text; each is the finding
    of one of the four rules for one line of the text, with that rule's
    name and severity, the confidence Medium and the stripped line as
    its one element, numbered from 1; and the findings come in the order
    of the lines.  For a file that cannot be read there is no finding. *)
Theorem custom_findings_are_well_formed (filename content : string) (e : exn) :
  let fs := apply_custom_rules filename (Return content) in
  let lines := PyStr.splitlines content in
  (length fs <= 4 * length lines)%nat
  /\ Forall (fun f =>
               exists rule (k : nat) line,
                 In rule CUSTOM_RULES
                 /\ lines !! k = Some line
                 /\ rule_matches rule line = true
                 /\ f = rule_finding filename (1 + Z.of_nat k) line rule) fs
  /\ StronglySorted Z.le (line_of <$> fs)
  /\ apply_custom_rules filename (Raise e) = [].
Proof.
  cbv zeta. split; [|split; [|split; [|reflexivity]]].
  - rewrite apply_custom_rules_lines.
    etransitivity;
      [apply (flat_map_length_bound _ 4), findings_of_line_length|].
    rewrite enumerate_length. reflexivity.
  - apply custom_findings_lines_aux.
  - rewrite apply_custom_rules_lines. apply line_of_flat_map.
Qed.

#[local] Transparent ReMatch.search.

Lemma starts_with_ci_cons c cs x s :
  starts_with_ci (c :: cs) (x :: s)
  = if ReMatch.lit_matches true c x then starts_with_ci cs s else None.
Proof. reflexivity. Qed.

Lemma m_literal c cs pos rest caps k :
  ReMatch.m true (literal c cs) pos rest caps k =
  match starts_with_ci (c :: cs) rest with
  | Some rest' => k (S (length cs) + pos)%nat rest' caps
  | None => None
  end.
Proof.
  revert c pos rest. induction cs as [|c' cs IH]; intros c pos rest.
  - cbn [literal ReMatch.m starts_with_ci length Nat.add].
    destruct rest as [|x rest]; [reflexivity|].
    destruct (ReMatch.lit_matches true c x); reflexivity.
  - cbn [literal ReMatch.m]. destruct rest as [|x rest]; [reflexivity|].
    rewrite starts_with_ci_cons.
    destruct (ReMatch.lit_matches true c x); [|reflexivity].
    rewrite IH. cbn [length].
    destruct (starts_with_ci (c' :: cs) rest); [|reflexivity].
    f_equal. lia.
Qed.

Lemma search_from_literal c cs pos rest :
  Loophole.found
    (ReMatch.mk_match rest 0 <$> ReMatch.search_from true (literal c cs) false pos rest)
  = occurs_ci (c :: cs) rest.
Proof.
  revert pos.
  assert (G : forall (full : list ascii) pos,
             Loophole.found
               (ReMatch.mk_match full 0
                  <$> ReMatch.search_from true (literal c cs) false pos rest)
             = occurs_ci (c :: cs) rest); [|intros; apply G].
  induction rest as [|x rest IH]; intros full pos.
  - cbn [ReMatch.search_from occurs_ci]. rewrite m_literal.
    destruct (starts_with_ci (c :: cs) []); reflexivity.
  - cbn [ReMatch.search_from occurs_ci]. rewrite m_literal.
    destruct (starts_with_ci (c :: cs) (x :: rest)); [reflexivity|].
    apply IH.
Qed.

Lemma starts_with_ci_prefix cs s :
  Forall (fun c => PyStr.lower_char c = c) cs ->
  match starts_with_ci cs (list_ascii_of_string s) with
  | Some _ => true
  | None => false
  end = String.prefix (string_of_list_ascii cs) (PyStr.lower s).
Proof.
  intros Hcs. revert s. induction Hcs as [|c cs Hc _ IH]; intros s.
  - cbn. destruct (PyStr.lower s); reflexivity.
  - destruct s as [|x s]; [reflexivity|].
    cbn [list_ascii_of_string starts_with_ci string_of_list_ascii PyStr.lower
         PyStr.map_chars String.prefix].
    unfold ReMatch.lit_matches. rewrite Hc.
    destruct (Ascii.ascii_dec c (PyStr.lower_char x)) as [->|Hne].
    + rewrite Ascii.eqb_refl. apply IH.
    + apply Ascii.eqb_neq in Hne. rewrite Hne. reflexivity.
Qed.

Lemma occurs_ci_contains cs s :
  Forall (fun c => PyStr.lower_char c = c) cs ->
  occurs_ci cs (list_ascii_of_string s)
  = PyStr.contains (string_of_list_ascii cs) (PyStr.lower s).
Proof.
  intros Hcs. induction s as [|x s IH].
  - pose proof (starts_with_ci_prefix cs "" Hcs) as H.
    change (list_ascii_of_string "") with (@nil ascii) in *.
    change (PyStr.lower "") with "" in *.
    cbn [occurs_ci PyStr.contains]. rewrite <- H.
    destruct (starts_with_ci cs []); reflexivity.
  - pose proof (starts_with_ci_prefix cs (String x s) Hcs) as H.
    change (list_ascii_of_string (String x s))
      with (x :: list_ascii_of_string s) in *.
    change (PyStr.lower (String x s))
      with (String (PyStr.lower_char x) (PyStr.lower s)) in *.
    cbn [occurs_ci PyStr.contains]. rewrite <- H, <- IH.
    destruct (starts_with_ci cs (x :: list_ascii_of_string s)); reflexivity.
Qed.

Lemma literal_rule_matches rule line c cs :
  Re.compile (r_pattern rule) = Return (literal c cs, 0%nat) ->
  Forall (fun c => PyStr.lower_char c = c) (c :: cs) ->
  rule_matches rule line
  = PyStr.contains (string_of_list_ascii (c :: cs)) (PyStr.lower line).
Proof.
  intros Hc Hlow. rewrite <- occurs_ci_contains by exact Hlow.
  rewrite <- (search_from_literal c cs 0 (list_ascii_of_string line)).
  unfold rule_matches, ReMatch.search. rewrite Hc.
  set (o := ReMatch.search_from true (literal c cs) false 0
              (list_ascii_of_string line)).
  change (match Return (ReMatch.mk_match (list_ascii_of_string line) 0 <$> o) with
          | Return (Some _) => true
          | _ => false
          end
          = Loophole.found (ReMatch.mk_match (list_ascii_of_string line) 0 <$> o)).
  clearbody o. destruct o; reflexivity.
Qed.

#[local] Opaque ReMatch.search.

Lemma tx_origin_rule_matches line :
  rule_matches tx_origin_rule line = PyStr.contains "tx.origin" (PyStr.lower line).
Proof.
  apply (literal_rule_matches tx_origin_rule line "t"
           (list_ascii_of_string "x.origin")).
  - vm_compute. reflexivity.
  - repeat constructor.
Qed.

Lemma timestamp_rule_matches line :
  rule_matches timestamp_rule line
  = PyStr.contains "block.timestamp" (PyStr.lower line).
Proof.
  apply (literal_rule_matches timestamp_rule line "b"
           (list_ascii_of_string "lock.timestamp")).
  - vm_compute. reflexivity.
  - repeat constructor.
Qed.

Lemma rule_finding_inj filename n1 n2 l1 l2 r1 r2 :
  In r1 CUSTOM_RULES -> In r2 CUSTOM_RULES ->
  rule_finding filename n1 l1 r1 = rule_finding filename n2 l2 r2 ->
  r1 = r2 /\ n1 = n2.
Proof.
  intros H1 H2 E.
  pose proof (f_equal check E) as En. pose proof (f_equal line_of E) as Enum.
  change (r_name r1 = r_name r2) in En. change (n1 = n2) in Enum.
  split; [|exact Enum]. clear E Enum.
  cbn in H1, H2.
  repeat (destruct H1 as [<-|H1]);
    repeat (destruct H2 as [<-|H2]);
    try reflexivity; try discriminate En; try contradiction.
Qed.

Lemma enumerate_In {A} (xs : list A) start (k : nat) x :
  xs !! k = Some x -> In (start + Z.of_nat k, x) (PyStr.enumerate start xs).
Proof.
  revert start k. induction xs as [|y xs IH]; intros start k Hk; [discriminate|].
  cbn [PyStr.enumerate In]. destruct k as [|k]; cbn in Hk.
  - injection Hk as ->. left. f_equal. lia.
  - right. replace (start + Z.of_nat (S k)) with ((start + 1) + Z.of_nat k) by lia.
    apply IH, Hk.
Qed.

Lemma finding_in_lines filename content (k : nat) line rule :
  PyStr.splitlines content !! k = Some line ->
  In rule CUSTOM_RULES ->
  (rule_matches rule line = true <->
   rule_finding filename (1 + Z.of_nat k) line rule
     ∈ apply_custom_rules filename (Return content)).
Proof.
  intros Hk Hin. split.
  - intros Hm. rewrite apply_custom_rules_lines.
    apply list_elem_of_In, in_flat_map.
    exists (1 + Z.of_nat k, line). split.
    + apply enumerate_In, Hk.
    + apply (proj2 (findings_of_line_In filename _ line _)).
      exists rule. split; [exact Hin | split; [exact Hm | reflexivity]].
  - intros Hf.
    pose proof (custom_findings_lines_aux filename content) as Hall.
    rewrite Forall_forall in Hall.
    destruct (Hall _ Hf) as (rule' & k' & line' & Hin' & Hk' & Hm' & E).
    destruct (rule_finding_inj _ _ _ _ _ _ _ Hin Hin' E) as [<- Ek].
    assert (k' = k) by lia. subst k'.
    rewrite Hk in Hk'. injection Hk' as <-. exact Hm'.
Qed.

(** X18: the two rules with a literal pattern, on a text of characters
    below U+0100.  For every line of such a text, the rule
    TX_Origin_Usage reports the line exactly when the line contains
    "tx.origin", and the rule Timestamp_Dependency exactly when it
    contains "block.timestamp", the case of the letters of the line
    being ignored.  (On other texts the flag [re.IGNORECASE] also lets
    U+0131 stand for [i] and U+017F for [s], which [lower] does not.) *)
Theorem literal_rules_report_containment (filename : string) (text : list N)
    (k : nat) (line : string) :
  below_256 text ->
  PyStr.splitlines (string_of_code_points text) !! k = Some line ->
  (PyStr.contains "tx.origin" (PyStr.lower line) = true <->
   rule_finding filename (1 + Z.of_nat k) line tx_origin_rule
     ∈ apply_custom_rules filename (Return (string_of_code_points text)))
  /\ (PyStr.contains "block.timestamp" (PyStr.lower line) = true <->
      rule_finding filename (1 + Z.of_nat k) line timestamp_rule
        ∈ apply_custom_rules filename (Return (string_of_code_points text))).
Proof.
  intros _ Hk. rewrite <- tx_origin_rule_matches, <- timestamp_rule_matches.
  split; apply finding_in_lines; try exact Hk; cbn; auto.
Qed.

Lemma literal_rules_report_containment_witness :
  rule_finding "c.sol" 1 "if (TX.Origin == o)" tx_origin_rule
    ∈ apply_custom_rules "c.sol" (Return "if (TX.Origin == o)").
Proof.
  assert (Hlow : below_256
                   [105; 102; 32; 40; 84; 88; 46; 79; 114; 105; 103; 105; 110;
                    32; 61; 61; 32; 111; 41]%N)
    by (repeat (constructor; [exact eq_refl|]); constructor).
  exact (proj1 (proj1 (literal_rules_report_containment "c.sol"
                         [105; 102; 32; 40; 84; 88; 46; 79; 114; 105; 103; 105;
                          110; 32; 61; 61; 32; 111; 41]%N
                         0 "if (TX.Origin == o)" Hlow eq_refl))
           eq_refl).
Defined.

End RulesMoreFacts.

(** ** The severity table of the training pass *)

Section TrainMoreFacts.
Import Train TrainMore.

Lemma dict_get_lower_case_keys (table : list (string * string)) key d :
  PyStr.lower key = key ->
  PyStr.dict_get (List.filter lower_case_key table) key d
  = PyStr.dict_get table key d.
Proof.
  intros Hkey. induction table as [|[k v] table IH]; [reflexivity|].
  cbn [List.filter PyStr.dict_get]. unfold lower_case_key at 1. cbn [fst].
  destruct (String.eqb_spec (PyStr.lower k) k) as [Hk|Hk].
  - cbn [PyStr.dict_get]. destruct (String.eqb k key); [reflexivity | exact IH].
  - destruct (String.eqb_spec k key) as [->|_]; [contradiction | exact IH].
Qed.

(** X19: the entries of the severity table of the training pass that
    are never used.  The type is lower-cased before the lookup, so it
    never equals a key that has a capital letter: the function is the
    lookup in the table without these entries.  They are the four
    entries for the names of the custom rules; the type TX_Origin_Usage
    gets Medium although the table lists High for it, which is a slip
    of the code, not a rule of the mapping. *)
Theorem mixed_case_keys_are_never_found (vuln_type : string) :
  (forall k v, In (k, v) severity_map -> PyStr.lower k <> k ->
               PyStr.lower vuln_type <> k)
  /\ get_severity_for_vulnerability vuln_type
     = PyStr.dict_get (List.filter lower_case_key severity_map)
         (PyStr.lower vuln_type) "Medium"
  /\ List.filter (fun kv => negb (lower_case_key kv)) severity_map
     = [ ("TX_Origin_Usage", "High"); ("Timestamp_Dependency", "Medium");
         ("Integer_Overflow_Underflow_Candidate_Basic", "Medium");
         ("Low_Level_Call", "Medium") ]
  /\ get_severity_for_vulnerability "TX_Origin_Usage" = "Medium".
Proof.
  split; [|split; [|split]].
  - intros k v _ Hk E. apply Hk. rewrite <- E. apply lower_idempotent.
  - unfold get_severity_for_vulnerability. symmetry.
    apply dict_get_lower_case_keys, lower_idempotent.
  - vm_compute. reflexivity.
  - vm_compute. reflexivity.
Qed.

End TrainMoreFacts.
